(** * Ticket status scripts of the pmc plugin: lifecycle and test gate

    A shallow embedding of
      plugins/pmc/skills/ticket-status/scripts/check_ticket.py
      plugins/pmc/skills/ticket-status/scripts/check_tests.py
      plugins/pmc/skills/ticket-status/scripts/check_phase.py
    and the properties of the ticket lifecycle that follow from them.

    Text is a [string] of characters with code below 256, and every
    statement about the text of a document is a statement about such a
    text; what the scripts do with other characters is not defined
    here.  Of those, [re.IGNORECASE] lets the letters s, i and k of a
    pattern also match U+017F, U+0130, U+0131 and U+212A, and
    [str.upper] leaves U+212A as it is.

    Files are values: a document is its text, the manifest is the
    outcome of reading and decoding tests.json. *)

From Stdlib Require Import String Ascii ZArith List Bool Lia.
From stdpp Require Import base option list gmap strings pretty.

Open Scope string_scope.
Open Scope nat_scope.
Open Scope list_scope.

(** ** Python's text primitives *)

Module Py.

Definition code (c : ascii) : nat := nat_of_ascii c.

(** [str.isspace] on one character, also the class [\s] of [re]. *)
Definition isspace (c : ascii) : bool :=
  let n := code c in
  ((9 <=? n) && (n <=? 13)) || ((28 <=? n) && (n <=? 32))
  || (n =? 133) || (n =? 160).

Definition lower_char (c : ascii) : ascii :=
  let n := code c in
  if ((65 <=? n) && (n <=? 90))
     || ((192 <=? n) && (n <=? 222) && negb (n =? 215))
  then ascii_of_nat (n + 32) else c.

(** [str.upper] on the characters whose upper case is again below 256
    (all of ASCII; of the rest, every letter but the three whose upper
    case lies elsewhere, which are left as they are). *)
Definition upper_char (c : ascii) : ascii :=
  let n := code c in
  if ((97 <=? n) && (n <=? 122))
     || ((224 <=? n) && (n <=? 254) && negb (n =? 247))
  then ascii_of_nat (n - 32) else c.

Fixpoint map_chars (f : ascii -> ascii) (s : string) : string :=
  match s with
  | EmptyString => EmptyString
  | String c s' => String (f c) (map_chars f s')
  end.

Definition lower (s : string) : string := map_chars lower_char s.
Definition upper (s : string) : string := map_chars upper_char s.

(** [s.replace(a, b)] for one-character [a] and [b]. *)
Definition replace_char (a b : ascii) (s : string) : string :=
  map_chars (fun c => if Ascii.eqb c a then b else c) s.

Fixpoint lstrip (s : string) : string :=
  match s with
  | EmptyString => EmptyString
  | String c s' => if isspace c then lstrip s' else s
  end.

Fixpoint rstrip (s : string) : string :=
  match s with
  | EmptyString => EmptyString
  | String c s' =>
      match rstrip s' with
      | EmptyString => if isspace c then EmptyString else String c EmptyString
      | r => String c r
      end
  end.

Definition strip (s : string) : string := rstrip (lstrip s).

Definition len (s : string) : nat := String.length s.

Fixpoint startswith (p s : string) : bool :=
  match p, s with
  | EmptyString, _ => true
  | String a p', String b s' => Ascii.eqb a b && startswith p' s'
  | String _ _, EmptyString => false
  end.

(** [sub in s] on strings. *)
Fixpoint contains (sub s : string) : bool :=
  startswith sub s
  || match s with
     | EmptyString => false
     | String _ s' => contains sub s'
     end.

(** [sep.join(l)] *)
Definition join (sep : string) (l : list string) : string :=
  String.concat sep l.

(** The scalar values a decoded JSON field can hold (numbers are the
    integers). *)
Inductive value :=
| VNone
| VBool (b : bool)
| VInt (z : Z)
| VStr (s : string).

(** [bool(v)] *)
Definition truthy (v : value) : bool :=
  match v with
  | VNone => false
  | VBool b => b
  | VInt z => negb (z =? 0)%Z
  | VStr s => negb (String.eqb s "")
  end.

(** [str(v)] *)
Definition str (v : value) : string :=
  match v with
  | VNone => "None"
  | VBool true => "True"
  | VBool false => "False"
  | VInt z => pretty z
  | VStr s => s
  end.

(** [d.get(key, default)] on an optional field. *)
Definition get {A} (field : option A) (dflt : A) : A := default dflt field.

End Py.

(** ** The fragment of Python's [re] the scripts use

    A backtracking matcher in continuation-passing style: alternatives
    are tried in the order of [re], a greedy star tries the longest
    repetition first and a lazy one the shortest.  There is one capturing
    group.  Repetition is over character classes, which is all the
    patterns of the scripts need. *)

Module Re.

Inductive regex :=
| Eps
| Chr (p : ascii -> bool)
| Seq (r1 r2 : regex)
| Alt (r1 r2 : regex)
| Star (p : ascii -> bool)
| StarLazy (p : ascii -> bool)
| Group (r : regex)
| Ahead (r : regex)
| EndZ.

(** The text between position [s] and the later position [s']. *)
Definition consumed (s s' : string) : string :=
  substring 0 (String.length s - String.length s') s.

Fixpoint star_greedy {R} (p : ascii -> bool) (s : string)
    (k : string -> option R) : option R :=
  match s with
  | String c s' =>
      if p c then
        match star_greedy p s' k with
        | Some x => Some x
        | None => k s
        end
      else k s
  | EmptyString => k s
  end.

Fixpoint star_lazy {R} (p : ascii -> bool) (s : string)
    (k : string -> option R) : option R :=
  match k s with
  | Some x => Some x
  | None =>
      match s with
      | String c s' => if p c then star_lazy p s' k else None
      | EmptyString => None
      end
  end.

(** [run r s cap k]: match [r] at the start of [s]; [cap] is the text
    of the group so far; [k] continues with the group and the rest. *)
Fixpoint run {R} (r : regex) (s : string) (cap : option string)
    (k : option string -> string -> option R) : option R :=
  match r with
  | Eps => k cap s
  | Chr p =>
      match s with
      | String c s' => if p c then k cap s' else None
      | EmptyString => None
      end
  | Seq r1 r2 => run r1 s cap (fun cap' s' => run r2 s' cap' k)
  | Alt r1 r2 =>
      match run r1 s cap k with
      | Some x => Some x
      | None => run r2 s cap k
      end
  | Star p => star_greedy p s (k cap)
  | StarLazy p => star_lazy p s (k cap)
  | Group r => run r s cap (fun _ s' => k (Some (consumed s s')) s')
  | Ahead r =>
      match run r s cap (fun _ _ => Some tt) with
      | Some _ => k cap s
      | None => None
      end
  | EndZ =>
      match s with
      | EmptyString => k cap s
      | String _ _ => None
      end
  end.

(** [re.search(r, s)]: the leftmost match; the result is [group(1)]
    (empty when the pattern has no group). *)
Fixpoint search (r : regex) (s : string) : option string :=
  match run r s None (fun cap _ => Some (default "" cap)) with
  | Some g => Some g
  | None =>
      match s with
      | EmptyString => None
      | String _ s' => search r s'
      end
  end.

Definition nl : ascii := ascii_of_nat 10.

(** A literal character, and one under [re.IGNORECASE]: two characters
    below 256 match without regard to case exactly when their lower
    case is the same. *)
Definition ch (x : ascii) : regex := Chr (Ascii.eqb x).
Definition chi (x : ascii) : regex :=
  Chr (fun c => Ascii.eqb (Py.lower_char c) (Py.lower_char x)).

Fixpoint lit (f : ascii -> regex) (s : string) : regex :=
  match s with
  | EmptyString => Eps
  | String c s' => Seq (f c) (lit f s')
  end.

(** [.] under [re.DOTALL] *)
Definition any (c : ascii) : bool := true.

(** [re.findall(r'^...', s, re.MULTILINE)] for a pattern [^r] with one
    group: the scan tries [r] where a line starts (at the start of the
    text and after each newline), takes [group(1)] of a match and goes
    on behind it.  [skip] counts the characters of the last match that
    the scan still has to pass; [bol] says that a line starts here. *)
Fixpoint scan_lines (r : regex) (bol : bool) (skip : nat) (s : string)
    : list string :=
  let next (skip' : nat) :=
    match s with
    | EmptyString => []
    | String c s' => scan_lines r (Ascii.eqb c nl) skip' s'
    end in
  match
    (if bol && Nat.eqb skip 0
     then run r s None (fun cap rest => Some (default "" cap, rest))
     else None)
  with
  | Some (g, rest) => g :: next (String.length s - String.length rest - 1)
  | None => next (skip - 1)
  end.

Definition findall_lines (r : regex) (s : string) : list string :=
  scan_lines r true 0 s.

(** [r?] and [r+] (greedy) *)
Definition opt (r : regex) : regex := Alt r Eps.
Definition plus (p : ascii -> bool) : regex := Seq (Chr p) (Star p).

Definition between (lo hi : nat) (c : ascii) : bool :=
  (lo <=? Py.code c) && (Py.code c <=? hi).
Definition is_upper_az := between 65 90.
Definition is_lower_az := between 97 122.
Definition is_digit := between 48 57.
Definition is_char (x : ascii) (c : ascii) : bool := Ascii.eqb c x.

End Re.

Definition NL : string := String Re.nl "".

(** ** The test manifest, tests.json

    The decoded file is an object whose ["tests"], when present, is an
    array of objects.  The fields of such an object have the types that
    [TestInfo] and [TestDetail] declare; [red_verified] and the elements
    of [trajectory], which the scripts coerce with [bool] and [str], are
    any scalar.  A field is [None] when its key is absent. *)

Module Manifest.

Record test := {
  t_id : option string;
  t_name : option string;
  t_status : option string;
  t_required : option bool;
  t_red_verified : option Py.value;
  t_trajectory : option (list Py.value)
}.

Record data := { d_tests : option (list test) }.

(** What [json.loads(tests_path.read_text())] gives for a file that
    exists: the decoded object, or the exception it raises
    ([json.JSONDecodeError] or [OSError]) with its message.  Any other
    file is no value of [file].  Both scripts stop with an exception
    that they do not catch on a file that is not UTF-8 ([read_text]
    raises [UnicodeDecodeError]), on one that decodes to a value that
    is not an object, and on one whose ["tests"] is null, a boolean or
    a number, or holds an element that is not an object. *)
Inductive file :=
| Raises (e : string)
| Decoded (d : data).

End Manifest.

(** The docs directory: per ticket identifier the directory
    tickets/<id> (document name to text) and the file
    tests/tickets/<id>/tests.json.  A key that is absent is a path that
    does not exist. *)
Record DocsPath := {
  tickets : gmap string (gmap string string);
  manifests : gmap string Manifest.file
}.

(** ** check_ticket.py

    The dataclasses keep their field names, but for [exists], which is
    reserved ([exists_] in [DocStatus], [ts_exists] in [TestsStatus],
    [tk_exists] in [TicketStatus]), and for [tests] of [TestsStatus],
    which is [ts_tests] next to [tests] of [TicketStatus]. *)

Module CheckTicket.

Definition REQUIRED_DOCS : list string :=
  ["1-definition.md"; "2-plan.md"; "3-spec.md"].
Definition PROGRESS_DOC : string := "4-progress.md".
Definition FINAL_DOC : string := "5-final.md".

Record DocStatus := {
  exists_ : bool;
  has_content : bool
}.

Record TestInfo := {
  id : string;
  name : string;
  status : string;
  required : bool;
  red_verified : bool;
  has_trajectory : bool
}.

Record TestsStatus := {
  ts_exists : bool;
  total : nat;
  passed : nat;
  failed : nat;
  blocked : nat;
  pending : nat;
  required_passed : nat;
  required_total : nat;
  all_red_verified : bool;
  ts_tests : list TestInfo
}.

(** [TestsStatus()] *)
Definition TestsStatus0 : TestsStatus :=
  {| ts_exists := false; total := 0; passed := 0; failed := 0;
     blocked := 0; pending := 0; required_passed := 0;
     required_total := 0; all_red_verified := false; ts_tests := [] |}.

Record TicketStatus := {
  ticket_id : string;
  tk_exists : bool;
  docs : gmap string DocStatus;
  final_status : option string;
  tests : TestsStatus;
  next_step : string;
  next_step_detail : string;
  tdd_enabled : bool
}.

(** [TicketStatus(ticket_id=ticket_id)] *)
Definition TicketStatus0 (ticket_id : string) : TicketStatus :=
  {| ticket_id := ticket_id; tk_exists := false; docs := ∅;
     final_status := None; tests := TestsStatus0;
     next_step := "missing-docs"; next_step_detail := "";
     tdd_enabled := true |}.

Definition check_doc (ticket_path : gmap string string)
    (doc_name : string) : DocStatus :=
  match ticket_path !! doc_name with
  | None => {| exists_ := false; has_content := false |}
  | Some text =>
      let content := Py.strip text in
      {| exists_ := true; has_content := 50 <? Py.len content |}
  end.

(** Pattern "Status:\s*(COMPLETE|BLOCKED)" with [re.IGNORECASE] *)
Definition re_status : Re.regex :=
  Re.Seq (Re.lit Re.chi "Status:")
    (Re.Seq (Re.Star Py.isspace)
       (Re.Group (Re.Alt (Re.lit Re.chi "COMPLETE")
                         (Re.lit Re.chi "BLOCKED")))).

(** On a text of characters below 256 the result is [None], COMPLETE
    or BLOCKED.  (When 5-final.md writes the K of BLOCKED as the sign
    U+212A, the program returns the word with that sign, which is
    neither.) *)
Definition parse_final_status (ticket_path : gmap string string)
    : option string :=
  match ticket_path !! FINAL_DOC with
  | None => None
  | Some content =>
      match Re.search re_status content with
      | Some g => Some (Py.upper g)
      | None => None
      end
  end.

(** Pattern "##\s*Constraints\s*\n(.*?)(?=\n##|\Z)" with
    [re.DOTALL | re.IGNORECASE] *)
Definition re_constraints : Re.regex :=
  Re.Seq (Re.lit Re.chi "##")
    (Re.Seq (Re.Star Py.isspace)
       (Re.Seq (Re.lit Re.chi "Constraints")
          (Re.Seq (Re.Star Py.isspace)
             (Re.Seq (Re.ch Re.nl)
                (Re.Seq (Re.Group (Re.StarLazy Re.any))
                   (Re.Ahead
                      (Re.Alt (Re.Seq (Re.ch Re.nl) (Re.lit Re.chi "##"))
                              Re.EndZ))))))).

(** Pattern "TDD:\s*no" with [re.IGNORECASE] *)
Definition re_tdd_no : Re.regex :=
  Re.Seq (Re.lit Re.chi "TDD:")
    (Re.Seq (Re.Star Py.isspace) (Re.lit Re.chi "no")).

Definition check_tdd_enabled (ticket_path : gmap string string) : bool :=
  match ticket_path !! "1-definition.md" with
  | None => true
  | Some content =>
      match Re.search re_constraints content with
      | None => true
      | Some constraints_section =>
          match Re.search re_tdd_no constraints_section with
          | Some _ => false
          | None => true
          end
      end
  end.

Definition test_info (t : Manifest.test) : TestInfo :=
  {| id := Py.get (Manifest.t_id t) "";
     name := Py.get (Manifest.t_name t) "";
     status := Py.get (Manifest.t_status t) "pending";
     required := Py.get (Manifest.t_required t) false;
     red_verified := Py.truthy (Py.get (Manifest.t_red_verified t) Py.VNone);
     has_trajectory :=
       negb (Nat.eqb (length (Py.get (Manifest.t_trajectory t) [])) 0) |}.

(** The updates of [status] that the loop of [check_tests] makes. *)
Definition set_counts (st : TestsStatus)
    (passed' failed' blocked' pending' required_passed' required_total' : nat)
    : TestsStatus :=
  {| ts_exists := ts_exists st; total := total st;
     passed := passed'; failed := failed'; blocked := blocked';
     pending := pending'; required_passed := required_passed';
     required_total := required_total';
     all_red_verified := all_red_verified st; ts_tests := ts_tests st |}.

Definition incr_passed st :=
  set_counts st (passed st + 1) (failed st) (blocked st) (pending st)
    (required_passed st) (required_total st).
Definition incr_failed st :=
  set_counts st (passed st) (failed st + 1) (blocked st) (pending st)
    (required_passed st) (required_total st).
Definition incr_blocked st :=
  set_counts st (passed st) (failed st) (blocked st + 1) (pending st)
    (required_passed st) (required_total st).
Definition incr_pending st :=
  set_counts st (passed st) (failed st) (blocked st) (pending st + 1)
    (required_passed st) (required_total st).
Definition incr_required_passed st :=
  set_counts st (passed st) (failed st) (blocked st) (pending st)
    (required_passed st + 1) (required_total st).
Definition incr_required_total st :=
  set_counts st (passed st) (failed st) (blocked st) (pending st)
    (required_passed st) (required_total st + 1).

Definition append_test (st : TestsStatus) (i : TestInfo) : TestsStatus :=
  {| ts_exists := ts_exists st; total := total st; passed := passed st;
     failed := failed st; blocked := blocked st; pending := pending st;
     required_passed := required_passed st;
     required_total := required_total st;
     all_red_verified := all_red_verified st;
     ts_tests := ts_tests st ++ [i] |}.

(** One turn of the loop of [check_tests]; the state is [status] and
    the local [all_red_verified]. *)
Definition check_tests_step (acc : TestsStatus * bool) (t : Manifest.test)
    : TestsStatus * bool :=
  let '(st, all_red) := acc in
  let st := append_test st (test_info t) in
  let test_status := Py.get (Manifest.t_status t) "pending" in
  let required := Py.get (Manifest.t_required t) false in
  let st :=
    if String.eqb test_status "passed" then
      let st := incr_passed st in
      if required then incr_required_passed st else st
    else if String.eqb test_status "failed" then incr_failed st
    else if String.eqb test_status "blocked" then incr_blocked st
    else incr_pending st in
  let st := if required then incr_required_total st else st in
  let all_red :=
    if negb (Py.truthy (Py.get (Manifest.t_red_verified t) Py.VNone))
    then false else all_red in
  (st, all_red).

Definition check_tests (docs_path : DocsPath) (ticket_id : string)
    : TestsStatus :=
  match manifests docs_path !! ticket_id with
  | None => TestsStatus0
  | Some (Manifest.Raises _) => TestsStatus0
  | Some (Manifest.Decoded data) =>
      let tests := Py.get (Manifest.d_tests data) [] in
      let st0 :=
        {| ts_exists := true; total := length tests; passed := 0;
           failed := 0; blocked := 0; pending := 0; required_passed := 0;
           required_total := 0; all_red_verified := false;
           ts_tests := [] |} in
      let '(st, all_red) := fold_left check_tests_step tests (st0, true) in
      {| ts_exists := ts_exists st; total := total st;
         passed := passed st; failed := failed st; blocked := blocked st;
         pending := pending st; required_passed := required_passed st;
         required_total := required_total st;
         all_red_verified := all_red && (0 <? total st);
         ts_tests := ts_tests st |}
  end.

Definition ids_where (f : TestInfo -> bool) (st : TicketStatus)
    : list string :=
  map id (List.filter f (ts_tests (tests st))).

Definition determine_next_step (st : TicketStatus) : string * string :=
  if negb (tk_exists st) then
    ("missing-docs", "Ticket directory " +:+ ticket_id st +:+ " not found")
  else
  let missing_docs :=
    List.filter
      (fun doc =>
         match docs st !! doc with
         | None => true
         | Some d => negb (exists_ d)
         end)
      REQUIRED_DOCS in
  if negb (Nat.eqb (length missing_docs) 0) then
    ("missing-docs", "Missing: " +:+ Py.join ", " missing_docs)
  else
  if tdd_enabled st
     && match docs st !! "3-spec.md" with
        | Some spec_status => negb (has_content spec_status)
        | None => false
        end
  then ("needs-spec", "3-spec.md exists but needs test specification")
  else
  if bool_decide (final_status st = Some "COMPLETE") then
    ("complete", "Ticket marked COMPLETE in 5-final.md")
  else
  if bool_decide (final_status st = Some "BLOCKED") then
    ("blocked", "Ticket marked BLOCKED in 5-final.md")
  else
  let tests_rule : option (string * string) :=
    if tdd_enabled st then
      if negb (ts_exists (tests st)) then
        Some ("needs-tests", "No tests.json found - create test definitions")
      else if Nat.eqb (total (tests st)) 0 then
        Some ("needs-tests", "tests.json exists but has no tests defined")
      else if 0 <? blocked (tests st) then
        Some ("tests-blocked",
              "Blocked tests: "
              +:+ Py.join ", "
                    (ids_where (fun t => String.eqb (status t) "blocked") st))
      else if negb (all_red_verified (tests st)) then
        Some ("red-phase",
              "Run RED phase for: "
              +:+ Py.join ", " (ids_where (fun t => negb (red_verified t)) st))
      else if 0 <? failed (tests st) then
        Some ("tests-failing",
              "Failing tests: "
              +:+ Py.join ", "
                    (ids_where (fun t => String.eqb (status t) "failed") st))
      else if 0 <? pending (tests st) then
        Some ("needs-impl",
              "Implement to pass: "
              +:+ Py.join ", "
                    (ids_where (fun t => String.eqb (status t) "pending") st))
      else if required_passed (tests st) <? required_total (tests st) then
        Some ("needs-impl",
              "Required tests: " +:+ pretty (required_passed (tests st))
              +:+ "/" +:+ pretty (required_total (tests st)) +:+ " passed")
      else None
    else None in
  match tests_rule with
  | Some r => r
  | None =>
      match docs st !! FINAL_DOC with
      | None =>
          ("needs-final",
           "Tests pass - create 5-final.md with Status: COMPLETE")
      | Some final =>
          if negb (exists_ final) then
            ("needs-final",
             "Tests pass - create 5-final.md with Status: COMPLETE")
          else if negb (has_content final) then
            ("needs-final", "5-final.md exists but needs Status: COMPLETE")
          else
            match final_status st with
            | None | Some "" =>
                ("needs-final",
                 "5-final.md missing Status: COMPLETE or BLOCKED")
            | Some _ => ("complete", "All requirements met")
            end
      end
  end.

Definition with_next_step (st : TicketStatus) : TicketStatus :=
  let '(step, detail) := determine_next_step st in
  {| ticket_id := ticket_id st; tk_exists := tk_exists st; docs := docs st;
     final_status := final_status st; tests := tests st;
     next_step := step; next_step_detail := detail;
     tdd_enabled := tdd_enabled st |}.

Definition check_ticket (ticket_id : string) (docs_path : DocsPath)
    : TicketStatus :=
  match tickets docs_path !! ticket_id with
  | None => with_next_step (TicketStatus0 ticket_id)
  | Some ticket_path =>
      let all_docs := (REQUIRED_DOCS ++ [PROGRESS_DOC; FINAL_DOC])%list in
      with_next_step
        {| ticket_id := ticket_id;
           tk_exists := true;
           docs :=
             fold_left (fun ds doc => <[doc := check_doc ticket_path doc]> ds)
               all_docs ∅;
           final_status := parse_final_status ticket_path;
           tests := check_tests docs_path ticket_id;
           next_step := "missing-docs";
           next_step_detail := "";
           tdd_enabled := check_tdd_enabled ticket_path |}
  end.

(** The exit status of [main]: [docs_path] is [None] when the path
    given on the command line does not exist.  The report that [main]
    prints is not modelled. *)
Definition main (ticket_id : string) (docs_path : option DocsPath) : nat :=
  match docs_path with
  | None => 1
  | Some dp =>
      let st := check_ticket ticket_id dp in
      if String.eqb (next_step st) "complete" then 0
      else if String.eqb (next_step st) "blocked" then 2
      else 1
  end.

End CheckTicket.

(** ** check_tests.py

    The dataclasses keep their field names, but for [name] of
    [SpecCase], which is [sc_name] next to [name] of [TestDetail], and
    for [issues] of [TestsCheckStatus], which is [st_issues] next to
    [issues] of [TestDetail]. *)

Module CheckTests.

Record TestDetail := {
  id : string;
  name : string;
  status : string;
  required : bool;
  red_verified : bool;
  has_trajectory : bool;
  trajectory_count : nat;
  has_red_marker : bool;
  has_green_marker : bool;
  issues : list string
}.

Record SpecCase := {
  sc_name : string;
  covered : bool;
  test_id : option string
}.

Record TestsCheckStatus := {
  ticket_id : string;
  tests_json_exists : bool;
  spec_exists : bool;
  total_tests : nat;
  tests : list TestDetail;
  spec_cases : list SpecCase;
  (** the float [covered / declared * 100] as the pair of [covered] and
      [declared]; [(0, 0)] is the default 0.0 *)
  coverage_pct : nat * nat;
  all_red_verified : bool;
  all_trajectories_complete : bool;
  st_issues : list string;
  valid : bool;
  next_step : string
}.

(** Pattern "^\|\s*( [a-z_][a-z0-9_]* )\s*\|" (the group spaced out) with
    [re.MULTILINE | re.IGNORECASE];
    the leading [^] is the line scan of [Re.findall_lines]. *)
Definition re_table : Re.regex :=
  let first c := Re.is_lower_az c || Re.is_upper_az c || Re.is_char "_" c in
  let more c := first c || Re.is_digit c in
  Re.Seq (Re.ch "|")
    (Re.Seq (Re.Star Py.isspace)
       (Re.Seq (Re.Group (Re.Seq (Re.Chr first) (Re.Star more)))
          (Re.Seq (Re.Star Py.isspace) (Re.ch "|")))).

(** Pattern "^[-*]\s*(test_[a-z0-9_]+)" with [re.MULTILINE | re.IGNORECASE] *)
Definition re_bullet : Re.regex :=
  let word c :=
    Re.is_lower_az c || Re.is_upper_az c || Re.is_digit c
    || Re.is_char "_" c in
  Re.Seq (Re.Chr (fun c => Re.is_char "-" c || Re.is_char "*" c))
    (Re.Seq (Re.Star Py.isspace)
       (Re.Group (Re.Seq (Re.lit Re.chi "test_") (Re.plus word)))).

(** Pattern "^#{2,4}\s*(?: Test:\s* )?([A-Za-z][A-Za-z0-9_\s]+)" (the
    optional part spaced out) with [re.MULTILINE] *)
Definition re_header : Re.regex :=
  let alpha c := Re.is_upper_az c || Re.is_lower_az c in
  let word c := alpha c || Re.is_digit c || Re.is_char "_" c || Py.isspace c in
  Re.Seq (Re.ch "#")
    (Re.Seq (Re.ch "#")
       (Re.Seq (Re.opt (Re.Seq (Re.ch "#") (Re.opt (Re.ch "#"))))
          (Re.Seq (Re.Star Py.isspace)
             (Re.Seq
                (Re.opt (Re.Seq (Re.lit Re.ch "Test:") (Re.Star Py.isspace)))
                (Re.Group (Re.Seq (Re.Chr alpha) (Re.plus word))))))).

Definition header_words : gset string :=
  {[ "name"; "test"; "input"; "expected"; "file"; "setup"; "action";
     "verify"; "---" ]}.

(** [parse_spec_cases] on the text of a 3-spec.md that exists. *)
Definition parse_spec_cases (content : string) : list string :=
  let table_matches := Re.findall_lines re_table content in
  let bullet_matches := Re.findall_lines re_bullet content in
  let header_matches := Re.findall_lines re_header content in
  let headers :=
    List.filter
      (fun h_clean =>
         Py.contains "test" h_clean
         || Py.startswith "unit" h_clean
         || Py.startswith "integration" h_clean
         || Py.startswith "e2e" h_clean)
      (map (fun h => Py.replace_char " " "_" (Py.lower (Py.strip h)))
           header_matches) in
  let cases := (table_matches ++ bullet_matches ++ headers)%list in
  snd
    (fold_left
       (fun (acc : gset string * list string) c =>
          let '(seen, unique) := acc in
          let c_lower := Py.strip (Py.lower c) in
          if negb (String.eqb c_lower "")
             && negb (bool_decide (c_lower ∈ seen))
             && negb (bool_decide (c_lower ∈ header_words))
             && negb (Py.startswith "---" c_lower)
          then (seen ∪ {[ c_lower ]}, (unique ++ [c])%list)
          else (seen, unique))
       cases (∅, [])).

Definition test_detail (t : Manifest.test) : TestDetail :=
  let trajectory := Py.get (Manifest.t_trajectory t) [] in
  let trajectory_str := Py.join " " (map Py.str trajectory) in
  let status := Py.get (Manifest.t_status t) "pending" in
  let red_verified :=
    Py.truthy (Py.get (Manifest.t_red_verified t) Py.VNone) in
  let has_trajectory := 0 <? length trajectory in
  let has_red_marker := Py.contains "[RED]" trajectory_str in
  let has_green_marker := Py.contains "[GREEN]" trajectory_str in
  {| id := Py.get (Manifest.t_id t) "";
     name := Py.get (Manifest.t_name t) "";
     status := status;
     required := Py.get (Manifest.t_required t) false;
     red_verified := red_verified;
     has_trajectory := has_trajectory;
     trajectory_count := length trajectory;
     has_red_marker := has_red_marker;
     has_green_marker := has_green_marker;
     issues :=
       if String.eqb status "passed" then
         ((if negb has_trajectory
           then ["Passed but no trajectory recorded"] else [])
          ++ (if negb red_verified
              then ["Passed but RED phase not verified"] else [])
          ++ (if negb has_red_marker && has_trajectory
              then ["Trajectory missing [RED] marker"] else [])
          ++ (if negb has_green_marker && has_trajectory
              then ["Trajectory missing [GREEN] marker"] else []))%list
       else [] |}.

(** What a passed record adds to [status.issues]. *)
Definition status_issues (d : TestDetail) : list string :=
  if String.eqb (status d) "passed" then
    ((if negb (has_trajectory d)
      then [id d +:+ ": passed without trajectory"] else [])
     ++ (if negb (red_verified d)
         then [id d +:+ ": missing red_verified"] else []))%list
  else [].

(** The test of the coverage loop: does record [d] cover the case? *)
Definition covers (d : TestDetail) (sc : SpecCase) : bool :=
  let test_name_lower := Py.replace_char " " "_" (Py.lower (name d)) in
  let test_id_lower := Py.lower (id d) in
  let sc_lower := Py.lower (sc_name sc) in
  Py.contains sc_lower test_name_lower
  || Py.contains sc_lower test_id_lower
  || Py.contains test_name_lower sc_lower.

Definition mark (d : TestDetail) (sc : SpecCase) : SpecCase :=
  if covers d sc
  then {| sc_name := sc_name sc; covered := true; test_id := Some (id d) |}
  else sc.

(** The state of the loop over the records. *)
Record loop_state := {
  l_tests : list TestDetail;
  l_issues : list string;
  l_spec_cases : list SpecCase;
  l_all_red : bool;
  l_all_trajectory : bool
}.

Definition loop_step (l : loop_state) (t : Manifest.test) : loop_state :=
  let detail := test_detail t in
  {| l_tests := (l_tests l ++ [detail])%list;
     l_issues := (l_issues l ++ status_issues detail)%list;
     l_spec_cases := map (mark detail) (l_spec_cases l);
     l_all_red := if negb (red_verified detail) then false else l_all_red l;
     l_all_trajectory :=
       if String.eqb (status detail) "passed" && negb (has_trajectory detail)
       then false else l_all_trajectory l |}.

Definition ids (l : list TestDetail) : list string := map id l.

Definition with_status (f : string) (l : list TestDetail)
    : list TestDetail :=
  List.filter (fun t => String.eqb (status t) f) l.

Definition check_tests (ticket_id : string) (docs_path : DocsPath)
    : TestsCheckStatus :=
  let spec := tickets docs_path !! ticket_id ≫= (.!! "3-spec.md") in
  let spec_exists := bool_decide (is_Some spec) in
  let spec_cases :=
    match spec with
    | Some content =>
        map (fun c => {| sc_name := c; covered := false; test_id := None |})
            (parse_spec_cases content)
    | None => []
    end in
  let early tests_json_exists issue next :=
    {| ticket_id := ticket_id; tests_json_exists := tests_json_exists;
       spec_exists := spec_exists; total_tests := 0; tests := [];
       spec_cases := spec_cases; coverage_pct := (0, 0);
       all_red_verified := false; all_trajectories_complete := false;
       st_issues := [issue]; valid := false; next_step := next |} in
  match manifests docs_path !! ticket_id with
  | None =>
      early false "tests.json not found" "Create tests.json from 3-spec.md"
  | Some (Manifest.Raises e) =>
      early true ("Failed to parse tests.json: " +:+ e)
        "Fix tests.json syntax"
  | Some (Manifest.Decoded data) =>
      let tests := Py.get (Manifest.d_tests data) [] in
      if Nat.eqb (length tests) 0 then
        early true "tests.json has no tests defined"
          "Add test definitions to tests.json"
      else
        let l :=
          fold_left loop_step tests
            {| l_tests := []; l_issues := []; l_spec_cases := spec_cases;
               l_all_red := true; l_all_trajectory := true |} in
        let all_red := l_all_red l in
        let all_trajectory := l_all_trajectory l in
        let has_issues := negb (Nat.eqb (length (l_issues l)) 0) in
        let pending := with_status "pending" (l_tests l) in
        let failed := with_status "failed" (l_tests l) in
        let blocked := with_status "blocked" (l_tests l) in
        {| ticket_id := ticket_id;
           tests_json_exists := true;
           spec_exists := spec_exists;
           total_tests := length tests;
           tests := l_tests l;
           spec_cases := l_spec_cases l;
           coverage_pct :=
             (length (List.filter covered (l_spec_cases l)),
              length (l_spec_cases l));
           all_red_verified := all_red;
           all_trajectories_complete := all_trajectory;
           st_issues := l_issues l;
           valid := negb has_issues;
           next_step :=
             if has_issues then
               if negb all_red then
                 "Run RED phase for tests missing red_verified"
               else if negb all_trajectory then
                 "Re-run tests and record trajectory"
               else "Fix issues listed above"
             else
               if negb (Nat.eqb (length blocked) 0) then
                 "Resolve blocked tests: " +:+ Py.join ", " (ids blocked)
               else if negb (Nat.eqb (length failed) 0) then
                 "Fix failing tests: " +:+ Py.join ", " (ids failed)
               else if negb (Nat.eqb (length pending) 0) then
                 if negb all_red then
                   "Run RED phase: "
                   +:+ Py.join ", "
                         (ids (List.filter (fun t => negb (red_verified t))
                                 pending))
                 else "Implement to pass: " +:+ Py.join ", " (ids pending)
               else "All tests passed with valid trajectory" |}
  end.

(** The exit status of [main] of check_tests.py: [docs_path] is [None]
    when the path given on the command line does not exist.  The report
    that [main] prints is not modelled. *)
Definition main (ticket_id : string) (docs_path : option DocsPath) : nat :=
  match docs_path with
  | None => 1
  | Some dp =>
      let status := check_tests ticket_id dp in
      if valid status && Nat.eqb (length (st_issues status)) 0 then 0 else 1
  end.

End CheckTests.

(** ** Vocabulary of the properties *)

Module Lifecycle.
Import CheckTicket.

(** The bucket of a record: its status when that is passed, failed or
    blocked, and pending for every other status. *)
Definition is_passed (i : TestInfo) : bool := String.eqb (status i) "passed".
Definition is_failed (i : TestInfo) : bool := String.eqb (status i) "failed".
Definition is_blocked (i : TestInfo) : bool := String.eqb (status i) "blocked".
Definition in_pending_bucket (i : TestInfo) : bool :=
  negb (is_passed i) && negb (is_failed i) && negb (is_blocked i).

Definition count (f : TestInfo -> bool) (l : list TestInfo) : nat :=
  length (List.filter f l).

(** The records of the manifest of a ticket: those of the decoded
    file, none when the file is absent or does not decode. *)
Definition records (docs_path : DocsPath) (ticket_id : string)
    : list Manifest.test :=
  match manifests docs_path !! ticket_id with
  | Some (Manifest.Decoded data) => Py.get (Manifest.d_tests data) []
  | _ => []
  end.

(** A required document is present. *)
Definition present (st : TicketStatus) (doc : string) : bool :=
  match docs st !! doc with
  | Some d => exists_ d
  | None => false
  end.

(** The rules before the final disposition do not fire: the ticket
    directory exists, the three required documents are present and,
    with the gate enabled, the spec has meaningful content. *)
Definition documents_ready (st : TicketStatus) : bool :=
  tk_exists st
  && forallb (present st) REQUIRED_DOCS
  && implb (tdd_enabled st)
       match docs st !! "3-spec.md" with
       | Some d => has_content d
       | None => true
       end.

(** The rules of the test gate do not fire (or the gate is disabled). *)
Definition test_gate_clear (st : TicketStatus) : bool :=
  implb (tdd_enabled st)
    (ts_exists (tests st)
     && negb (Nat.eqb (total (tests st)) 0)
     && Nat.eqb (blocked (tests st)) 0
     && all_red_verified (tests st)
     && Nat.eqb (failed (tests st)) 0
     && Nat.eqb (pending (tests st)) 0
     && negb (required_passed (tests st) <? required_total (tests st))).

(** No rule before needs-impl fires: the documents are ready, the final
    disposition is neither COMPLETE nor BLOCKED, the gate is enabled,
    the manifest exists with at least one record, no record is blocked,
    all records are red-verified and no record has failed. *)
Definition reaches_impl_rule (st : TicketStatus) : bool :=
  documents_ready st
  && negb (bool_decide (final_status st = Some "COMPLETE"))
  && negb (bool_decide (final_status st = Some "BLOCKED"))
  && tdd_enabled st
  && ts_exists (tests st)
  && negb (Nat.eqb (total (tests st)) 0)
  && Nat.eqb (blocked (tests st)) 0
  && all_red_verified (tests st)
  && Nat.eqb (failed (tests st)) 0.

(** The detail of needs-final for the state of the closing document. *)
Definition needs_final_detail (st : TicketStatus) : string :=
  if negb (present st FINAL_DOC) then
    "Tests pass - create 5-final.md with Status: COMPLETE"
  else
    match docs st !! FINAL_DOC with
    | Some d =>
        if has_content d
        then "5-final.md missing Status: COMPLETE or BLOCKED"
        else "5-final.md exists but needs Status: COMPLETE"
    | None => ""
    end.

(** The counters that the loop keeps are the bucket counts of the
    records it has appended. *)
Definition counted (st : TestsStatus) : Prop :=
  passed st = count is_passed (ts_tests st)
  /\ failed st = count is_failed (ts_tests st)
  /\ blocked st = count is_blocked (ts_tests st)
  /\ pending st = count in_pending_bucket (ts_tests st)
  /\ required_total st = count required (ts_tests st)
  /\ required_passed st
     = count (fun i => is_passed i && required i) (ts_tests st).

(** The marks that the records of [l] leave on one spec case in the
    coverage loop of check_tests.py. *)
Definition marks (l : list Manifest.test) (sc : CheckTests.SpecCase)
    : CheckTests.SpecCase :=
  fold_left (fun sc t => CheckTests.mark (CheckTests.test_detail t) sc) l sc.

(** The docs directory without the manifest of a ticket. *)
Definition without_manifest (docs_path : DocsPath) (ticket_id : string)
    : DocsPath :=
  {| tickets := tickets docs_path;
     manifests := delete ticket_id (manifests docs_path) |}.

End Lifecycle.

(** ** Sample tickets *)

Module Samples.

Definition T1 : string := "T00001".

Definition definition_md : string :=
  "# T00001 Login" +:+ NL +:+ "## Goal" +:+ NL
  +:+ "Users sign in with a password and get a session." +:+ NL.

Definition plan_md : string :=
  "# Plan" +:+ NL +:+ "1. Add the session table." +:+ NL
  +:+ "2. Add the login endpoint and its checks." +:+ NL.

Definition spec_md : string :=
  "# Test specification" +:+ NL
  +:+ "| name | input | expected |" +:+ NL
  +:+ "|---|---|---|" +:+ NL
  +:+ "| tc1_login | valid user | session |" +:+ NL.

Definition final_complete : string :=
  "# Final" +:+ NL +:+ "Status: COMPLETE" +:+ NL
  +:+ "Signed off after a manual review of the login flow." +:+ NL.


Definition ticket_dir (final : option string) : gmap string string :=
  let required :=
    <["1-definition.md" := definition_md]>
      (<["2-plan.md" := plan_md]> (<["3-spec.md" := spec_md]> ∅)) in
  match final with
  | Some text => <["5-final.md" := text]> required
  | None => required
  end.

Definition docs_with (final : option string) (m : option Manifest.file)
    : DocsPath :=
  {| tickets := {[ T1 := ticket_dir final ]};
     manifests :=
       match m with
       | Some f => {[ T1 := f ]}
       | None => ∅
       end |}.

Definition record (id name status : string) (required : bool)
    (red_verified : Py.value) (trajectory : list Py.value) : Manifest.test :=
  {| Manifest.t_id := Some id;
     Manifest.t_name := Some name;
     Manifest.t_status := Some status;
     Manifest.t_required := Some required;
     Manifest.t_red_verified := Some red_verified;
     Manifest.t_trajectory := Some trajectory |}.

Definition manifest (l : list Manifest.test) : Manifest.file :=
  Manifest.Decoded {| Manifest.d_tests := Some l |}.

Definition evidence : list Py.value :=
  [Py.VStr "[RED] login fails without the endpoint";
   Py.VStr "[GREEN] login passes"].

(** A ticket signed off while its tests fail, pend, block and lack the
    RED verification. *)
Definition signed_off : DocsPath :=
  docs_with (Some final_complete)
    (Some (manifest
       [record "TC1" "Check auth" "failed" true (Py.VBool true) evidence;
        record "TC2" "Check logout" "pending" true (Py.VBool false) [];
        record "TC3" "Check expiry" "blocked" false Py.VNone []])).

(** Two verified records that pass. *)
Definition all_green : DocsPath :=
  docs_with None
    (Some (manifest
       [record "TC1" "Check auth" "passed" true (Py.VBool true) evidence;
        record "TC2" "Check logout" "passed" false (Py.VInt 1) evidence])).


(** tests.json exists and does not decode. *)
Definition malformed : DocsPath :=
  docs_with None
    (Some (Manifest.Raises "Expecting value: line 1 column 1 (char 0)")).

(** No tests.json. *)
Definition no_manifest : DocsPath := docs_with None None.

(** No ticket directory at all. *)
Definition empty_docs : DocsPath := {| tickets := ∅; manifests := ∅ |}.

(** One verified record that is running. *)
Definition running : DocsPath :=
  docs_with None
    (Some (manifest
       [record "TC1" "Check auth" "running" false (Py.VBool true) []])).

(** A record that passed with no trajectory. *)
Definition passed_bare : Manifest.test :=
  record "TC1" "Check auth" "passed" true (Py.VBool true) [].

(** A record that passed with a trajectory that has no marker. *)
Definition passed_unmarked : Manifest.test :=
  record "TC1" "Check auth" "passed" true (Py.VBool false)
    [Py.VStr "ran the suite"].

(** The spec declares the case tc1_login; the only record has the
    identifier TC1 and another name. *)
Definition by_identifier : DocsPath :=
  docs_with None (Some (manifest [passed_bare])).

(** A definition whose Constraints section is empty and whose next
    section mentions the opt-out. *)
Definition definition_leak : string :=
  "# T00001 Login" +:+ NL
  +:+ "## Constraints" +:+ NL
  +:+ "## Notes" +:+ NL
  +:+ "- TDD: no" +:+ NL.

(** The same with a body in the Constraints section. *)
Definition definition_scoped : string :=
  "# T00001 Login" +:+ NL
  +:+ "## Constraints" +:+ NL
  +:+ "- none" +:+ NL
  +:+ "## Notes" +:+ NL
  +:+ "- TDD: no" +:+ NL.

(** The opt-out where it belongs. *)
Definition definition_opt_out : string :=
  "# T00001 Login" +:+ NL
  +:+ "## Constraints" +:+ NL
  +:+ "- TDD: no (trivial: wording only)" +:+ NL
  +:+ "## Notes" +:+ NL
  +:+ "- none" +:+ NL.

Definition final_blocked : string :=
  "# Final" +:+ NL +:+ "status: blocked" +:+ NL
  +:+ "Waiting for the decision on the session store." +:+ NL.

(** One record that passed without the RED verification, given with
    the three keys status, required and red_verified only. *)
Definition unverified_pass : DocsPath :=
  docs_with None
    (Some (manifest
       [{| Manifest.t_id := Some "TC1";
           Manifest.t_name := None;
           Manifest.t_status := Some "passed";
           Manifest.t_required := Some true;
           Manifest.t_red_verified := Some (Py.VBool false);
           Manifest.t_trajectory := None |}])).

(** A closing document that says BLOCKED over records that pass. *)
Definition blocked_by_hand : DocsPath :=
  {| tickets := {[ T1 := ticket_dir (Some final_blocked) ]};
     manifests := manifests all_green |}.

(** The gate opted out, no manifest, the closing document COMPLETE. *)
Definition opted_out : DocsPath :=
  {| tickets :=
       {[ T1 := <["1-definition.md" := definition_opt_out]>
                  (ticket_dir (Some final_complete)) ]};
     manifests := ∅ |}.

(** A spec with a table, a bullet and headings. *)
Definition spec_all_forms : string :=
  "# Spec" +:+ NL
  +:+ "| name | input |" +:+ NL
  +:+ "|---|---|" +:+ NL
  +:+ "| tc1_login | x |" +:+ NL
  +:+ "- test_logout: y" +:+ NL
  +:+ "## Test: Big One" +:+ NL
  +:+ "### Unit stuff" +:+ NL
  +:+ "## Other" +:+ NL.

(** The running record, and behind it a pending one named after the
    case of the spec. *)
Definition running_then_login : DocsPath :=
  docs_with None
    (Some (manifest
       [record "TC1" "Check auth" "running" false (Py.VBool true) [];
        record "TC2" "tc1 login" "pending" true (Py.VBool true) []])).


End Samples.

(** ** check_phase.py: the summary of one ticket *)

Module CheckPhase.

(** [exists] is [ts_exists] here. *)
Record TicketSummary := {
  ticket_id : string;
  ts_exists : bool;
  has_final : bool;
  final_status : option string;
  next_step : string
}.

(** Pattern "Status:\s*(COMPLETE|BLOCKED)" with [re.IGNORECASE] *)
Definition re_status : Re.regex :=
  Re.Seq (Re.lit Re.chi "Status:")
    (Re.Seq (Re.Star Py.isspace)
       (Re.Group (Re.Alt (Re.lit Re.chi "COMPLETE")
                         (Re.lit Re.chi "BLOCKED")))).

(** [final_status] is read as in [CheckTicket.parse_final_status], on
    a text of characters below 256. *)
Definition check_ticket_status (ticket_id : string) (docs_path : DocsPath)
    : TicketSummary :=
  match tickets docs_path !! ticket_id with
  | None =>
      {| ticket_id := ticket_id; ts_exists := false; has_final := false;
         final_status := None; next_step := "missing" |}
  | Some ticket_path =>
      match ticket_path !! "5-final.md" with
      | Some content =>
          match Re.search re_status content with
          | Some g =>
              let final_status := Py.upper g in
              {| ticket_id := ticket_id; ts_exists := true; has_final := true;
                 final_status := Some final_status;
                 next_step :=
                   if String.eqb final_status "COMPLETE"
                   then "complete" else "blocked" |}
          | None =>
              {| ticket_id := ticket_id; ts_exists := true; has_final := true;
                 final_status := None; next_step := "needs-final-status" |}
          end
      | None =>
          let required_docs := ["1-definition.md"; "2-plan.md"; "3-spec.md"] in
          let missing :=
            List.filter (fun d => bool_decide (ticket_path !! d = None))
              required_docs in
          {| ticket_id := ticket_id; ts_exists := true; has_final := false;
             final_status := None;
             next_step :=
               if negb (Nat.eqb (length missing) 0)
               then "missing-docs" else "in-progress" |}
      end
  end.

(** [tickets] and [next_step] of [PhaseStatus] are [ps_tickets] and
    [ps_next_step] here. *)
Record PhaseStatus := {
  phase_id : string;
  found : bool;
  goal : string;
  ps_tickets : list TicketSummary;
  total : nat;
  complete : nat;
  blocked : nat;
  in_progress : nat;
  phase_complete : bool;
  ps_next_step : string;
  next_ticket : option string
}.

(** One turn of the loop of [check_phase] over the tickets. *)
Definition tally (docs_path : DocsPath) (status : PhaseStatus)
    (ticket_id : string) : PhaseStatus :=
  let ticket_summary := check_ticket_status ticket_id docs_path in
  let is_complete :=
    bool_decide (final_status ticket_summary = Some "COMPLETE") in
  let is_blocked :=
    bool_decide (final_status ticket_summary = Some "BLOCKED") in
  {| phase_id := phase_id status;
     found := found status;
     goal := goal status;
     ps_tickets := (ps_tickets status ++ [ticket_summary])%list;
     total := total status;
     complete := if is_complete then complete status + 1 else complete status;
     blocked :=
       if is_complete then blocked status
       else if is_blocked then blocked status + 1 else blocked status;
     in_progress :=
       if is_complete then in_progress status
       else if is_blocked then in_progress status
       else in_progress status + 1;
     phase_complete := phase_complete status;
     ps_next_step := ps_next_step status;
     next_ticket :=
       if is_complete then next_ticket status
       else if is_blocked then next_ticket status
       else match next_ticket status with
            | None => Some ticket_id
            | Some t => Some t
            end |}.

(** [check_phase]; what [parse_roadmap_phase] returns for the roadmap
    of the docs path and the phase is the argument [roadmap]: whether
    the phase was found, its goal and its tickets.  In the last message
    [default "None"] is the text that the f-string gives for [None]. *)
Definition check_phase (phase_id : string) (docs_path : DocsPath)
    (roadmap : bool * string * list string) : PhaseStatus :=
  let '(found, goal, tickets) := roadmap in
  if negb found then
    {| phase_id := phase_id; found := false; goal := ""; ps_tickets := [];
       total := 0; complete := 0; blocked := 0; in_progress := 0;
       phase_complete := false;
       ps_next_step := "Phase " +:+ phase_id +:+ " not found in roadmap.md";
       next_ticket := None |}
  else
    let status :=
      fold_left (tally docs_path) tickets
        {| phase_id := phase_id; found := true; goal := goal;
           ps_tickets := []; total := length tickets; complete := 0;
           blocked := 0; in_progress := 0; phase_complete := false;
           ps_next_step := ""; next_ticket := None |} in
    let all_complete :=
      negb (Nat.eqb (total status) 0)
      && negb (0 <? blocked status)
      && Nat.eqb (complete status) (total status) in
    {| phase_id := phase_id; found := true; goal := goal;
       ps_tickets := ps_tickets status; total := total status;
       complete := complete status; blocked := blocked status;
       in_progress := in_progress status;
       phase_complete := all_complete;
       ps_next_step :=
         if Nat.eqb (total status) 0 then "No tickets in phase"
         else if 0 <? blocked status then
           pretty (blocked status) +:+ " ticket(s) blocked"
         else if Nat.eqb (complete status) (total status) then
           "Phase complete - ready to archive"
         else
           pretty (total status - complete status)
           +:+ " ticket(s) remaining - next: "
           +:+ default "None" (next_ticket status);
       next_ticket := next_ticket status |}.

(** The exit status of [main] of check_phase.py: [docs_path] is [None]
    when the path given on the command line does not exist; [roadmap]
    is what [parse_roadmap_phase] returns.  The report that [main]
    prints is not modelled. *)
Definition main (phase_id : string) (docs_path : option DocsPath)
    (roadmap : bool * string * list string) : nat :=
  match docs_path with
  | None => 1
  | Some dp =>
      let status := check_phase phase_id dp roadmap in
      if negb (found status) then 3
      else if phase_complete status then 0
      else if 0 <? blocked status then 2
      else 1
  end.

End CheckPhase.

(** ** Vocabulary of the further properties *)

Module Facts.
Import CheckTicket Lifecycle.

(** The required documents that the status does not have. *)
Definition missing_docs (st : TicketStatus) : list string :=
  List.filter
    (fun doc =>
       match docs st !! doc with
       | None => true
       | Some d => negb (exists_ d)
       end)
    REQUIRED_DOCS.

(** The required documents that are not in the ticket directory. *)
Definition absent_files (ticket_path : gmap string string) : list string :=
  List.filter (fun doc => bool_decide (ticket_path !! doc = None))
    REQUIRED_DOCS.

(** The rules of the test gate are reached: the documents are ready, the
    final disposition is neither COMPLETE nor BLOCKED and the gate is
    enabled. *)
Definition at_gate (st : TicketStatus) : Prop :=
  documents_ready st = true
  /\ final_status st <> Some "COMPLETE"
  /\ final_status st <> Some "BLOCKED"
  /\ tdd_enabled st = true.

(** The rules of the closing document are reached. *)
Definition past_gate (st : TicketStatus) : Prop :=
  documents_ready st = true
  /\ final_status st <> Some "COMPLETE"
  /\ final_status st <> Some "BLOCKED"
  /\ test_gate_clear st = true.

(** The rules of [determine_next_step], each with the rules before it
    excluded: [fires st step detail] says that the first rule that
    applies to [st] gives [step] and [detail]. *)
Inductive fires (st : TicketStatus) : string -> string -> Prop :=
| R_no_ticket :
    tk_exists st = false ->
    fires st "missing-docs"
      ("Ticket directory " +:+ ticket_id st +:+ " not found")
| R_missing_docs :
    tk_exists st = true -> missing_docs st <> [] ->
    fires st "missing-docs" ("Missing: " +:+ Py.join ", " (missing_docs st))
| R_needs_spec d :
    tk_exists st = true -> missing_docs st = [] -> tdd_enabled st = true ->
    docs st !! "3-spec.md" = Some d -> has_content d = false ->
    fires st "needs-spec" "3-spec.md exists but needs test specification"
| R_complete :
    documents_ready st = true -> final_status st = Some "COMPLETE" ->
    fires st "complete" "Ticket marked COMPLETE in 5-final.md"
| R_blocked :
    documents_ready st = true -> final_status st = Some "BLOCKED" ->
    fires st "blocked" "Ticket marked BLOCKED in 5-final.md"
| R_no_manifest :
    at_gate st -> ts_exists (tests st) = false ->
    fires st "needs-tests" "No tests.json found - create test definitions"
| R_no_tests :
    at_gate st -> ts_exists (tests st) = true -> total (tests st) = 0 ->
    fires st "needs-tests" "tests.json exists but has no tests defined"
| R_tests_blocked :
    at_gate st -> ts_exists (tests st) = true -> total (tests st) <> 0 ->
    0 < blocked (tests st) ->
    fires st "tests-blocked"
      ("Blocked tests: "
       +:+ Py.join ", "
             (ids_where (fun t => String.eqb (status t) "blocked") st))
| R_red_phase :
    at_gate st -> ts_exists (tests st) = true -> total (tests st) <> 0 ->
    blocked (tests st) = 0 -> all_red_verified (tests st) = false ->
    fires st "red-phase"
      ("Run RED phase for: "
       +:+ Py.join ", " (ids_where (fun t => negb (red_verified t)) st))
| R_tests_failing :
    at_gate st -> ts_exists (tests st) = true -> total (tests st) <> 0 ->
    blocked (tests st) = 0 -> all_red_verified (tests st) = true ->
    0 < failed (tests st) ->
    fires st "tests-failing"
      ("Failing tests: "
       +:+ Py.join ", "
             (ids_where (fun t => String.eqb (status t) "failed") st))
| R_pending :
    at_gate st -> ts_exists (tests st) = true -> total (tests st) <> 0 ->
    blocked (tests st) = 0 -> all_red_verified (tests st) = true ->
    failed (tests st) = 0 -> 0 < pending (tests st) ->
    fires st "needs-impl"
      ("Implement to pass: "
       +:+ Py.join ", "
             (ids_where (fun t => String.eqb (status t) "pending") st))
| R_required :
    at_gate st -> ts_exists (tests st) = true -> total (tests st) <> 0 ->
    blocked (tests st) = 0 -> all_red_verified (tests st) = true ->
    failed (tests st) = 0 -> pending (tests st) = 0 ->
    required_passed (tests st) < required_total (tests st) ->
    fires st "needs-impl"
      ("Required tests: " +:+ pretty (required_passed (tests st))
       +:+ "/" +:+ pretty (required_total (tests st)) +:+ " passed")
| R_final_absent :
    past_gate st -> present st FINAL_DOC = false ->
    fires st "needs-final"
      "Tests pass - create 5-final.md with Status: COMPLETE"
| R_final_empty d :
    past_gate st -> docs st !! FINAL_DOC = Some d -> exists_ d = true ->
    has_content d = false ->
    fires st "needs-final" "5-final.md exists but needs Status: COMPLETE"
| R_final_unset d :
    past_gate st -> docs st !! FINAL_DOC = Some d -> exists_ d = true ->
    has_content d = true ->
    (final_status st = None \/ final_status st = Some "") ->
    fires st "needs-final" "5-final.md missing Status: COMPLETE or BLOCKED"
| R_fallback d s :
    past_gate st -> docs st !! FINAL_DOC = Some d -> exists_ d = true ->
    has_content d = true -> final_status st = Some s -> s <> "" ->
    fires st "complete" "All requirements met".

(** The status with other tests. *)
Definition with_tests (st : TicketStatus) (ts : TestsStatus) : TicketStatus :=
  {| ticket_id := ticket_id st; tk_exists := tk_exists st; docs := docs st;
     final_status := final_status st; tests := ts;
     next_step := next_step st; next_step_detail := next_step_detail st;
     tdd_enabled := tdd_enabled st |}.

(** Every character of the text is in the class. *)
Fixpoint all_chars (p : ascii -> bool) (s : string) : bool :=
  match s with
  | EmptyString => true
  | String c s' => p c && all_chars p s'
  end.

(** Every character of the text is whitespace. *)
Definition all_space (s : string) : bool := all_chars Py.isspace s.

(** The text starts with a character that is not whitespace. *)
Definition starts_with_text (s : string) : bool :=
  match s with
  | String c _ => negb (Py.isspace c)
  | EmptyString => false
  end.

(** A record of check_tests.py that passed has its evidence: a
    trajectory and the RED verification. *)
Definition evidenced (d : CheckTests.TestDetail) : bool :=
  negb (String.eqb (CheckTests.status d) "passed")
  || (CheckTests.has_trajectory d && CheckTests.red_verified d).

(** The case names that 3-spec.md of the ticket declares: none when
    the file is absent. *)
Definition declared (docs_path : DocsPath) (ticket_id : string)
    : list string :=
  match tickets docs_path !! ticket_id ≫= (.!! "3-spec.md") with
  | Some content => CheckTests.parse_spec_cases content
  | None => []
  end.

(** [SpecCase(name=c, covered=False)] *)
Definition fresh_case (c : string) : CheckTests.SpecCase :=
  {| CheckTests.sc_name := c; CheckTests.covered := false;
     CheckTests.test_id := None |}.

(** The form under which [parse_spec_cases] compares case names. *)
Definition normal_case (c : string) : string := Py.strip (Py.lower c).

(** A name that [parse_spec_cases] may keep: not empty, not a word of a
    table header, not a separator. *)
Definition keepable (c : string) : Prop :=
  normal_case c <> ""
  /\ (normal_case c ∉ CheckTests.header_words)
  /\ Py.startswith "---" (normal_case c) = false.

(** One turn of the loop of [parse_spec_cases] that removes the
    duplicates; the state is [seen] and [unique]. *)
Definition dedupe_step (acc : gset string * list string) (c : string)
    : gset string * list string :=
  let '(seen, unique) := acc in
  let c_lower := Py.strip (Py.lower c) in
  if negb (String.eqb c_lower "")
     && negb (bool_decide (c_lower ∈ seen))
     && negb (bool_decide (c_lower ∈ CheckTests.header_words))
     && negb (Py.startswith "---" c_lower)
  then (seen ∪ {[ c_lower ]}, (unique ++ [c])%list)
  else (seen, unique).

(** The invariant of that loop: [seen] holds the normal forms of
    [unique], which are pairwise different and keepable. *)
Definition deduped (acc : gset string * list string) : Prop :=
  (forall x, x ∈ fst acc <-> In x (map normal_case (snd acc)))
  /\ NoDup (map normal_case (snd acc))
  /\ forall c, In c (snd acc) -> keepable c.

(** The disposition that check_phase.py reads for a ticket, and the
    tickets it counts as complete, as blocked and as in progress. *)
Definition disposition (docs_path : DocsPath) (ticket_id : string)
    : option string :=
  CheckPhase.final_status (CheckPhase.check_ticket_status ticket_id docs_path).

Definition is_complete (docs_path : DocsPath) (ticket_id : string) : bool :=
  bool_decide (disposition docs_path ticket_id = Some "COMPLETE").

Definition is_held (docs_path : DocsPath) (ticket_id : string) : bool :=
  bool_decide (disposition docs_path ticket_id = Some "BLOCKED").

Definition is_open (docs_path : DocsPath) (ticket_id : string) : bool :=
  negb (is_complete docs_path ticket_id) && negb (is_held docs_path ticket_id).

(** The number of tickets of the list with the property. *)
Definition cnt (f : string -> bool) (l : list string) : nat :=
  length (List.filter f l).

(** The ten tags of [NextStep]. *)
Definition NextStep : list string :=
  ["missing-docs"; "needs-spec"; "needs-tests"; "red-phase"; "needs-impl";
   "tests-failing"; "tests-blocked"; "needs-final"; "blocked"; "complete"].

End Facts.

(** ** What a successful match of the engine says *)

Section Matching.

Lemma length_app_string u v :
  String.length (u +:+ v) = String.length u + String.length v.
Proof. induction u as [|c u IH]; simpl; [done | by rewrite IH]. Qed.

Lemma consumed_app u rest : Re.consumed (u +:+ rest) rest = u.
Proof.
  unfold Re.consumed. rewrite length_app_string.
  replace (String.length u + String.length rest - String.length rest)
    with (String.length u) by lia.
  induction u as [|c u IH]; simpl.
  - by destruct rest.
  - by rewrite IH.
Qed.

(** A literal under IGNORECASE consumes a text that is the literal up
    to case. *)
Lemma run_lit_chi_inv {R} w : forall s cap (k : option string -> string -> option R) x,
  Re.run (Re.lit Re.chi w) s cap k = Some x ->
  exists u rest,
    s = u +:+ rest /\ Py.lower u = Py.lower w /\ k cap rest = Some x.
Proof.
  induction w as [|a w IH]; intros s cap k x; cbn [Re.lit Re.run].
  - intros H. exists "", s. done.
  - unfold Re.chi at 1. cbn [Re.run].
    destruct s as [|c s]; [done|].
    destruct (Ascii.eqb_spec (Py.lower_char c) (Py.lower_char a)) as [E|E];
      [|done].
    intros (u & rest & -> & Hl & Hk)%IH.
    exists (String c u), rest.
    unfold Py.lower in *. cbn [Py.map_chars String.append].
    by rewrite E, Hl.
Qed.

End Matching.

(** ** The aggregator of check_ticket.py *)

Section Aggregator.
Import CheckTicket Lifecycle.

Lemma count_app f l1 l2 : count f (l1 ++ l2) = count f l1 + count f l2.
Proof. unfold count. by rewrite List.filter_app, length_app. Qed.

Lemma count_one f i : count f [i] = if f i then 1 else 0.
Proof. unfold count. simpl. by destruct (f i). Qed.

(** Every record is in exactly one bucket. *)
Lemma buckets_partition l :
  count is_passed l + count is_failed l + count is_blocked l
  + count in_pending_bucket l = length l.
Proof.
  induction l as [|i l IH]; [done|].
  change (i :: l) with ([i] ++ l).
  rewrite !count_app, !count_one, length_app. simpl.
  unfold in_pending_bucket, is_passed, is_failed, is_blocked in *.
  destruct (String.eqb_spec (status i) "passed") as [E1|E1];
    destruct (String.eqb_spec (status i) "failed") as [E2|E2];
    destruct (String.eqb_spec (status i) "blocked") as [E3|E3];
    simpl; try congruence; lia.
Qed.

Lemma step_counted st b t :
  counted st -> counted (fst (check_tests_step (st, b) t)).
Proof.
  intros (Hp & Hf & Hb & Hn & Ht & Hr).
  unfold counted, check_tests_step, test_info; simpl.
  set (s := Py.get (Manifest.t_status t) "pending").
  set (r := Py.get (Manifest.t_required t) false).
  destruct (String.eqb_spec s "passed") as [E1|E1];
    destruct (String.eqb_spec s "failed") as [E2|E2];
    destruct (String.eqb_spec s "blocked") as [E3|E3];
    try congruence;
    destruct r eqn:Er; simpl;
    rewrite !count_app, !count_one;
    unfold in_pending_bucket, is_passed, is_failed, is_blocked in *; simpl;
    fold s;
    repeat match goal with
           | |- context [String.eqb s ?x] =>
               destruct (String.eqb_spec s x); try congruence
           end;
    simpl; repeat split; lia.
Qed.

Lemma step_total st b t :
  total (fst (check_tests_step (st, b) t)) = total st
  /\ ts_exists (fst (check_tests_step (st, b) t)) = ts_exists st
  /\ ts_tests (fst (check_tests_step (st, b) t))
     = (ts_tests st ++ [test_info t])%list
  /\ snd (check_tests_step (st, b) t)
     = b && red_verified (test_info t).
Proof.
  unfold check_tests_step, test_info; simpl.
  set (s := Py.get (Manifest.t_status t) "pending").
  destruct (String.eqb s "passed"), (String.eqb s "failed"),
    (String.eqb s "blocked"), (Py.get (Manifest.t_required t) false),
    (Py.truthy (Py.get (Manifest.t_red_verified t) Py.VNone)), b;
    simpl; done.
Qed.

Lemma loop_spec l : forall st b,
  counted st ->
  counted (fst (fold_left check_tests_step l (st, b)))
  /\ total (fst (fold_left check_tests_step l (st, b))) = total st
  /\ ts_exists (fst (fold_left check_tests_step l (st, b))) = ts_exists st
  /\ ts_tests (fst (fold_left check_tests_step l (st, b)))
     = ts_tests st ++ map test_info l
  /\ snd (fold_left check_tests_step l (st, b))
     = b && forallb (fun t => red_verified (test_info t)) l.
Proof.
  induction l as [|t l IH]; intros st b Hc.
  - cbn [fold_left fst snd map forallb].
    rewrite app_nil_r, andb_true_r. done.
  - cbn [fold_left map forallb].
    pose proof (step_counted st b t Hc) as Hc1.
    pose proof (step_total st b t) as (Ht & He & Hl & Hb).
    destruct (check_tests_step (st, b) t) as [st1 b1].
    cbn [fst snd] in Hc1, Ht, He, Hl, Hb.
    destruct (IH st1 b1 Hc1) as (H1 & H2 & H3 & H4 & H5).
    subst b1.
    rewrite H2, H3, H4, H5, Ht, He, Hl, <- app_assoc, andb_assoc.
    done.
Qed.

(** The status that [check_tests] returns for a manifest that decodes. *)
Lemma check_tests_decoded docs_path ticket_id data :
  manifests docs_path !! ticket_id = Some (Manifest.Decoded data) ->
  let l := Py.get (Manifest.d_tests data) [] in
  let st := check_tests docs_path ticket_id in
  counted st
  /\ total st = length l
  /\ ts_exists st = true
  /\ ts_tests st = map test_info l
  /\ all_red_verified st
     = forallb (fun t => red_verified (test_info t)) l && (0 <? length l).
Proof.
  intros Hm l st. subst st. unfold check_tests. rewrite Hm. fold l.
  match goal with
  | |- context [fold_left check_tests_step l (?s, true)] =>
      pose proof (loop_spec l s true) as H; set (s0 := s) in *
  end.
  destruct (fold_left check_tests_step l (s0, true)) as [st b] eqn:E.
  simpl in H.
  destruct H as (Hc & Ht & He & Hl & Hb).
  { unfold counted, s0; simpl. done. }
  unfold counted in *; simpl in *.
  rewrite Ht, Hb. done.
Qed.

Lemma check_tests_not_decoded docs_path ticket_id :
  (manifests docs_path !! ticket_id = None
   \/ exists e, manifests docs_path !! ticket_id = Some (Manifest.Raises e)) ->
  check_tests docs_path ticket_id = TestsStatus0.
Proof.
  unfold check_tests. intros [-> | [e ->]]; done.
Qed.

End Aggregator.

(** ** The decision procedure of check_ticket.py *)

Section Decision.
Import CheckTicket Lifecycle.

Lemma no_missing_docs st l :
  forallb (present st) l = true ->
  List.filter
    (fun doc =>
       match docs st !! doc with
       | None => true
       | Some d => negb (exists_ d)
       end) l = [].
Proof.
  induction l as [|doc l IH]; [done|].
  cbn [forallb List.filter]. unfold present at 1.
  intros [H1 H2]%andb_true_iff.
  destruct (docs st !! doc) as [d|]; [|done].
  rewrite H1. cbn [negb]. auto.
Qed.

Lemma documents_ready_inv st :
  documents_ready st = true ->
  tk_exists st = true
  /\ forallb (present st) REQUIRED_DOCS = true
  /\ (tdd_enabled st
      && match docs st !! "3-spec.md" with
         | Some spec_status => negb (has_content spec_status)
         | None => false
         end) = false.
Proof.
  unfold documents_ready.
  intros [[H1 H2]%andb_true_iff H3]%andb_true_iff.
  repeat split; try done.
  destruct (tdd_enabled st); [|done].
  cbn [implb andb] in *.
  destruct (docs st !! "3-spec.md") as [d|]; [|done].
  by rewrite H3.
Qed.

Ltac past_documents H :=
  let Htk := fresh "Htk" in
  let Hdocs := fresh "Hdocs" in
  let Hspec := fresh "Hspec" in
  destruct (documents_ready_inv _ H) as (Htk & Hdocs & Hspec);
  unfold determine_next_step;
  rewrite Htk; cbn [negb]; cbv zeta;
  rewrite (no_missing_docs _ _ Hdocs); cbn [length Nat.eqb negb];
  rewrite Hspec.

(** C1. A ticket whose directory and three required documents exist
    (with a spec that has content when the gate is enabled) and whose
    final disposition is COMPLETE is classified complete, whatever the
    test records say and whether or not there is a manifest: the
    status of the tests is arbitrary here. *)
Theorem complete_overrides_tests (st : TicketStatus) :
  documents_ready st = true ->
  final_status st = Some "COMPLETE" ->
  determine_next_step st
  = ("complete", "Ticket marked COMPLETE in 5-final.md").
Proof.
  intros Hready Hfinal.
  past_documents Hready.
  rewrite Hfinal. done.
Qed.

Lemma with_next_step_fields s :
  ticket_id (with_next_step s) = ticket_id s
  /\ tk_exists (with_next_step s) = tk_exists s
  /\ docs (with_next_step s) = docs s
  /\ final_status (with_next_step s) = final_status s
  /\ tests (with_next_step s) = tests s
  /\ tdd_enabled (with_next_step s) = tdd_enabled s
  /\ next_step (with_next_step s) = fst (determine_next_step s)
  /\ next_step_detail (with_next_step s) = snd (determine_next_step s).
Proof. unfold with_next_step. by destruct (determine_next_step s). Qed.

(** A status built by [check_ticket]: the counters of its tests are
    bucket counts. *)
Lemma check_ticket_shape ticket_id docs_path :
  exists s,
    check_ticket ticket_id docs_path = with_next_step s
    /\ counted (tests s).
Proof.
  unfold check_ticket.
  destruct (tickets docs_path !! ticket_id) as [ticket_path|].
  - eexists. split; [reflexivity|]. cbn [tests].
    destruct (manifests docs_path !! ticket_id) as [[e|data]|] eqn:E.
    + rewrite check_tests_not_decoded by eauto. by unfold counted.
    + by destruct (check_tests_decoded _ _ _ E) as (H & _).
    + rewrite check_tests_not_decoded by eauto. by unfold counted.
  - eexists. split; [reflexivity|]. cbn. by unfold counted.
Qed.

Lemma count_pos f l : 0 < count f l <-> exists i, In i l /\ f i = true.
Proof.
  unfold count. induction l as [|a l IH]; cbn [List.filter].
  - split; [cbn; lia | intros (i & [] & _)].
  - destruct (f a) eqn:E; cbn [length].
    + split; [intros _; exists a; cbn; auto | lia].
    + rewrite IH. split.
      * intros (i & Hi & Hf). exists i. cbn. auto.
      * intros (i & [-> | Hi] & Hf); [congruence | eauto].
Qed.

(** The rule needs-impl on any status. *)
Lemma needs_impl_rule st :
  reaches_impl_rule st = true ->
  fst (determine_next_step st) = "needs-impl"
  <-> 0 < pending (tests st)
      \/ required_passed (tests st) < required_total (tests st).
Proof.
  unfold reaches_impl_rule. rewrite !andb_true_iff, !negb_true_iff.
  intros ((((((((Hready & Hc) & Hb) & Htdd) & Hex) & Htot) & Hbl) & Hred) & Hf).
  apply Nat.eqb_eq in Hbl, Hf.
  past_documents Hready.
  rewrite Hc, Hb, Htdd, Hex, Htot, Hbl, Hred, Hf, !Nat.ltb_irrefl.
  cbn [negb].
  destruct (Nat.ltb_spec 0 (pending (tests st))) as [Hp|Hp].
  { cbn [fst]. split; auto. }
  destruct (Nat.ltb_spec (required_passed (tests st))
              (required_total (tests st))) as [Hr|Hr].
  { cbn [fst]. split; auto. }
  split; [|lia].
  destruct (docs st !! FINAL_DOC) as [d|]; [|done].
  destruct (exists_ d), (has_content d); cbn [negb fst]; try done.
  by destruct (final_status st) as [[|??]|].
Qed.

Lemma with_next_step_vocabulary s :
  documents_ready (with_next_step s) = documents_ready s
  /\ test_gate_clear (with_next_step s) = test_gate_clear s
  /\ reaches_impl_rule (with_next_step s) = reaches_impl_rule s
  /\ needs_final_detail (with_next_step s) = needs_final_detail s.
Proof.
  unfold documents_ready, test_gate_clear, reaches_impl_rule,
    needs_final_detail, documents_ready, present, with_next_step.
  by destruct (determine_next_step s).
Qed.

(** C6, as the code has it.  Where no rule before needs-impl fires, the
    ticket is classified needs-impl exactly when some record is in the
    pending bucket (its status is none of passed, failed and blocked:
    pending, running or anything else) or fewer required records have
    passed than there are. *)
Theorem needs_impl_iff_pending_bucket ticket_id docs_path :
  let st := check_ticket ticket_id docs_path in
  reaches_impl_rule st = true ->
  next_step st = "needs-impl"
  <-> (exists i, In i (ts_tests (tests st)) /\ in_pending_bucket i = true)
      \/ required_passed (tests st) < required_total (tests st).
Proof.
  intros st. subst st.
  destruct (check_ticket_shape ticket_id docs_path) as (s & -> & Hc).
  destruct (with_next_step_fields s) as (_ & _ & _ & _ & -> & _ & -> & _).
  destruct (with_next_step_vocabulary s) as (_ & _ & -> & _).
  intros Hreach. rewrite (needs_impl_rule s Hreach).
  destruct Hc as (_ & _ & _ & -> & _). by rewrite count_pos.
Qed.

(** C9, as the code has it.  The exit status of check_ticket.py takes
    three values: 0 when the ticket is classified complete, 2 when it is
    classified blocked and 1 in every other case, which includes a docs
    path that does not exist and a ticket directory that does not. *)
Theorem exit_status_three_values ticket_id docs_path :
  (main ticket_id docs_path = 0
   <-> exists dp, docs_path = Some dp
                  /\ next_step (check_ticket ticket_id dp) = "complete")
  /\ (main ticket_id docs_path = 2
      <-> exists dp, docs_path = Some dp
                     /\ next_step (check_ticket ticket_id dp) = "blocked")
  /\ (main ticket_id docs_path = 1
      <-> forall dp, docs_path = Some dp ->
            next_step (check_ticket ticket_id dp) <> "complete"
            /\ next_step (check_ticket ticket_id dp) <> "blocked")
  /\ (docs_path = None -> main ticket_id docs_path = 1)
  /\ (forall dp, docs_path = Some dp -> tickets dp !! ticket_id = None ->
      main ticket_id docs_path = 1).
Proof.
  assert (Habsent : forall dp, tickets dp !! ticket_id = None ->
            next_step (check_ticket ticket_id dp) = "missing-docs").
  { intros dp Hnone. unfold check_ticket. by rewrite Hnone. }
  unfold main. destruct docs_path as [dp|].
  - destruct (String.eqb_spec (next_step (check_ticket ticket_id dp))
                "complete") as [Ec|Ec];
      [|destruct (String.eqb_spec (next_step (check_ticket ticket_id dp))
                    "blocked") as [Eb|Eb]].
    all: repeat apply conj; try (intros H; try specialize (H dp eq_refl));
      try (intros dp' [= <-]);
      repeat match goal with
             | H : exists _, _ |- _ => destruct H as (? & [= <-] & ?)
             | H : _ /\ _ |- _ => destruct H
             end;
      try done; try congruence; eauto.
    all: intros [= <-] Hnone%Habsent; congruence.
  - repeat apply conj; try done.
    + by intros (dp & ? & _).
    + by intros (dp & ? & _).
Qed.

(** C4 at the input where the code goes wrong: the Constraints section
    is empty, the opt-out stands in the section after it, and the gate
    is resolved to disabled, the text taken for the body of Constraints
    being the whole next section.  With a body in the Constraints
    section the same opt-out is ignored, and with no definition document
    the gate is enabled. *)
Theorem tdd_opt_out_read_past_empty_constraints :
  check_tdd_enabled {[ "1-definition.md" := Samples.definition_leak ]} = false
  /\ Re.search re_constraints Samples.definition_leak
     = Some ("## Notes" +:+ NL +:+ "- TDD: no" +:+ NL)
  /\ check_tdd_enabled {[ "1-definition.md" := Samples.definition_scoped ]}
     = true
  /\ check_tdd_enabled {[ "1-definition.md" := Samples.definition_opt_out ]}
     = false
  /\ check_tdd_enabled ∅ = true.
Proof. repeat split; vm_compute; reflexivity. Qed.

End Decision.

(** ** The loop of check_tests.py *)

Section TestsLoop.
Import CheckTests.
Import Lifecycle(marks, records).

Lemma existsb_same {A} (f g : A -> bool) l :
  (forall a, f a = g a) -> existsb f l = existsb g l.
Proof. intros H. induction l as [|a l IH]; cbn; [done | by rewrite H, IH]. Qed.

Lemma covers_name d sc sc' :
  sc_name sc = sc_name sc' -> covers d sc = covers d sc'.
Proof. unfold covers. by intros ->. Qed.

Lemma mark_spec d sc :
  sc_name (mark d sc) = sc_name sc
  /\ covered (mark d sc) = covered sc || covers d sc.
Proof.
  unfold mark. destruct (covers d sc); cbn [sc_name covered].
  - by rewrite orb_true_r.
  - by rewrite orb_false_r.
Qed.

Lemma marks_spec l : forall sc,
  sc_name (marks l sc) = sc_name sc
  /\ covered (marks l sc)
     = covered sc || existsb (fun t => covers (test_detail t) sc) l.
Proof.
  unfold marks.
  induction l as [|t l IH]; intros sc; cbn [fold_left existsb].
  - by rewrite orb_false_r.
  - destruct (IH (mark (test_detail t) sc)) as [Hn Hc].
    destruct (mark_spec (test_detail t) sc) as [Hn1 Hc1].
    rewrite Hn, Hc, Hn1, Hc1, <- orb_assoc. split; [done|].
    do 2 f_equal. apply existsb_same. intros t'.
    by apply covers_name.
Qed.

Lemma tests_loop_spec l : forall s,
  l_tests (fold_left loop_step l s) = l_tests s ++ map test_detail l
  /\ l_issues (fold_left loop_step l s)
     = l_issues s ++ flat_map (fun t => status_issues (test_detail t)) l
  /\ l_spec_cases (fold_left loop_step l s) = map (marks l) (l_spec_cases s)
  /\ l_all_red (fold_left loop_step l s)
     = l_all_red s && forallb (fun t => red_verified (test_detail t)) l.
Proof.
  induction l as [|t l IH]; intros s; cbn [fold_left map flat_map forallb].
  - rewrite !app_nil_r, andb_true_r, map_id. done.
  - destruct (IH (loop_step s t)) as (H1 & H2 & H3 & H4).
    rewrite H1, H2, H3, H4. unfold loop_step at 1 2 3 4.
    cbn [l_tests l_issues l_spec_cases l_all_red].
    rewrite <- !app_assoc, map_map. repeat split; try done.
    destruct (red_verified (test_detail t)), (l_all_red s); done.
Qed.

End TestsLoop.

(** ** The aggregates of a manifest *)

Section Aggregates.
Import Lifecycle.

(** C10. For a manifest that decodes, the aggregator of check_ticket.py
    puts every record in exactly one of the buckets passed, failed,
    blocked and pending, the last one taking every status that is not
    one of the first three; the four counters add up to the total. *)
Theorem buckets_add_up_to_total docs_path ticket_id data :
  manifests docs_path !! ticket_id = Some (Manifest.Decoded data) ->
  let st := CheckTicket.check_tests docs_path ticket_id in
  CheckTicket.ts_tests st
  = map CheckTicket.test_info (Py.get (Manifest.d_tests data) [])
  /\ CheckTicket.total st = length (CheckTicket.ts_tests st)
  /\ CheckTicket.passed st = count is_passed (CheckTicket.ts_tests st)
  /\ CheckTicket.failed st = count is_failed (CheckTicket.ts_tests st)
  /\ CheckTicket.blocked st = count is_blocked (CheckTicket.ts_tests st)
  /\ CheckTicket.pending st
     = count in_pending_bucket (CheckTicket.ts_tests st)
  /\ CheckTicket.passed st + CheckTicket.failed st + CheckTicket.blocked st
     + CheckTicket.pending st = CheckTicket.total st.
Proof.
  intros Hm st.
  destruct (check_tests_decoded _ _ _ Hm) as (Hc & Ht & _ & Hl & _).
  fold st in Hc, Ht, Hl.
  destruct Hc as (Hp & Hf & Hb & Hn & _).
  assert (Hlen : CheckTicket.total st = length (CheckTicket.ts_tests st))
    by (by rewrite Ht, Hl, length_map).
  repeat split; try done.
  rewrite Hp, Hf, Hb, Hn, Hlen. apply buckets_partition.
Qed.

Lemma all_and_some {A} (f : A -> bool) l :
  forallb f l && (0 <? length l) = true
  <-> l <> [] /\ forall a, In a l -> f a = true.
Proof.
  rewrite andb_true_iff, forallb_forall, Nat.ltb_lt.
  destruct l; cbn [length]; split; intros [H1 H2]; split;
    (done || lia || auto).
Qed.

(** C2. For a manifest that decodes, [all_red_verified] is true exactly
    when there is at least one record and every record is red-verified,
    in check_ticket.py and in check_tests.py alike; with no record it is
    false. *)
Theorem all_red_verified_iff docs_path ticket_id data :
  manifests docs_path !! ticket_id = Some (Manifest.Decoded data) ->
  let l := Py.get (Manifest.d_tests data) [] in
  (CheckTicket.all_red_verified (CheckTicket.check_tests docs_path ticket_id)
   = true
   <-> l <> []
       /\ forall t, In t l ->
            CheckTicket.red_verified (CheckTicket.test_info t) = true)
  /\ (CheckTests.all_red_verified (CheckTests.check_tests ticket_id docs_path)
      = true
      <-> l <> []
          /\ forall t, In t l ->
               CheckTests.red_verified (CheckTests.test_detail t) = true)
  /\ (l = [] ->
      CheckTicket.all_red_verified
        (CheckTicket.check_tests docs_path ticket_id) = false
      /\ CheckTests.all_red_verified
           (CheckTests.check_tests ticket_id docs_path) = false).
Proof.
  intros Hm l.
  destruct (check_tests_decoded _ _ _ Hm) as (_ & _ & _ & _ & Hred).
  fold l in Hred. rewrite Hred.
  assert (Hcheck :
    CheckTests.all_red_verified (CheckTests.check_tests ticket_id docs_path)
    = forallb (fun t => CheckTests.red_verified (CheckTests.test_detail t)) l
      && (0 <? length l)).
  { unfold CheckTests.check_tests. rewrite Hm. fold l.
    destruct l as [|t l']; [done|].
    cbn [length Nat.eqb CheckTests.all_red_verified].
    destruct (tests_loop_spec (t :: l')
      {| CheckTests.l_tests := [];
         CheckTests.l_issues := [];
         CheckTests.l_spec_cases :=
           match tickets docs_path !! ticket_id ≫= (.!! "3-spec.md") with
           | Some content =>
               map (fun c => {| CheckTests.sc_name := c;
                                CheckTests.covered := false;
                                CheckTests.test_id := None |})
                 (CheckTests.parse_spec_cases content)
           | None => []
           end;
         CheckTests.l_all_red := true;
         CheckTests.l_all_trajectory := true |}) as (_ & _ & _ & H).
    rewrite H. cbn [CheckTests.l_all_red andb]. by rewrite andb_true_r. }
  rewrite Hcheck.
  split; [apply all_and_some|].
  split; [apply all_and_some|].
  intros ->. cbn [length Nat.ltb Nat.leb]. by rewrite !andb_false_r.
Qed.

End Aggregates.

(** ** The reports of check_tests.py *)

Section Reports.
Import CheckTests.
Import Lifecycle(marks, records, without_manifest).

(** C3, as the code has it.  For a tests.json that exists and on which
    reading or decoding raises one of the two exceptions that the
    scripts catch ([OSError], [json.JSONDecodeError]), check_tests.py
    reports one diagnostic that carries the message of the exception,
    with the next step to fix the syntax, and this report differs from
    the one for an absent file; check_ticket.py makes no difference
    between the two: the status of the tests, and with it the whole
    status of the ticket, is the one it computes when the file is
    absent. *)
Theorem malformed_manifest_report docs_path ticket_id e :
  manifests docs_path !! ticket_id = Some (Manifest.Raises e) ->
  let r := check_tests ticket_id docs_path in
  let r0 := check_tests ticket_id (without_manifest docs_path ticket_id) in
  tests_json_exists r = true
  /\ st_issues r = ["Failed to parse tests.json: " +:+ e]
  /\ next_step r = "Fix tests.json syntax"
  /\ valid r = false
  /\ tests_json_exists r0 = false
  /\ st_issues r0 = ["tests.json not found"]
  /\ st_issues r <> st_issues r0
  /\ next_step r <> next_step r0
  /\ CheckTicket.check_tests docs_path ticket_id
     = CheckTicket.check_tests (without_manifest docs_path ticket_id) ticket_id
  /\ CheckTicket.check_ticket ticket_id docs_path
     = CheckTicket.check_ticket ticket_id
         (without_manifest docs_path ticket_id).
Proof.
  intros Hm r r0. subst r r0.
  assert (Hnone :
    manifests (without_manifest docs_path ticket_id) !! ticket_id = None)
    by apply lookup_delete_eq.
  unfold check_tests, CheckTicket.check_ticket, CheckTicket.check_tests.
  rewrite Hm, Hnone.
  cbn [tests_json_exists st_issues next_step valid tickets without_manifest].
  repeat split; done.
Qed.

Lemma issue_messages_distinct :
  NoDup ["Passed but no trajectory recorded";
         "Passed but RED phase not verified";
         "Trajectory missing [RED] marker";
         "Trajectory missing [GREEN] marker"].
Proof.
  repeat (apply NoDup_cons; split); [..| apply NoDup_nil_2].
  all: intros H;
    repeat (apply elem_of_cons in H as [H|H]; [discriminate H|]);
    by apply elem_of_nil in H.
Qed.

(** C5, as the code has it.  For a record with status passed the four
    diagnostics are four different messages.  The one for a missing
    trajectory and the one for a missing [red_verified] are each given
    exactly when that holds, whatever else holds; the ones for a missing
    RED marker and a missing GREEN marker are each given exactly when
    the trajectory is not empty and lacks the marker. *)
Theorem passed_record_issues (t : Manifest.test) :
  Py.get (Manifest.t_status t) "pending" = "passed" ->
  let d := test_detail t in
  (In "Passed but no trajectory recorded" (issues d)
   <-> has_trajectory d = false)
  /\ (In "Passed but RED phase not verified" (issues d)
      <-> red_verified d = false)
  /\ (In "Trajectory missing [RED] marker" (issues d)
      <-> has_trajectory d = true /\ has_red_marker d = false)
  /\ (In "Trajectory missing [GREEN] marker" (issues d)
      <-> has_trajectory d = true /\ has_green_marker d = false)
  /\ NoDup ["Passed but no trajectory recorded";
            "Passed but RED phase not verified";
            "Trajectory missing [RED] marker";
            "Trajectory missing [GREEN] marker"].
Proof.
  intros Hs d. subst d. unfold test_detail.
  cbn [issues has_trajectory red_verified has_red_marker has_green_marker].
  rewrite Hs. cbn [String.eqb Ascii.eqb Bool.eqb].
  destruct (0 <? length (Py.get (Manifest.t_trajectory t) []));
    destruct (Py.truthy (Py.get (Manifest.t_red_verified t) Py.VNone));
    destruct (Py.contains "[RED]" _);
    destruct (Py.contains "[GREEN]" _);
    cbn [negb andb app In].
  all: repeat apply conj; try apply issue_messages_distinct.
  all: intuition (try discriminate; try congruence).
Qed.

Lemma initial_cases_uncovered (spec : option string) sc :
  In sc
    match spec with
    | Some content =>
        map (fun c => {| sc_name := c; covered := false; test_id := None |})
          (parse_spec_cases content)
    | None => []
    end ->
  covered sc = false.
Proof.
  destruct spec as [content|]; [|done].
  rewrite in_map_iff. by intros (c & <- & _).
Qed.

(** C7, as the code has it.  A declared spec case is marked covered
    exactly when, for some record of the manifest, the lower-cased case
    name is a substring of the record's name (lower-cased, spaces
    replaced by underscores) or of its lower-cased identifier, or that
    name of the record is a substring of the lower-cased case name. *)
Theorem covered_iff_some_record_covers ticket_id docs_path sc :
  In sc (spec_cases (check_tests ticket_id docs_path)) ->
  covered sc = true
  <-> exists t, In t (records docs_path ticket_id)
                /\ (let d := test_detail t in
                    let test_name_lower :=
                      Py.replace_char " " "_" (Py.lower (name d)) in
                    Py.contains (Py.lower (sc_name sc)) test_name_lower
                    || Py.contains (Py.lower (sc_name sc)) (Py.lower (id d))
                    || Py.contains test_name_lower (Py.lower (sc_name sc)))
                   = true.
Proof.
  change (In sc (spec_cases (check_tests ticket_id docs_path)) ->
          covered sc = true
          <-> exists t, In t (records docs_path ticket_id)
                        /\ covers (test_detail t) sc = true).
  unfold check_tests, records.
  set (init := match tickets docs_path !! ticket_id ≫= (.!! "3-spec.md") with
               | Some content => _
               | None => []
               end).
  assert (Hinit : forall sc0, In sc0 init -> covered sc0 = false)
    by apply initial_cases_uncovered.
  assert (Hearly : In sc init ->
            covered sc = true
            <-> exists t : Manifest.test, In t [] /\ covers (test_detail t) sc = true).
  { intros ->%Hinit. split; [done | by intros (t & [] & _)]. }
  destruct (manifests docs_path !! ticket_id) as [[e|data]|]; try done.
  set (l := Py.get (Manifest.d_tests data) []).
  destruct l as [|t0 l0] eqn:El; [done|].
  cbn [length Nat.eqb spec_cases].
  rewrite <- El.
  match goal with
  | |- context [fold_left loop_step l ?s0] =>
      destruct (tests_loop_spec l s0) as (_ & _ & -> & _)
  end.
  cbn [l_spec_cases]. rewrite in_map_iff.
  intros (sc0 & <- & Hin).
  destruct (marks_spec l sc0) as [Hname Hcov].
  rewrite Hcov, (Hinit _ Hin). cbn [orb]. rewrite existsb_exists.
  split; intros (t & Ht & Hc); exists t; split; try done.
  - by rewrite (covers_name _ _ sc0).
  - by rewrite <- (covers_name _ (marks l sc0) sc0).
Qed.

End Reports.

(** ** The scenarios of the specification, run on the embedding *)

Section Scenarios.
Import Samples.

Example scenario_A_ticket_absent :
  CheckTicket.determine_next_step
    (CheckTicket.check_ticket "T00099" empty_docs)
  = ("missing-docs", "Ticket directory T00099 not found").
Proof. vm_compute. reflexivity. Qed.

Example scenario_B_no_manifest :
  CheckTicket.next_step (CheckTicket.check_ticket T1 no_manifest)
  = "needs-tests".
Proof. vm_compute. reflexivity. Qed.

Example scenario_C_unverified_pass :
  CheckTicket.determine_next_step (CheckTicket.check_ticket T1 unverified_pass)
  = ("red-phase", "Run RED phase for: TC1")
  /\ CheckTests.st_issues (CheckTests.check_tests T1 unverified_pass)
     = ["TC1: passed without trajectory"; "TC1: missing red_verified"].
Proof. split; vm_compute; reflexivity. Qed.

Example scenario_D_no_closing_document :
  CheckTicket.next_step (CheckTicket.check_ticket T1 all_green)
  = "needs-final".
Proof. vm_compute. reflexivity. Qed.

Example scenario_E_blocked :
  CheckTicket.determine_next_step (CheckTicket.check_ticket T1 blocked_by_hand)
  = ("blocked", "Ticket marked BLOCKED in 5-final.md").
Proof. vm_compute. reflexivity. Qed.

Example scenario_F_gate_opted_out :
  CheckTicket.tdd_enabled (CheckTicket.check_ticket T1 opted_out) = false
  /\ CheckTicket.determine_next_step (CheckTicket.check_ticket T1 opted_out)
     = ("complete", "Ticket marked COMPLETE in 5-final.md").
Proof. split; vm_compute; reflexivity. Qed.

Example parse_spec_cases_all_forms :
  CheckTests.parse_spec_cases spec_all_forms
  = ["tc1_login"; "test_logout"; "unit_stuff"].
Proof. vm_compute. reflexivity. Qed.

End Scenarios.

(** ** The properties on the sample tickets *)

Section OnSamples.
Import Samples Lifecycle.

(** The signed-off ticket, whose records fail, pend and block, is
    complete. *)
Lemma complete_overrides_tests_signed_off :
  documents_ready (CheckTicket.check_ticket T1 signed_off) = true
  /\ CheckTicket.final_status (CheckTicket.check_ticket T1 signed_off)
     = Some "COMPLETE"
  /\ CheckTicket.failed
       (CheckTicket.tests (CheckTicket.check_ticket T1 signed_off)) = 1
  /\ CheckTicket.determine_next_step (CheckTicket.check_ticket T1 signed_off)
     = ("complete", "Ticket marked COMPLETE in 5-final.md").
Proof.
  split; [vm_compute; reflexivity|].
  split; [vm_compute; reflexivity|].
  split; [vm_compute; reflexivity|].
  apply complete_overrides_tests; vm_compute; reflexivity.
Defined.

Lemma all_red_verified_all_green :
  manifests all_green !! T1
  = Some (Manifest.Decoded
            {| Manifest.d_tests := Some (records all_green T1) |})
  /\ CheckTicket.all_red_verified (CheckTicket.check_tests all_green T1)
     = true
  /\ CheckTests.all_red_verified (CheckTests.check_tests T1 all_green) = true.
Proof.
  assert (H : manifests all_green !! T1
              = Some (Manifest.Decoded
                        {| Manifest.d_tests := Some (records all_green T1) |}))
    by (vm_compute; reflexivity).
  split; [exact H|].
  destruct (all_red_verified_iff all_green T1 _ H) as (H1 & H2 & _).
  split; [apply H1 | apply H2].
  all: split; [vm_compute; discriminate|].
  all: intros t Ht; vm_compute in Ht.
  all: destruct Ht as [<- | [<- | []]]; vm_compute; reflexivity.
Defined.

Lemma buckets_add_up_signed_off :
  manifests signed_off !! T1
  = Some (Manifest.Decoded
            {| Manifest.d_tests := Some (records signed_off T1) |})
  /\ CheckTicket.passed (CheckTicket.check_tests signed_off T1)
     + CheckTicket.failed (CheckTicket.check_tests signed_off T1)
     + CheckTicket.blocked (CheckTicket.check_tests signed_off T1)
     + CheckTicket.pending (CheckTicket.check_tests signed_off T1)
     = CheckTicket.total (CheckTicket.check_tests signed_off T1).
Proof.
  assert (H : manifests signed_off !! T1
              = Some (Manifest.Decoded
                        {| Manifest.d_tests := Some (records signed_off T1) |}))
    by (vm_compute; reflexivity).
  split; [exact H|].
  apply (buckets_add_up_to_total signed_off T1 _ H).
Defined.

Lemma malformed_manifest_report_sample :
  manifests malformed !! T1
  = Some (Manifest.Raises "Expecting value: line 1 column 1 (char 0)")
  /\ CheckTests.st_issues (CheckTests.check_tests T1 malformed)
     = ["Failed to parse tests.json: Expecting value: line 1 column 1 (char 0)"]
  /\ CheckTicket.check_ticket T1 malformed
     = CheckTicket.check_ticket T1 (without_manifest malformed T1).
Proof.
  assert (H : manifests malformed !! T1
              = Some (Manifest.Raises
                        "Expecting value: line 1 column 1 (char 0)"))
    by (vm_compute; reflexivity).
  split; [exact H|].
  destruct (malformed_manifest_report malformed T1 _ H)
    as (_ & H2 & _ & _ & _ & _ & _ & _ & _ & H10).
  split; [exact H2 | exact H10].
Defined.

(** C3 fails on check_ticket.py: the ticket whose tests.json does not
    decode gets the very status of the ticket that has no tests.json,
    needs-tests with the detail that no tests.json was found. *)
Lemma lifecycle_takes_malformed_for_absent :
  manifests malformed !! T1
  = Some (Manifest.Raises "Expecting value: line 1 column 1 (char 0)")
  /\ manifests no_manifest !! T1 = None
  /\ CheckTicket.check_ticket T1 malformed
     = CheckTicket.check_ticket T1 no_manifest
  /\ CheckTicket.next_step (CheckTicket.check_ticket T1 malformed)
     = "needs-tests"
  /\ CheckTicket.next_step_detail (CheckTicket.check_ticket T1 malformed)
     = "No tests.json found - create test definitions".
Proof. repeat split; vm_compute; reflexivity. Qed.

Lemma passed_record_issues_unmarked :
  Py.get (Manifest.t_status passed_unmarked) "pending" = "passed"
  /\ In "Trajectory missing [RED] marker"
       (CheckTests.issues (CheckTests.test_detail passed_unmarked))
  /\ In "Passed but RED phase not verified"
       (CheckTests.issues (CheckTests.test_detail passed_unmarked)).
Proof.
  assert (H : Py.get (Manifest.t_status passed_unmarked) "pending" = "passed")
    by reflexivity.
  split; [exact H|].
  destruct (passed_record_issues passed_unmarked H) as (_ & H2 & H3 & _).
  split; [apply H3 | apply H2]; vm_compute; auto.
Defined.

(** C5 fails: the record passed with an empty trajectory, which has
    neither marker, and the only diagnostic is the one for the missing
    trajectory. *)
Lemma empty_trajectory_hides_marker_diagnostics :
  CheckTests.status (CheckTests.test_detail passed_bare) = "passed"
  /\ CheckTests.has_red_marker (CheckTests.test_detail passed_bare) = false
  /\ CheckTests.has_green_marker (CheckTests.test_detail passed_bare) = false
  /\ CheckTests.issues (CheckTests.test_detail passed_bare)
     = ["Passed but no trajectory recorded"]
  /\ ~ In "Trajectory missing [RED] marker"
         (CheckTests.issues (CheckTests.test_detail passed_bare))
  /\ ~ In "Trajectory missing [GREEN] marker"
         (CheckTests.issues (CheckTests.test_detail passed_bare)).
Proof.
  repeat split; try (vm_compute; reflexivity).
  all: vm_compute; intros [H | []]; discriminate H.
Qed.

Lemma needs_impl_running :
  reaches_impl_rule (CheckTicket.check_ticket T1 running) = true
  /\ CheckTicket.next_step (CheckTicket.check_ticket T1 running)
     = "needs-impl".
Proof.
  assert (H : reaches_impl_rule (CheckTicket.check_ticket T1 running) = true)
    by (vm_compute; reflexivity).
  split; [exact H|].
  apply (needs_impl_iff_pending_bucket T1 running H).
  left. eexists. split; [vm_compute; left; reflexivity | reflexivity].
Defined.

(** C6 fails: the only record is running, no record has the status
    pending, no required record is missing, and the ticket is classified
    needs-impl. *)
Lemma needs_impl_without_pending_status :
  reaches_impl_rule (CheckTicket.check_ticket T1 running) = true
  /\ CheckTicket.next_step (CheckTicket.check_ticket T1 running)
     = "needs-impl"
  /\ ~ ((exists i,
           In i (CheckTicket.ts_tests
                   (CheckTicket.tests (CheckTicket.check_ticket T1 running)))
           /\ CheckTicket.status i = "pending")
        \/ CheckTicket.required_passed
             (CheckTicket.tests (CheckTicket.check_ticket T1 running))
           < CheckTicket.required_total
               (CheckTicket.tests (CheckTicket.check_ticket T1 running))).
Proof.
  split; [vm_compute; reflexivity|].
  split; [vm_compute; reflexivity|].
  intros [(i & Hi & Hs) | H].
  - vm_compute in Hi. destruct Hi as [<- | []]. discriminate Hs.
  - vm_compute in H. lia.
Qed.

Lemma covered_iff_by_identifier :
  In {| CheckTests.sc_name := "tc1_login"; CheckTests.covered := false;
        CheckTests.test_id := None |}
     (CheckTests.spec_cases (CheckTests.check_tests T1 by_identifier))
  /\ ~ exists t, In t (records by_identifier T1)
                 /\ CheckTests.covers (CheckTests.test_detail t)
                      {| CheckTests.sc_name := "tc1_login";
                         CheckTests.covered := false;
                         CheckTests.test_id := None |} = true.
Proof.
  assert (H : In {| CheckTests.sc_name := "tc1_login";
                    CheckTests.covered := false;
                    CheckTests.test_id := None |}
                (CheckTests.spec_cases
                   (CheckTests.check_tests T1 by_identifier)))
    by (vm_compute; left; reflexivity).
  split; [exact H|].
  intros Hex.
  apply (covered_iff_some_record_covers T1 by_identifier _ H) in Hex.
  discriminate Hex.
Defined.

(** C7 fails: the case tc1_login contains the identifier TC1 of the
    record, up to case, and is not marked covered. *)
Lemma case_containing_identifier_not_covered :
  map CheckTests.id (CheckTests.tests (CheckTests.check_tests T1 by_identifier))
  = ["TC1"]
  /\ Py.contains (Py.lower "TC1") (Py.lower "tc1_login") = true
  /\ CheckTests.spec_cases (CheckTests.check_tests T1 by_identifier)
     = [{| CheckTests.sc_name := "tc1_login"; CheckTests.covered := false;
           CheckTests.test_id := None |}].
Proof. repeat split; vm_compute; reflexivity. Qed.

(** C9 fails: the ticket that is not found and the ticket that needs
    tests exit with the same status. *)
Lemma not_found_exits_like_actionable_issue :
  CheckTicket.next_step_detail (CheckTicket.check_ticket "T00099" empty_docs)
  = "Ticket directory T00099 not found"
  /\ CheckTicket.next_step (CheckTicket.check_ticket T1 no_manifest)
     = "needs-tests"
  /\ CheckTicket.main "T00099" (Some empty_docs) = 1
  /\ CheckTicket.main T1 (Some no_manifest) = 1
  /\ CheckTicket.main T1 None = 1.
Proof. repeat split; vm_compute; reflexivity. Qed.

End OnSamples.

(** ** The rule table of check_ticket.py *)

Section RuleTable.
Import CheckTicket Lifecycle Facts.

Lemma all_present_iff st l :
  List.filter
    (fun doc =>
       match docs st !! doc with
       | None => true
       | Some d => negb (exists_ d)
       end) l = []
  <-> forallb (present st) l = true.
Proof.
  split; [|apply no_missing_docs].
  induction l as [|doc l IH]; [done|].
  cbn [forallb List.filter]. unfold present at 1.
  destruct (docs st !! doc) as [d|]; [|done].
  destruct (exists_ d); cbn [negb andb]; [auto | done].
Qed.

Lemma documents_ready_iff st :
  documents_ready st = true
  <-> tk_exists st = true
      /\ missing_docs st = []
      /\ (tdd_enabled st
          && match docs st !! "3-spec.md" with
             | Some spec_status => negb (has_content spec_status)
             | None => false
             end) = false.
Proof.
  unfold missing_docs. rewrite all_present_iff. split.
  - apply documents_ready_inv.
  - intros (H1 & H2 & H3). unfold documents_ready. rewrite H1, H2.
    destruct (tdd_enabled st); [|done]. cbn [andb implb] in *.
    destruct (docs st !! "3-spec.md") as [d|]; [|done].
    by destruct (has_content d).
Qed.

Lemma test_gate_clear_iff st :
  test_gate_clear st = true
  <-> (tdd_enabled st = true ->
       ts_exists (tests st) = true /\ total (tests st) <> 0
       /\ blocked (tests st) = 0 /\ all_red_verified (tests st) = true
       /\ failed (tests st) = 0 /\ pending (tests st) = 0
       /\ ~ required_passed (tests st) < required_total (tests st)).
Proof.
  unfold test_gate_clear. destruct (tdd_enabled st); cbn [implb]; [|done].
  rewrite !andb_true_iff, !negb_true_iff, !Nat.eqb_eq, Nat.eqb_neq,
    Nat.ltb_ge.
  split.
  - intros ((((((? & ?) & ?) & ?) & ?) & ?) & ?) _. repeat split; try done. lia.
  - intros H. destruct (H eq_refl) as (? & ? & ? & ? & ? & ? & ?).
    repeat split; try done. lia.
Qed.

(** The result of [determine_next_step] is the one of the first rule
    that applies. *)
Lemma decision_table st :
  fires st (fst (determine_next_step st)) (snd (determine_next_step st)).
Proof.
  unfold determine_next_step.
  destruct (tk_exists st) eqn:Htk; cbn [negb]; [|by apply R_no_ticket].
  cbv zeta. fold (missing_docs st).
  destruct (missing_docs st) as [|doc0 l0] eqn:Hmiss; cbn [length Nat.eqb negb];
    [|rewrite <- Hmiss; apply R_missing_docs; [done | by rewrite Hmiss]].
  destruct (tdd_enabled st
            && match docs st !! "3-spec.md" with
               | Some spec_status => negb (has_content spec_status)
               | None => false
               end) eqn:Hspec.
  { apply andb_true_iff in Hspec as [Htdd Hspec].
    destruct (docs st !! "3-spec.md") as [d|] eqn:Hd; [|done].
    apply negb_true_iff in Hspec. by eapply R_needs_spec. }
  assert (Hready : documents_ready st = true)
    by (by apply documents_ready_iff).
  case_bool_decide as Hc; [by apply R_complete|].
  case_bool_decide as Hb; [by apply R_blocked|].
  assert (Hgate : tdd_enabled st = true -> at_gate st) by (by intros ?).
  assert (Hpast : test_gate_clear st = true -> past_gate st) by (by intros ?).
  assert (Hfinal :
    test_gate_clear st = true ->
    let r :=
      match docs st !! FINAL_DOC with
      | Some final =>
          if negb (exists_ final) then
            ("needs-final",
             "Tests pass - create 5-final.md with Status: COMPLETE")
          else if negb (has_content final) then
            ("needs-final", "5-final.md exists but needs Status: COMPLETE")
          else
            match final_status st with
            | None | Some "" =>
                ("needs-final",
                 "5-final.md missing Status: COMPLETE or BLOCKED")
            | Some _ => ("complete", "All requirements met")
            end
      | None =>
          ("needs-final",
           "Tests pass - create 5-final.md with Status: COMPLETE")
      end in
    fires st (fst r) (snd r)).
  { intros Hclear%Hpast. cbv zeta.
    destruct (docs st !! FINAL_DOC) as [d|] eqn:Hd;
      [|apply R_final_absent; [done | unfold present; by rewrite Hd]].
    destruct (exists_ d) eqn:He; cbn [negb];
      [|apply R_final_absent; [done | unfold present; by rewrite Hd]].
    destruct (has_content d) eqn:Hcont; cbn [negb];
      [|by eapply R_final_empty].
    destruct (final_status st) as [[|c s]|] eqn:Hf.
    - eapply R_final_unset; eauto.
    - eapply R_fallback; eauto.
    - eapply R_final_unset; eauto. }
  destruct (tdd_enabled st) eqn:Htdd;
    [|apply Hfinal; unfold test_gate_clear; by rewrite Htdd].
  specialize (Hgate eq_refl).
  destruct (ts_exists (tests st)) eqn:Hex; cbn [negb];
    [|by apply R_no_manifest].
  destruct (Nat.eqb_spec (total (tests st)) 0) as [Ht|Ht];
    [by apply R_no_tests|].
  destruct (Nat.ltb_spec 0 (blocked (tests st))) as [Hbl|Hbl];
    [by apply R_tests_blocked|].
  assert (Hbl0 : blocked (tests st) = 0) by lia.
  destruct (all_red_verified (tests st)) eqn:Hred; cbn [negb];
    [|by apply R_red_phase].
  destruct (Nat.ltb_spec 0 (failed (tests st))) as [Hfl|Hfl];
    [by apply R_tests_failing|].
  assert (Hfl0 : failed (tests st) = 0) by lia.
  destruct (Nat.ltb_spec 0 (pending (tests st))) as [Hp|Hp];
    [by apply R_pending|].
  assert (Hp0 : pending (tests st) = 0) by lia.
  destruct (Nat.ltb_spec (required_passed (tests st))
              (required_total (tests st))) as [Hr|Hr];
    [by apply R_required|].
  apply Hfinal. apply test_gate_clear_iff. intros _.
  repeat split; try done. lia.
Qed.

Ltac open_decision st Hready :=
  let Htk := fresh "Htk" in
  let Hmiss := fresh "Hmiss" in
  let Hspec := fresh "Hspec" in
  apply documents_ready_iff in Hready as (Htk & Hmiss & Hspec);
  unfold determine_next_step;
  rewrite Htk; cbn [negb]; cbv zeta; fold (missing_docs st);
  rewrite Hmiss; cbn [length Nat.eqb negb];
  rewrite Hspec.

Ltac decide_counts :=
  repeat match goal with
         | |- context [Nat.eqb ?a ?b] =>
             destruct (Nat.eqb_spec a b); try lia; cbv iota beta
         | |- context [Nat.ltb ?a ?b] =>
             destruct (Nat.ltb_spec a b); try lia; cbv iota beta
         end.

Ltac open_gate st Hgate :=
  let Hready := fresh "Hready" in
  let Hc := fresh "Hc" in
  let Hb := fresh "Hb" in
  let Htdd := fresh "Htdd" in
  destruct Hgate as (Hready & Hc & Hb & Htdd);
  open_decision st Hready;
  rewrite !bool_decide_eq_false_2 by done;
  rewrite Htdd.

Ltac open_final st Hpast :=
  let Hready := fresh "Hready" in
  let Hc := fresh "Hc" in
  let Hb := fresh "Hb" in
  let Hclear := fresh "Hclear" in
  let Hclear' := fresh "Hclear'" in
  destruct Hpast as (Hready & Hc & Hb & Hclear);
  open_decision st Hready;
  rewrite !bool_decide_eq_false_2 by done;
  pose proof (proj1 (test_gate_clear_iff st) Hclear) as Hclear';
  destruct (tdd_enabled st);
    [destruct (Hclear' eq_refl) as (-> & ? & ? & -> & ? & ? & ?);
     cbn [negb]; decide_counts
    |].

(** A rule that applies gives the result. *)
Lemma fires_result st step detail :
  fires st step detail -> determine_next_step st = (step, detail).
Proof.
  destruct 1 as [Htk | Htk Hm | d Htk Hm Htdd Hd Hcont | Hready Hf | Hready Hf
    | Hgate Hex | Hgate Hex Ht | Hgate Hex Ht Hbl | Hgate Hex Ht Hbl Hred
    | Hgate Hex Ht Hbl Hred Hfl | Hgate Hex Ht Hbl Hred Hfl Hp
    | Hgate Hex Ht Hbl Hred Hfl Hp Hr
    | Hpast Hpres | d Hpast Hd He Hcont | d Hpast Hd He Hcont Hf
    | d s Hpast Hd He Hcont Hf Hs].
  - unfold determine_next_step. by rewrite Htk.
  - unfold determine_next_step. rewrite Htk. cbn [negb]. cbv zeta.
    fold (missing_docs st). by destruct (missing_docs st).
  - unfold determine_next_step. rewrite Htk. cbn [negb]. cbv zeta.
    fold (missing_docs st). rewrite Hm. cbn [length Nat.eqb negb].
    by rewrite Htdd, Hd, Hcont.
  - open_decision st Hready. by rewrite Hf.
  - open_decision st Hready. by rewrite Hf.
  - open_gate st Hgate. by rewrite Hex.
  - open_gate st Hgate. rewrite Hex, Ht. done.
  - open_gate st Hgate. rewrite Hex. cbn [negb]. decide_counts; done.
  - open_gate st Hgate. rewrite Hex, Hbl, Hred. cbn [negb]. decide_counts; done.
  - open_gate st Hgate. rewrite Hex, Hbl, Hred. cbn [negb]. decide_counts; done.
  - open_gate st Hgate. rewrite Hex, Hbl, Hred, Hfl. cbn [negb].
    decide_counts; done.
  - open_gate st Hgate. rewrite Hex, Hbl, Hred, Hfl, Hp. cbn [negb].
    decide_counts; done.
  - open_final st Hpast.
    all: unfold present in Hpres.
    all: destruct (docs st !! FINAL_DOC) as [d|]; [|done].
    all: by rewrite Hpres.
  - open_final st Hpast.
    all: by rewrite Hd, He, Hcont.
  - open_final st Hpast.
    all: rewrite Hd, He, Hcont; cbn [negb].
    all: by destruct Hf as [-> | ->].
  - open_final st Hpast.
    all: rewrite Hd, He, Hcont, Hf; cbn [negb].
    all: by destruct s.
Qed.

(** [determine_next_step] is the rule table: its result is that of the
    one rule that applies. *)
Lemma decision_iff st step detail :
  determine_next_step st = (step, detail) <-> fires st step detail.
Proof.
  split; [|apply fires_result].
  intros H. pose proof (decision_table st) as Hf. by rewrite H in Hf.
Qed.

End RuleTable.

(** ** The rules of the closing document *)

Section ClosingDocument.
Import CheckTicket Lifecycle Facts.


End ClosingDocument.

(** ** check_ticket on the files *)

Section OnFiles.
Import CheckTicket Lifecycle Facts.

Lemma check_doc_exists ticket_path doc :
  exists_ (check_doc ticket_path doc)
  = negb (bool_decide (ticket_path !! doc = None)).
Proof.
  unfold check_doc. destruct (ticket_path !! doc); [|done].
  by rewrite bool_decide_eq_false_2.
Qed.

(** The status that [check_ticket] hands to [determine_next_step] for a
    ticket directory that exists. *)
Lemma check_ticket_found ticket_id docs_path ticket_path :
  tickets docs_path !! ticket_id = Some ticket_path ->
  exists s,
    check_ticket ticket_id docs_path = with_next_step s
    /\ CheckTicket.ticket_id s = ticket_id
    /\ tk_exists s = true
    /\ tdd_enabled s = check_tdd_enabled ticket_path
    /\ final_status s = parse_final_status ticket_path
    /\ tests s = check_tests docs_path ticket_id
    /\ (forall doc,
          In doc (REQUIRED_DOCS ++ [PROGRESS_DOC; FINAL_DOC]) ->
          docs s !! doc = Some (check_doc ticket_path doc))
    /\ (forall doc,
          ~ In doc (REQUIRED_DOCS ++ [PROGRESS_DOC; FINAL_DOC]) ->
          docs s !! doc = None).
Proof.
  intros Ht. unfold check_ticket. rewrite Ht.
  eexists. split; [reflexivity|].
  cbn [CheckTicket.ticket_id tk_exists tdd_enabled final_status tests docs].
  repeat split.
  - intros doc Hin. unfold REQUIRED_DOCS, PROGRESS_DOC, FINAL_DOC in *.
    cbn [app fold_left In] in *.
    repeat (destruct Hin as [<- | Hin]; [by simplify_map_eq|]). done.
  - intros doc Hin. unfold REQUIRED_DOCS, PROGRESS_DOC, FINAL_DOC in *.
    cbn [app fold_left In] in *.
    rewrite !lookup_insert_ne by (intros <-; tauto). done.
Qed.

Lemma missing_docs_absent_files s ticket_path :
  (forall doc,
     In doc (REQUIRED_DOCS ++ [PROGRESS_DOC; FINAL_DOC]) ->
     docs s !! doc = Some (check_doc ticket_path doc)) ->
  missing_docs s = absent_files ticket_path.
Proof.
  intros Hd. unfold missing_docs, absent_files.
  assert (H : forall doc, In doc REQUIRED_DOCS ->
            docs s !! doc = Some (check_doc ticket_path doc)).
  { intros doc Hin. apply Hd. apply in_or_app. by left. }
  clear Hd. induction REQUIRED_DOCS as [|doc l IH]; [done|].
  cbn [List.filter]. rewrite (H doc) by (by left).
  rewrite check_doc_exists, negb_involutive, IH; [done|].
  intros doc' Hin. apply H. by right.
Qed.

(** X1. The classification is missing-docs exactly when the ticket
    directory is absent or one of the three required documents is not in
    it; the detail names the ticket, or lists exactly the absent
    documents in the order definition, plan, spec. *)
Theorem missing_docs_iff_absent_files ticket_id docs_path :
  match tickets docs_path !! ticket_id with
  | None =>
      determine_next_step (check_ticket ticket_id docs_path)
      = ("missing-docs", "Ticket directory " +:+ ticket_id +:+ " not found")
      /\ next_step (check_ticket ticket_id docs_path) = "missing-docs"
  | Some ticket_path =>
      (next_step (check_ticket ticket_id docs_path) = "missing-docs"
       <-> absent_files ticket_path <> [])
      /\ (absent_files ticket_path <> [] ->
          next_step_detail (check_ticket ticket_id docs_path)
          = "Missing: " +:+ Py.join ", " (absent_files ticket_path))
  end.
Proof.
  destruct (tickets docs_path !! ticket_id) as [ticket_path|] eqn:Ht.
  - destruct (check_ticket_found _ _ _ Ht)
      as (s & -> & _ & Htk & _ & _ & _ & Hdocs & _).
    destruct (with_next_step_fields s) as (_ & _ & _ & _ & _ & _ & -> & ->).
    rewrite <- (missing_docs_absent_files s ticket_path Hdocs).
    pose proof (decision_table s) as Hf.
    split; [split|].
    + intros Hstep. rewrite Hstep in Hf. inversion Hf; congruence.
    + intros Hm.
      by rewrite (fires_result s _ _ (R_missing_docs s Htk Hm)).
    + intros Hm.
      by rewrite (fires_result s _ _ (R_missing_docs s Htk Hm)).
  - unfold check_ticket. rewrite Ht. done.
Qed.

Lemma absent_files_nil ticket_path doc :
  absent_files ticket_path = [] -> In doc REQUIRED_DOCS ->
  is_Some (ticket_path !! doc).
Proof.
  unfold absent_files. induction REQUIRED_DOCS as [|doc' l IH]; [done|].
  cbn [List.filter]. case_bool_decide as Hd; [done|].
  intros Hnil [<- | Hin]; [|auto].
  by destruct (ticket_path !! doc').
Qed.

(** X2. The classification is needs-spec exactly when the ticket
    directory has the three required documents, the gate is enabled and
    the spec, stripped of surrounding whitespace, has at most 50
    characters; what 5-final.md and tests.json say plays no role. *)
Theorem needs_spec_iff ticket_id docs_path :
  next_step (check_ticket ticket_id docs_path) = "needs-spec"
  <-> exists ticket_path text,
        tickets docs_path !! ticket_id = Some ticket_path
        /\ absent_files ticket_path = []
        /\ check_tdd_enabled ticket_path = true
        /\ ticket_path !! "3-spec.md" = Some text
        /\ Py.len (Py.strip text) <= 50.
Proof.
  destruct (tickets docs_path !! ticket_id) as [ticket_path|] eqn:Ht.
  - destruct (check_ticket_found _ _ _ Ht)
      as (s & -> & _ & Htk & Htdd & _ & _ & Hdocs & _).
    destruct (with_next_step_fields s) as (_ & _ & _ & _ & _ & _ & -> & _).
    pose proof (missing_docs_absent_files s ticket_path Hdocs) as Hm.
    assert (Hspec : docs s !! "3-spec.md"
                    = Some (check_doc ticket_path "3-spec.md"))
      by (apply Hdocs; cbn; auto).
    split.
    + intros Hstep. pose proof (decision_table s) as Hf.
      rewrite Hstep in Hf. inversion Hf as [| |d ? Hmiss Hen Hd Hc| | | | | | | | | | | | |].
      rewrite Hm in Hmiss. rewrite Hspec in Hd. injection Hd as <-.
      destruct (absent_files_nil ticket_path "3-spec.md" Hmiss) as [text Htext];
        [cbn; auto|].
      exists ticket_path, text. repeat split; try done; [congruence|].
      unfold check_doc in Hc. rewrite Htext in Hc. cbn [has_content] in Hc.
      by apply Nat.ltb_ge.
    + intros (tp & text & [= <-] & Hmiss & Hen & Htext & Hlen).
      rewrite (fires_result s "needs-spec"
                 "3-spec.md exists but needs test specification"); [done|].
      apply (R_needs_spec s (check_doc ticket_path "3-spec.md"));
        try done; try congruence.
      unfold check_doc. rewrite Htext. cbn [has_content].
      by apply Nat.ltb_ge.
  - split.
    + intros Hstep. revert Hstep. unfold check_ticket. rewrite Ht. done.
    + by intros (tp & text & ? & _).
Qed.

(** X3. For every status, the classification is blocked exactly when
    the documents are ready and the final disposition is BLOCKED, and
    complete exactly when the documents are ready and either the final
    disposition is COMPLETE, or the test gate is clear, the closing
    document exists with content and the final disposition is some
    other text that is not empty.  So a ticket is never complete
    without a final disposition, and a final disposition of BLOCKED is
    never complete. *)
Theorem complete_and_blocked_iff (st : TicketStatus) :
  (fst (determine_next_step st) = "blocked"
   <-> documents_ready st = true /\ final_status st = Some "BLOCKED")
  /\ (fst (determine_next_step st) = "complete"
      <-> documents_ready st = true
          /\ (final_status st = Some "COMPLETE"
              \/ (test_gate_clear st = true
                  /\ exists d x,
                       docs st !! FINAL_DOC = Some d /\ exists_ d = true
                       /\ has_content d = true
                       /\ final_status st = Some x
                       /\ x <> "" /\ x <> "BLOCKED"))).
Proof.
  pose proof (decision_table st) as Hf.
  split; split.
  - intros Hstep. rewrite Hstep in Hf. by inversion Hf.
  - intros [Hready Hfinal].
    by rewrite (fires_result st _ _ (R_blocked st Hready Hfinal)).
  - intros Hstep. rewrite Hstep in Hf.
    inversion Hf as [| | |Hready Hfinal| | | | | | | | | | |
                     |d x Hpast Hd He Hcont Hfinal Hx]; try done.
    + auto.
    + destruct Hpast as (Hready & Hc & Hb & Hclear).
      split; [done|]. right. split; [done|].
      exists d, x. repeat split; try done. congruence.
  - intros [Hready [Hfinal | (Hclear & d & x & Hd & He & Hcont & Hfinal & Hx
                              & Hb)]].
    + by rewrite (fires_result st _ _ (R_complete st Hready Hfinal)).
    + destruct (String.eqb_spec x "COMPLETE") as [-> | Hc].
      * by rewrite (fires_result st _ _ (R_complete st Hready Hfinal)).
      * assert (Hpast : past_gate st).
        { repeat split; try done; congruence. }
        by rewrite (fires_result st _ _
                      (R_fallback st d x Hpast Hd He Hcont Hfinal Hx)).
Qed.

Lemma gate_off_tests_irrelevant s ts :
  tdd_enabled s = false ->
  determine_next_step (with_tests s ts) = determine_next_step s.
Proof.
  intros Hoff. unfold determine_next_step, with_tests.
  cbn [tk_exists docs tdd_enabled final_status CheckTicket.ticket_id].
  by rewrite Hoff.
Qed.

(** X4. With the gate disabled the manifest plays no role among the
    manifests on which [check_tests] goes on: whether tests.json is
    absent, raises an exception that is caught or decodes, and
    whatever its records are, the classification and its detail are
    the same. *)
Theorem gate_off_ignores_manifest ticket_id docs_path m :
  tdd_enabled (check_ticket ticket_id docs_path) = false ->
  next_step
    (check_ticket ticket_id
       {| tickets := tickets docs_path; manifests := m |})
  = next_step (check_ticket ticket_id docs_path)
  /\ next_step_detail
       (check_ticket ticket_id
          {| tickets := tickets docs_path; manifests := m |})
     = next_step_detail (check_ticket ticket_id docs_path).
Proof.
  unfold check_ticket. cbn [tickets].
  destruct (tickets docs_path !! ticket_id) as [ticket_path|]; [|done].
  match goal with
  | |- context [with_next_step ?r] =>
      match r with
      | context [check_tests docs_path ticket_id] => set (s := r)
      end
  end.
  destruct (with_next_step_fields s)
    as (_ & _ & _ & _ & _ & -> & -> & ->).
  intros Hoff.
  match goal with
  | |- context [with_next_step ?r] =>
      change r with (with_tests s
                       (check_tests {| tickets := tickets docs_path;
                                       manifests := m |} ticket_id))
  end.
  destruct (with_next_step_fields
              (with_tests s
                 (check_tests {| tickets := tickets docs_path;
                                 manifests := m |} ticket_id)))
    as (_ & _ & _ & _ & _ & _ & -> & ->).
  by rewrite gate_off_tests_irrelevant.
Qed.

End OnFiles.

(** ** The test gate on the records *)

Section GateOnRecords.
Import CheckTicket Lifecycle Facts.

Lemma count_le_length f l : count f l <= length l.
Proof. unfold count. apply List.filter_length_le. Qed.

Lemma count_le f g l :
  (forall i, f i = true -> g i = true) -> count f l <= count g l.
Proof.
  intros H. unfold count. induction l as [|i l IH]; [done|].
  cbn [List.filter]. destruct (f i) eqn:Ef.
  - rewrite (H i Ef). cbn [length]. lia.
  - destruct (g i); cbn [length]; lia.
Qed.

Lemma count_all f l : count f l = length l -> forallb f l = true.
Proof.
  unfold count. induction l as [|i l IH]; [done|].
  cbn [List.filter forallb length]. destruct (f i); cbn [length andb].
  - intros H. apply IH. lia.
  - pose proof (List.filter_length_le f l). lia.
Qed.

Lemma count_ext_in f g l :
  (forall i, In i l -> f i = g i) -> count f l = count g l.
Proof.
  unfold count. intros H. f_equal. by apply List.filter_ext_in.
Qed.

Lemma count_zero f l : count f l = 0 <-> existsb f l = false.
Proof.
  unfold count. induction l as [|i l IH]; [done|].
  cbn [List.filter existsb]. destruct (f i); cbn [length orb]; [|done].
  split; [lia | done].
Qed.

(** The status of the tests for any docs directory, on the records of
    the manifest. *)
Lemma check_tests_on_records docs_path ticket_id :
  counted (check_tests docs_path ticket_id)
  /\ ts_tests (check_tests docs_path ticket_id)
     = map test_info (records docs_path ticket_id)
  /\ total (check_tests docs_path ticket_id)
     = length (records docs_path ticket_id)
  /\ all_red_verified (check_tests docs_path ticket_id)
     = forallb (fun t => red_verified (test_info t))
         (records docs_path ticket_id)
       && (0 <? length (records docs_path ticket_id))
  /\ (ts_exists (check_tests docs_path ticket_id) = true
      <-> exists data,
            manifests docs_path !! ticket_id = Some (Manifest.Decoded data)).
Proof.
  unfold records.
  destruct (manifests docs_path !! ticket_id) as [[e|data]|] eqn:E.
  - rewrite check_tests_not_decoded by eauto.
    repeat split; try done. by intros (data & ?).
  - destruct (check_tests_decoded _ _ _ E) as (H1 & H2 & H3 & H4 & H5).
    split; [exact H1|]. repeat split; eauto.
  - rewrite check_tests_not_decoded by eauto.
    repeat split; try done. by intros (data & ?).
Qed.

Lemma passed_all_required ts :
  counted ts -> passed ts = length (ts_tests ts) ->
  required_passed ts = required_total ts.
Proof.
  intros (Hp & _ & _ & _ & Ht & Hr). rewrite Hp, Hr, Ht.
  intros Hall%count_all. apply count_ext_in. intros i Hi.
  rewrite forallb_forall in Hall. by rewrite (Hall i Hi).
Qed.

(** X5. For every docs directory the counters of the tests are bounded
    by one another: required_passed <= required_total <= total and
    required_passed <= passed; and when every record has passed, every
    required record has. *)
Theorem required_counters_bounded docs_path ticket_id :
  required_passed (check_tests docs_path ticket_id)
  <= required_total (check_tests docs_path ticket_id)
  /\ required_total (check_tests docs_path ticket_id)
     <= total (check_tests docs_path ticket_id)
  /\ required_passed (check_tests docs_path ticket_id)
     <= passed (check_tests docs_path ticket_id)
  /\ (passed (check_tests docs_path ticket_id)
      = total (check_tests docs_path ticket_id) ->
      required_passed (check_tests docs_path ticket_id)
      = required_total (check_tests docs_path ticket_id)).
Proof.
  destruct (check_tests_on_records docs_path ticket_id)
    as (Hc & Hl & Hn & _).
  assert (Hlen : total (check_tests docs_path ticket_id)
                 = length (ts_tests (check_tests docs_path ticket_id)))
    by (by rewrite Hn, Hl, length_map).
  split; [|split; [|split]].
  - destruct Hc as (_ & _ & _ & _ & -> & ->).
    apply count_le. by intros i [_ ?]%andb_true_iff.
  - destruct Hc as (_ & _ & _ & _ & -> & _). rewrite Hlen.
    apply count_le_length.
  - destruct Hc as (-> & _ & _ & _ & _ & ->).
    apply count_le. by intros i [? _]%andb_true_iff.
  - rewrite Hlen. by apply passed_all_required.
Qed.

(** The status that [check_ticket] hands to [determine_next_step], with
    the tests of some docs directory. *)
Lemma check_ticket_tests ticket_id docs_path :
  exists s docs_path',
    check_ticket ticket_id docs_path = with_next_step s
    /\ tests s = check_tests docs_path' ticket_id
    /\ (tk_exists s = true -> docs_path' = docs_path).
Proof.
  unfold check_ticket.
  destruct (tickets docs_path !! ticket_id) as [ticket_path|].
  - eexists _, docs_path. by repeat split.
  - eexists _, {| tickets := ∅; manifests := ∅ |}. by repeat split.
Qed.

Lemma at_gate_with_next_step s : at_gate (with_next_step s) <-> at_gate s.
Proof.
  unfold at_gate.
  destruct (with_next_step_fields s) as (_ & _ & _ & -> & _ & -> & _).
  by destruct (with_next_step_vocabulary s) as (-> & _).
Qed.

Lemma at_gate_exists s : at_gate s -> tk_exists s = true.
Proof.
  intros (H & _). apply documents_ready_iff in H. tauto.
Qed.

(** X6. At the test gate, and for a manifest on which [check_tests]
    goes on, the classification is needs-tests exactly when the
    manifest has no record: tests.json is absent, reading or decoding
    it raises an exception that is caught, or it decodes to an object
    with no tests.  The detail says that tests.json was not found in
    the first two cases and that it has no tests in the third. *)
Theorem needs_tests_iff_no_records ticket_id docs_path :
  at_gate (check_ticket ticket_id docs_path) ->
  (next_step (check_ticket ticket_id docs_path) = "needs-tests"
   <-> records docs_path ticket_id = [])
  /\ (records docs_path ticket_id = [] ->
      next_step_detail (check_ticket ticket_id docs_path)
      = match manifests docs_path !! ticket_id with
        | Some (Manifest.Decoded _) =>
            "tests.json exists but has no tests defined"
        | _ => "No tests.json found - create test definitions"
        end).
Proof.
  destruct (check_ticket_tests ticket_id docs_path)
    as (s & dp' & -> & Htests & Hdp).
  intros Hgate. apply (proj1 (at_gate_with_next_step s)) in Hgate.
  rewrite (Hdp (at_gate_exists s Hgate)) in Htests. clear Hdp dp'.
  destruct (with_next_step_fields s) as (_ & _ & _ & _ & _ & _ & -> & ->).
  destruct (check_tests_on_records docs_path ticket_id)
    as (_ & _ & Htotal & _ & Hex).
  rewrite <- Htests in Htotal, Hex.
  pose proof (decision_table s) as Hf.
  assert (Hrec : records docs_path ticket_id = [] ->
            fires s "needs-tests"
              match manifests docs_path !! ticket_id with
              | Some (Manifest.Decoded _) =>
                  "tests.json exists but has no tests defined"
              | _ => "No tests.json found - create test definitions"
              end).
  { intros Hnil. rewrite Hnil in Htotal.
    destruct (manifests docs_path !! ticket_id) as [[e|data]|] eqn:Em.
    - apply R_no_manifest; [done|].
      destruct (ts_exists (tests s)); [|done].
      by destruct (proj1 Hex eq_refl).
    - apply R_no_tests; [done | | done]. apply Hex. eauto.
    - apply R_no_manifest; [done|].
      destruct (ts_exists (tests s)); [|done].
      by destruct (proj1 Hex eq_refl). }
  split; [split|].
  - intros Hstep. rewrite Hstep in Hf.
    inversion Hf as [| | | | |_ Hno|_ _ H0| | | | | | | | |].
    + destruct (records docs_path ticket_id) eqn:Er; [done|].
      unfold records in Er.
      destruct (manifests docs_path !! ticket_id) as [[e|data]|]; try done.
      assert (ts_exists (tests s) = true) by (apply Hex; eauto). congruence.
    + rewrite H0 in Htotal. by destruct (records docs_path ticket_id).
  - intros Hnil. by rewrite (fires_result s _ _ (Hrec Hnil)).
  - intros Hnil. by rewrite (fires_result s _ _ (Hrec Hnil)).
Qed.


Lemma count_pos_existsb f l : 0 < count f l <-> existsb f l = true.
Proof.
  pose proof (count_zero f l) as H.
  destruct (existsb f l).
  - split; [done|]. intros _. destruct (count f l); [|lia].
    discriminate (proj1 H eq_refl).
  - split; [|done]. intros Hpos. rewrite (proj2 H eq_refl) in Hpos. lia.
Qed.

Lemma forallb_map_info (f : TestInfo -> bool) l :
  forallb f (map test_info l) = forallb (fun t => f (test_info t)) l.
Proof. induction l as [|t l IH]; cbn; [done | by rewrite IH]. Qed.

(** The counters and flags of the tests of a docs directory, on the
    list of its records. *)
Lemma tests_on_list docs_path ticket_id :
  let ts := check_tests docs_path ticket_id in
  blocked ts = count is_blocked (ts_tests ts)
  /\ failed ts = count is_failed (ts_tests ts)
  /\ pending ts = count in_pending_bucket (ts_tests ts)
  /\ passed ts = count is_passed (ts_tests ts)
  /\ total ts = length (ts_tests ts)
  /\ all_red_verified ts
     = forallb red_verified (ts_tests ts) && (0 <? length (ts_tests ts))
  /\ (ts_tests ts <> [] -> ts_exists ts = true).
Proof.
  intros ts. subst ts.
  destruct (check_tests_on_records docs_path ticket_id)
    as ((Hp & Hf & Hb & Hn & _) & Hl & Ht & Hr & Hex).
  rewrite Hl in Hp, Hf, Hb, Hn.
  rewrite Hr, Ht, Hl, forallb_map_info, length_map.
  repeat split; try done.
  intros Hne. apply Hex. unfold records in *.
  destruct (manifests docs_path !! ticket_id) as [[e|data]|]; eauto; done.
Qed.

(** X7. At the test gate, with at least one record, the rules are taken
    in the order blocked, unverified, failed: the classification is
    tests-blocked exactly when some record is blocked, red-phase exactly
    when none is blocked and some record is not red-verified, and
    tests-failing exactly when none is blocked, all are red-verified
    and some record has failed. *)
Theorem gate_priority ticket_id docs_path :
  at_gate (check_ticket ticket_id docs_path) ->
  (next_step (check_ticket ticket_id docs_path) = "tests-blocked"
   <-> existsb is_blocked
         (ts_tests (tests (check_ticket ticket_id docs_path))) = true)
  /\ (next_step (check_ticket ticket_id docs_path) = "red-phase"
      <-> existsb is_blocked
            (ts_tests (tests (check_ticket ticket_id docs_path))) = false
          /\ forallb red_verified
               (ts_tests (tests (check_ticket ticket_id docs_path))) = false)
  /\ (next_step (check_ticket ticket_id docs_path) = "tests-failing"
      <-> existsb is_blocked
            (ts_tests (tests (check_ticket ticket_id docs_path))) = false
          /\ forallb red_verified
               (ts_tests (tests (check_ticket ticket_id docs_path))) = true
          /\ existsb is_failed
               (ts_tests (tests (check_ticket ticket_id docs_path))) = true).
Proof.
  destruct (check_ticket_tests ticket_id docs_path)
    as (s & dp' & -> & Htests & Hdp).
  intros Hgate. apply (proj1 (at_gate_with_next_step s)) in Hgate.
  rewrite (Hdp (at_gate_exists s Hgate)) in Htests. clear Hdp dp'.
  destruct (with_next_step_fields s) as (_ & _ & _ & _ & -> & _ & -> & _).
  destruct (tests_on_list docs_path ticket_id)
    as (Hb & Hf & _ & _ & Ht & Hr & Hex).
  rewrite <- Htests in Hb, Hf, Ht, Hr, Hex.
  set (l := ts_tests (tests s)) in *.
  pose proof (decision_table s) as Hd.
  assert (Hne : forall f, existsb f l = true ->
            ts_exists (tests s) = true /\ total (tests s) <> 0).
  { intros f He. destruct l; [done|]. split; [by apply Hex|].
    rewrite Ht. done. }
  assert (Hall : l <> [] ->
            all_red_verified (tests s) = forallb red_verified l).
  { intros Hl. rewrite Hr. destruct l; [done|]. apply andb_true_r. }
  split; [split | split; [split|split]].
  - intros Hstep. rewrite Hstep in Hd. inversion Hd.
    apply count_pos_existsb. by rewrite <- Hb.
  - intros He. destruct (Hne _ He) as [H1 H2].
    rewrite (fires_result s _ _ (R_tests_blocked s Hgate H1 H2
               ltac:(rewrite Hb; by apply count_pos_existsb))).
    done.
  - intros Hstep. rewrite Hstep in Hd.
    inversion Hd as [| | | | | | | |_ _ Htot Hbl Hred| | | | | | |].
    split; [apply count_zero; by rewrite <- Hb|].
    rewrite <- Hall; [done|]. intros Hl. rewrite Ht, Hl in Htot. done.
  - intros [Hnb Hnr].
    assert (Hl : l <> []) by (intros Hl; by rewrite Hl in Hnr).
    assert (H1 : ts_exists (tests s) = true) by (by apply Hex).
    assert (H2 : total (tests s) <> 0)
      by (rewrite Ht; by destruct l).
    rewrite (fires_result s _ _ (R_red_phase s Hgate H1 H2
               ltac:(rewrite Hb; by apply count_zero)
               ltac:(by rewrite Hall))).
    done.
  - intros Hstep. rewrite Hstep in Hd.
    inversion Hd as [| | | | | | | | |_ _ Htot Hbl Hred Hfl| | | | | |].
    assert (Hl : l <> []) by (intros Hl; rewrite Ht, Hl in Htot; done).
    repeat split.
    + apply count_zero. by rewrite <- Hb.
    + by rewrite <- Hall.
    + apply count_pos_existsb. by rewrite <- Hf.
  - intros (Hnb & Hv & Hfl). destruct (Hne _ Hfl) as [H1 H2].
    assert (Hl : l <> []) by (intros Hl; by rewrite Hl in Hfl).
    rewrite (fires_result s _ _ (R_tests_failing s Hgate H1 H2
               ltac:(rewrite Hb; by apply count_zero)
               ltac:(by rewrite Hall)
               ltac:(rewrite Hf; by apply count_pos_existsb))).
    done.
Qed.

(** X8. When the classification is needs-impl the detail is the list
    of the identifiers of the records whose status is pending: for a
    status that [check_ticket] builds, the rule on the required records
    never decides, since with no record failed, blocked or pending every
    required record has passed. *)
Theorem needs_impl_detail ticket_id docs_path :
  next_step (check_ticket ticket_id docs_path) = "needs-impl" ->
  next_step_detail (check_ticket ticket_id docs_path)
  = "Implement to pass: "
    +:+ Py.join ", "
          (map id
             (List.filter (fun t => String.eqb (status t) "pending")
                (ts_tests (tests (check_ticket ticket_id docs_path))))).
Proof.
  destruct (check_ticket_tests ticket_id docs_path)
    as (s & dp' & -> & Htests & _).
  destruct (with_next_step_fields s) as (_ & _ & _ & _ & -> & _ & -> & ->).
  destruct (tests_on_list dp' ticket_id)
    as (Hb & Hf & Hn & Hp & Ht & _ & _).
  destruct (check_tests_on_records dp' ticket_id) as (Hc & _).
  rewrite <- Htests in Hb, Hf, Hn, Hp, Ht, Hc.
  pose proof (buckets_partition (ts_tests (tests s))) as Hsum.
  pose proof (decision_table s) as Hd.
  intros Hstep. rewrite Hstep in Hd.
  inversion Hd as [| | | | | | | | | |? ? ? ? ? ? ? Hdet
                   |_ _ _ Hbl _ Hfl Hpe Hr Hdet| | | |]; [done|].
  exfalso.
  assert (Hall : passed (tests s) = length (ts_tests (tests s))) by lia.
  rewrite (passed_all_required _ Hc Hall) in Hr. lia.
Qed.

End GateOnRecords.

(** ** The verdicts of check_tests.py *)

Section Verdicts.
Import CheckTests.
Import Lifecycle(marks, records).
Import Facts(evidenced).

Lemma trajectory_loop l : forall s,
  l_all_trajectory (fold_left loop_step l s)
  = l_all_trajectory s
    && forallb
         (fun t => negb (String.eqb (status (test_detail t)) "passed"
                         && negb (has_trajectory (test_detail t)))) l.
Proof.
  induction l as [|t l IH]; intros s; cbn [fold_left forallb].
  - by rewrite andb_true_r.
  - rewrite IH. unfold loop_step at 1. cbn [l_all_trajectory].
    destruct (String.eqb (status (test_detail t)) "passed"
              && negb (has_trajectory (test_detail t)));
      cbn [negb andb]; [by rewrite andb_false_r | done].
Qed.

Lemma status_issues_nil d : status_issues d = [] <-> evidenced d = true.
Proof.
  unfold status_issues, evidenced.
  destruct (String.eqb (status d) "passed"); cbn [negb orb]; [|done].
  destruct (has_trajectory d), (red_verified d); cbn; split; done.
Qed.

Lemma flat_map_nil {A B} (f : A -> list B) l :
  flat_map f l = [] <-> forall a, In a l -> f a = [].
Proof.
  induction l as [|a l IH]; cbn [flat_map].
  - split; [by intros _ a [] | done].
  - split.
    + intros [H1 H2]%app_eq_nil a' [<- | Hin]; [done|]. by apply IH.
    + intros H. rewrite (H a) by (by left). apply IH.
      intros a' Hin. apply H. by right.
Qed.

(** The report of [check_tests] for a manifest with records. *)
Lemma check_tests_with_records ticket_id docs_path :
  records docs_path ticket_id <> [] ->
  let l := records docs_path ticket_id in
  let r := check_tests ticket_id docs_path in
  tests r = map test_detail l
  /\ total_tests r = length l
  /\ st_issues r = flat_map (fun t => status_issues (test_detail t)) l
  /\ valid r = Nat.eqb (length (st_issues r)) 0
  /\ all_red_verified r = forallb (fun t => red_verified (test_detail t)) l
  /\ all_trajectories_complete r
     = forallb
         (fun t => negb (String.eqb (status (test_detail t)) "passed"
                         && negb (has_trajectory (test_detail t)))) l
  /\ tests_json_exists r = true.
Proof.
  unfold records, check_tests.
  destruct (manifests docs_path !! ticket_id) as [[e|data]|]; try done.
  set (l := Py.get (Manifest.d_tests data) []).
  intros Hne. destruct l as [|t0 l0] eqn:El; [done|].
  cbn [length Nat.eqb]. rewrite <- El.
  match goal with
  | |- context [fold_left loop_step l ?s0] =>
      destruct (tests_loop_spec l s0) as (H1 & H2 & _ & H4);
      pose proof (trajectory_loop l s0) as H5
  end.
  cbn [tests total_tests st_issues valid all_red_verified
       all_trajectories_complete tests_json_exists].
  rewrite H1, H2, H4, H5. cbn [l_tests l_issues l_all_red l_all_trajectory].
  repeat split; try done. by rewrite negb_involutive.
Qed.

(** The report of [check_tests] for a manifest without records. *)
Lemma check_tests_without_records ticket_id docs_path :
  records docs_path ticket_id = [] ->
  let r := check_tests ticket_id docs_path in
  tests r = [] /\ valid r = false /\ length (st_issues r) = 1
  /\ all_red_verified r = false /\ all_trajectories_complete r = false
  /\ forall sc, In sc (spec_cases r) ->
       covered sc = false /\ test_id sc = None.
Proof.
  unfold records, check_tests.
  assert (Hinit : forall (spec : option string) sc,
            In sc match spec with
                  | Some content =>
                      map (fun c => {| sc_name := c; covered := false;
                                       test_id := None |})
                        (parse_spec_cases content)
                  | None => []
                  end ->
            covered sc = false /\ test_id sc = None).
  { intros [content|] sc; [|done].
    rewrite in_map_iff. by intros (c & <- & _). }
  destruct (manifests docs_path !! ticket_id) as [[e|data]|];
    intros Hnil; try rewrite Hnil; cbv zeta;
    cbn [length Nat.eqb tests valid st_issues all_red_verified
         all_trajectories_complete spec_cases];
    (split; [done|]); (split; [done|]); (split; [done|]);
    (split; [done|]); (split; [done|]); apply Hinit.
Qed.

(** X9. check_tests.py calls the manifest valid exactly when it has at
    least one record and every record that passed has a trajectory and
    the RED verification; the diagnostics on the RED and GREEN markers
    play no role.  Its exit status is 0 exactly when the docs path
    exists and the manifest is valid, and 1 otherwise. *)
Theorem tests_valid_iff ticket_id docs_path :
  (valid (check_tests ticket_id docs_path) = true
   <-> records docs_path ticket_id <> []
       /\ forall t, In t (records docs_path ticket_id) ->
            status (test_detail t) = "passed" ->
            has_trajectory (test_detail t) = true
            /\ red_verified (test_detail t) = true)
  /\ (main ticket_id (Some docs_path) = 0
      <-> valid (check_tests ticket_id docs_path) = true)
  /\ (main ticket_id (Some docs_path) = 0
      \/ main ticket_id (Some docs_path) = 1)
  /\ main ticket_id None = 1.
Proof.
  assert (Hev : forall t,
            evidenced (test_detail t) = true
            <-> (status (test_detail t) = "passed" ->
                 has_trajectory (test_detail t) = true
                 /\ red_verified (test_detail t) = true)).
  { intros t. unfold evidenced.
    destruct (String.eqb_spec (status (test_detail t)) "passed") as [E|E];
      cbn [negb orb]; [|tauto].
    rewrite andb_true_iff. tauto. }
  assert (Hvalid :
    valid (check_tests ticket_id docs_path) = true
    <-> records docs_path ticket_id <> []
        /\ forall t, In t (records docs_path ticket_id) ->
             status (test_detail t) = "passed" ->
             has_trajectory (test_detail t) = true
             /\ red_verified (test_detail t) = true).
  { destruct (records docs_path ticket_id) as [|t0 l0] eqn:Er.
    - destruct (check_tests_without_records _ _ Er) as (_ & -> & _).
      split; [done | by intros [? _]].
    - assert (Hne : records docs_path ticket_id <> []) by (by rewrite Er).
      destruct (check_tests_with_records _ _ Hne)
        as (_ & _ & Hi & -> & _).
      rewrite Hi, Er, Nat.eqb_eq, length_zero_iff_nil, flat_map_nil.
      split.
      + intros H. split; [done|]. intros t Hin.
        apply Hev, status_issues_nil. by apply H.
      + intros [_ H] t Hin. apply status_issues_nil, Hev. by apply H. }
  split; [exact Hvalid|].
  unfold main.
  destruct (valid (check_tests ticket_id docs_path)) eqn:Ev; cbn [andb].
  - destruct (proj1 Hvalid eq_refl) as [Hne _].
    destruct (check_tests_with_records _ _ Hne) as (_ & _ & _ & Hv & _).
    rewrite <- Hv, Ev. repeat split; auto.
  - repeat split; auto; done.
Qed.

(** X10. [all_trajectories_complete] is true exactly when the manifest
    has at least one record and every record that passed has a
    trajectory; a valid manifest has it. *)
Theorem trajectories_complete_iff ticket_id docs_path :
  (all_trajectories_complete (check_tests ticket_id docs_path) = true
   <-> records docs_path ticket_id <> []
       /\ forall t, In t (records docs_path ticket_id) ->
            status (test_detail t) = "passed" ->
            has_trajectory (test_detail t) = true)
  /\ (valid (check_tests ticket_id docs_path) = true ->
      all_trajectories_complete (check_tests ticket_id docs_path) = true).
Proof.
  destruct (records docs_path ticket_id) as [|t0 l0] eqn:Er.
  - destruct (check_tests_without_records _ _ Er) as (_ & -> & _ & _ & -> & _).
    split; [|done]. split; [done | by intros [? _]].
  - assert (Hne : records docs_path ticket_id <> []) by (by rewrite Er).
    destruct (check_tests_with_records _ _ Hne)
      as (_ & _ & Hi & -> & _ & -> & _).
    rewrite Hi, Er, Nat.eqb_eq, length_zero_iff_nil, flat_map_nil,
      forallb_forall.
    split; [split|].
    + intros H. split; [done|]. intros t Hin Hs.
      specialize (H t Hin). rewrite Hs in H.
      by destruct (has_trajectory (test_detail t)).
    + intros [_ H] t Hin.
      destruct (String.eqb_spec (status (test_detail t)) "passed") as [E|E];
        [|done].
      by rewrite (H t Hin E).
    + intros H t Hin. specialize (H t Hin).
      apply status_issues_nil in H. unfold evidenced in H.
      destruct (String.eqb (status (test_detail t)) "passed"); [|done].
      by destruct (has_trajectory (test_detail t)).
Qed.

End Verdicts.

(** ** The coverage of check_tests.py *)

Section Coverage.
Import CheckTests.
Import Lifecycle(marks, records).
Import Facts(declared, fresh_case).

Lemma marks_nil sc : marks [] sc = sc.
Proof. done. Qed.

Lemma marks_app l1 l2 sc : marks (l1 ++ l2) sc = marks l2 (marks l1 sc).
Proof. unfold marks. apply fold_left_app. Qed.

(** The reported cases are the declared ones, each with the marks of
    the records of the manifest. *)
Lemma spec_cases_marks ticket_id docs_path :
  spec_cases (check_tests ticket_id docs_path)
  = map (fun c => marks (records docs_path ticket_id) (fresh_case c))
      (declared docs_path ticket_id).
Proof.
  assert (Hinit :
    match tickets docs_path !! ticket_id ≫= (.!! "3-spec.md") with
    | Some content =>
        map (fun c => {| sc_name := c; covered := false; test_id := None |})
          (parse_spec_cases content)
    | None => []
    end
    = map fresh_case (declared docs_path ticket_id)).
  { unfold declared.
    by destruct (tickets docs_path !! ticket_id ≫= (.!! "3-spec.md")). }
  assert (Hearly :
    map (fun c => marks [] (fresh_case c)) (declared docs_path ticket_id)
    = map fresh_case (declared docs_path ticket_id)) by done.
  unfold check_tests, records.
  destruct (manifests docs_path !! ticket_id) as [[e|data]|];
    try (cbv zeta; cbn [spec_cases]; by rewrite Hinit, Hearly).
  set (l := Py.get (Manifest.d_tests data) []).
  destruct l as [|t0 l0] eqn:El;
    [cbv zeta; cbn [length Nat.eqb spec_cases]; by rewrite Hinit|].
  cbn [length Nat.eqb spec_cases]. rewrite <- El.
  match goal with
  | |- context [fold_left loop_step l ?s0] =>
      destruct (tests_loop_spec l s0) as (_ & _ & -> & _)
  end.
  cbn [l_spec_cases]. by rewrite Hinit, map_map.
Qed.

Lemma covered_marks_mono l sc :
  covered sc = true -> covered (marks l sc) = true.
Proof.
  intros H. destruct (marks_spec l sc) as [_ ->]. by rewrite H.
Qed.

(** What the marks of the records leave on a fresh case. *)
Lemma marks_last l : forall c,
  sc_name (marks l (fresh_case c)) = c
  /\ ((covered (marks l (fresh_case c)) = false
       /\ test_id (marks l (fresh_case c)) = None
       /\ forall t, In t l -> covers (test_detail t) (fresh_case c) = false)
      \/ exists l1 t l2,
           l = l1 ++ t :: l2
           /\ covers (test_detail t) (fresh_case c) = true
           /\ (forall t', In t' l2 ->
                 covers (test_detail t') (fresh_case c) = false)
           /\ covered (marks l (fresh_case c)) = true
           /\ test_id (marks l (fresh_case c)) = Some (id (test_detail t))).
Proof.
  induction l as [|t l IH] using rev_ind; intros c.
  - split; [done|]. left. by repeat split.
  - destruct (IH c) as [Hname Hcases]. rewrite marks_app.
    change (marks [t] (marks l (fresh_case c)))
      with (mark (test_detail t) (marks l (fresh_case c))).
    assert (Hc : covers (test_detail t) (marks l (fresh_case c))
                 = covers (test_detail t) (fresh_case c))
      by (by apply covers_name).
    unfold mark. rewrite Hc.
    destruct (covers (test_detail t) (fresh_case c)) eqn:Ecov.
    + split; [done|]. right. exists l, t, []. by repeat split.
    + split; [done|]. destruct Hcases as [(H1 & H2 & H3) | Hex].
      * left. repeat split; try done.
        intros t' [Hin | [<- | []]]%in_app_or; auto.
      * right. destruct Hex as (l1 & t1 & l2 & -> & Ht1 & Hl2 & H4 & H5).
        exists l1, t1, (l2 ++ [t]). rewrite <- app_assoc.
        repeat split; try done.
        intros t' [Hin | [<- | []]]%in_app_or; auto.
Qed.

(** X11. The cases that check_tests.py reports are the cases that
    3-spec.md declares, in their order, whatever the manifest is; a case
    that is not covered names no test, and a covered case names the last
    record of the manifest that covers it. *)
Theorem spec_cases_reported ticket_id docs_path :
  map sc_name (spec_cases (check_tests ticket_id docs_path))
  = declared docs_path ticket_id
  /\ forall sc,
       In sc (spec_cases (check_tests ticket_id docs_path)) ->
       (covered sc = false -> test_id sc = None)
       /\ (covered sc = true ->
           exists l1 t l2,
             records docs_path ticket_id = l1 ++ t :: l2
             /\ covers (test_detail t) sc = true
             /\ (forall t', In t' l2 -> covers (test_detail t') sc = false)
             /\ test_id sc = Some (id (test_detail t))).
Proof.
  rewrite spec_cases_marks. split.
  - rewrite map_map. rewrite <- (map_id (declared docs_path ticket_id)) at 2.
    apply map_ext. intros c. by destruct (marks_last (records docs_path ticket_id) c).
  - intros sc (c & <- & _)%in_map_iff.
    destruct (marks_last (records docs_path ticket_id) c)
      as [Hname [(H1 & H2 & _) | (l1 & t & l2 & Hl & Ht & Hl2 & H4 & H5)]].
    + split; [done | congruence].
    + split; [congruence|]. intros _. exists l1, t, l2.
      repeat split; try done.
      * by rewrite (covers_name _ _ (fresh_case c)).
      * intros t' Hin. rewrite (covers_name _ _ (fresh_case c)); auto.
Qed.

Lemma covered_count_mono {A} (f g : A -> SpecCase) l :
  (forall a, covered (f a) = true -> covered (g a) = true) ->
  length (List.filter covered (map f l))
  <= length (List.filter covered (map g l)).
Proof.
  intros H. induction l as [|a l IH]; [done|].
  cbn [map List.filter]. destruct (covered (f a)) eqn:Ef.
  - rewrite (H a Ef). cbn [length]. lia.
  - destruct (covered (g a)); cbn [length]; lia.
Qed.

(** X12. Records added at the end of the manifest never take coverage
    away: with the same documents, every case that was covered stays
    covered, so the number of covered cases does not go down, and the
    reported cases keep their names. *)
Theorem coverage_monotone ticket_id docs_path docs_path' more :
  tickets docs_path' = tickets docs_path ->
  records docs_path' ticket_id = records docs_path ticket_id ++ more ->
  map sc_name (spec_cases (check_tests ticket_id docs_path'))
  = map sc_name (spec_cases (check_tests ticket_id docs_path))
  /\ length (List.filter covered
               (spec_cases (check_tests ticket_id docs_path)))
     <= length (List.filter covered
                  (spec_cases (check_tests ticket_id docs_path')))
  /\ Forall2 (fun sc sc' => covered sc = true -> covered sc' = true)
       (spec_cases (check_tests ticket_id docs_path))
       (spec_cases (check_tests ticket_id docs_path')).
Proof.
  intros Ht Hr. rewrite !spec_cases_marks, Hr.
  assert (Hd : declared docs_path' ticket_id = declared docs_path ticket_id)
    by (unfold declared; by rewrite Ht).
  rewrite Hd.
  assert (Hmono : forall c,
            covered (marks (records docs_path ticket_id) (fresh_case c)) = true ->
            covered (marks (records docs_path ticket_id ++ more)
                       (fresh_case c)) = true).
  { intros c H. rewrite marks_app. by apply covered_marks_mono. }
  split; [|split].
  - rewrite !map_map. apply map_ext. intros c.
    destruct (marks_last (records docs_path ticket_id ++ more) c) as [-> _].
    by destruct (marks_last (records docs_path ticket_id) c) as [-> _].
  - by apply covered_count_mono.
  - clear Hd. induction (declared docs_path ticket_id) as [|c l IH];
      cbn [map]; constructor; auto.
Qed.

End Coverage.

(** ** The case names of 3-spec.md *)

Section SpecCases.
Import CheckTests.
Import Facts(normal_case, keepable, dedupe_step, deduped).

Lemma dedupe_step_spec acc c :
  deduped acc ->
  deduped (dedupe_step acc c)
  /\ (forall c', In c' (snd acc) -> In c' (snd (dedupe_step acc c)))
  /\ (keepable c -> In (normal_case c)
                      (map normal_case (snd (dedupe_step acc c))))
  /\ (forall c', In c' (snd (dedupe_step acc c)) ->
        In c' (snd acc) \/ c' = c).
Proof.
  destruct acc as [seen unique]. intros Hacc.
  pose proof Hacc as (Hseen & Hnd & Hkeep).
  unfold dedupe_step. fold (normal_case c). cbn [fst snd] in *.
  assert (Hstay : forall P : Prop, (keepable c -> P) ->
            deduped (seen, unique)
            /\ (forall c', In c' unique -> In c' unique)
            /\ (keepable c -> P)
            /\ (forall c', In c' unique -> In c' unique \/ c' = c))
    by (intros P HP; repeat apply conj; auto).
  destruct (String.eqb_spec (normal_case c) "") as [He|He]; cbn [negb andb].
  { apply Hstay. by intros (? & _). }
  case_bool_decide as Hin; cbn [negb andb].
  { apply Hstay. intros _. by apply Hseen. }
  case_bool_decide as Hhead; cbn [negb andb].
  { apply Hstay. by intros (_ & ? & _). }
  destruct (Py.startswith "---" (normal_case c)) eqn:Hsep; cbn [negb].
  { apply Hstay. intros (_ & _ & ?). congruence. }
  cbn [fst snd].
  split; [|split; [|split]].
  - unfold deduped. cbn [fst snd]. rewrite map_app. cbn [map].
    split; [|split].
    + intros x. rewrite elem_of_union, elem_of_singleton, in_app_iff, Hseen.
      cbn [In]. intuition.
    + apply NoDup_app. split; [done|]. split; [|apply NoDup_singleton].
      intros x Hx%list_elem_of_In ->%list_elem_of_singleton.
      apply Hin. by apply Hseen.
    + intros c' [Hc | [<- | []]]%in_app_or; [by apply Hkeep | done].
  - intros c' Hc. apply in_or_app. by left.
  - intros _. rewrite map_app. apply in_or_app. right. by left.
  - intros c' [Hc | [<- | []]]%in_app_or; auto.
Qed.

Lemma dedupe_loop cases : forall acc,
  deduped acc ->
  deduped (fold_left dedupe_step cases acc)
  /\ (forall c, In c (snd acc) ->
        In c (snd (fold_left dedupe_step cases acc)))
  /\ (forall c, In c cases -> keepable c ->
        In (normal_case c)
          (map normal_case (snd (fold_left dedupe_step cases acc))))
  /\ (forall c, In c (snd (fold_left dedupe_step cases acc)) ->
        In c (snd acc) \/ In c cases).
Proof.
  induction cases as [|c cases IH]; intros acc Hacc; cbn [fold_left].
  - split; [done|]. split; [done|]. split; [by intros c []|]. auto.
  - destruct (dedupe_step_spec acc c Hacc) as (H1 & H2 & H3 & H4).
    destruct (IH _ H1) as (I1 & I2 & I3 & I4).
    split; [done|]. split; [auto|]. split.
    + intros c' [<- | Hin] Hk; [|auto].
      destruct (proj1 (in_map_iff _ _ _) (H3 Hk)) as (c0 & Hn & Hc0).
      rewrite <- Hn. apply in_map. auto.
    + intros c' Hc'. destruct (I4 c' Hc') as [Hc | Hc]; [|cbn; auto].
      destruct (H4 c' Hc) as [? | ->]; cbn; auto.
Qed.

(** X13. The case names that [parse_spec_cases] returns are pairwise
    different up to case and surrounding whitespace, and none is empty,
    a word of a table header or a separator; every name found in a
    table row or a bullet that is none of these is returned, up to
    case. *)
Theorem parse_spec_cases_deduped content :
  NoDup (map normal_case (parse_spec_cases content))
  /\ (forall c, In c (parse_spec_cases content) -> keepable c)
  /\ (forall c,
        In c (Re.findall_lines re_table content)
        \/ In c (Re.findall_lines re_bullet content) ->
        keepable c ->
        In (normal_case c) (map normal_case (parse_spec_cases content))).
Proof.
  unfold parse_spec_cases. cbv zeta.
  match goal with
  | |- context [fold_left ?f ?cs (∅, [])] =>
      change f with dedupe_step; set (cases := cs)
  end.
  assert (Hinit : deduped (∅, [])).
  { split; [|split].
    - intros x. cbn. set_solver.
    - apply NoDup_nil_2.
    - by intros c []. }
  destruct (dedupe_loop cases (∅, []) Hinit) as ((_ & Hnd & Hk) & _ & Hc & _).
  split; [exact Hnd|]. split; [exact Hk|].
  intros c Hin. apply Hc. subst cases.
  destruct Hin as [Hin | Hin].
  - apply in_or_app. by left.
  - apply in_or_app. right. apply in_or_app. by left.
Qed.

End SpecCases.


(** ** The content of a document *)

Section Content.
Import CheckTicket.
Import Facts(all_chars, all_space).

Lemma lstrip_space ws s :
  all_space ws = true -> Py.lstrip (ws +:+ s) = Py.lstrip s.
Proof.
  unfold all_space. induction ws as [|c ws IH]; [done|].
  simpl. intros [-> H]%andb_true_iff. auto.
Qed.

Lemma lstrip_all_space ws : all_space ws = true -> Py.lstrip ws = "".
Proof.
  unfold all_space. induction ws as [|c ws IH]; [done|].
  simpl. intros [-> H]%andb_true_iff. auto.
Qed.

Lemma rstrip_space ws : all_space ws = true -> Py.rstrip ws = "".
Proof.
  unfold all_space. induction ws as [|c ws IH]; [done|].
  simpl. intros [-> H]%andb_true_iff. by rewrite IH.
Qed.

Lemma rstrip_app_space s ws :
  all_space ws = true -> Py.rstrip (s +:+ ws) = Py.rstrip s.
Proof.
  intros H. induction s as [|c s IH]; simpl.
  - by apply rstrip_space.
  - by rewrite IH.
Qed.

Lemma strip_app_space s ws :
  all_space ws = true -> Py.strip (s +:+ ws) = Py.strip s.
Proof.
  intros H. unfold Py.strip.
  induction s as [|c s IH]; simpl.
  - by rewrite lstrip_all_space.
  - destruct (Py.isspace c); [done|].
    change (String c (s +:+ ws)) with (String c s +:+ ws).
    by apply rstrip_app_space.
Qed.

Lemma strip_padding before text after :
  all_space before = true -> all_space after = true ->
  Py.strip (before +:+ text +:+ after) = Py.strip text.
Proof.
  intros Hb Ha. unfold Py.strip at 1. rewrite lstrip_space by done.
  by apply strip_app_space.
Qed.

Lemma len_lstrip_le s : Py.len (Py.lstrip s) <= Py.len s.
Proof.
  unfold Py.len. induction s as [|c s IH]; simpl; [done|].
  destruct (Py.isspace c); simpl; lia.
Qed.

Lemma len_rstrip_le s : Py.len (Py.rstrip s) <= Py.len s.
Proof.
  unfold Py.len. induction s as [|c s IH]; simpl; [done|].
  destruct (Py.rstrip s); [destruct (Py.isspace c)|]; simpl in *; lia.
Qed.

(** X14. Whether a document has content depends only on its text
    without the whitespace around it: whitespace added before and after
    the text changes nothing, a text of whitespace alone has no content
    however long it is, and a text of at most 50 characters never has
    content. *)
Theorem check_doc_ignores_padding ticket_path doc before text after :
  all_space before = true -> all_space after = true ->
  check_doc (<[doc := before +:+ text +:+ after]> ticket_path) doc
  = check_doc (<[doc := text]> ticket_path) doc
  /\ has_content (check_doc (<[doc := before]> ticket_path) doc) = false
  /\ (Py.len text <= 50 ->
      has_content (check_doc (<[doc := text]> ticket_path) doc) = false).
Proof.
  intros Hb Ha. unfold check_doc. rewrite !lookup_insert_eq.
  rewrite strip_padding by done. split; [done|]. split.
  - unfold Py.strip. by rewrite lstrip_all_space.
  - intros Hlen. cbn [has_content]. apply Nat.ltb_ge.
    unfold Py.strip.
    pose proof (len_rstrip_le (Py.lstrip text)).
    pose proof (len_lstrip_le text). lia.
Qed.

End Content.

(** ** Matching a label: the engine on texts in parts *)

Section Labels.
Import Facts(all_chars, all_space, starts_with_text).

Lemma append_cons c a b : String c a +:+ b = String c (a +:+ b).
Proof. reflexivity. Qed.

Lemma append_nil_l b : "" +:+ b = b.
Proof. reflexivity. Qed.

Ltac sapp := rewrite ?append_cons, ?append_nil_l.

Lemma append_assoc_string a b c : (a +:+ b) +:+ c = a +:+ b +:+ c.
Proof. induction a as [|x a IH]; sapp; [done | by rewrite IH]. Qed.

Lemma append_nil_string a : a +:+ "" = a.
Proof. induction a as [|x a IH]; sapp; [done | by rewrite IH]. Qed.

Lemma lower_app a b : Py.lower (a +:+ b) = Py.lower a +:+ Py.lower b.
Proof.
  unfold Py.lower.
  induction a as [|x a IH]; sapp; cbn [Py.map_chars]; sapp;
    [done | by rewrite IH].
Qed.

Lemma startswith_app p s : Py.startswith p (p +:+ s) = true.
Proof.
  induction p as [|x p IH]; sapp; cbn [Py.startswith]; [done|].
  by rewrite Ascii.eqb_refl, IH.
Qed.

Lemma startswith_contains sub s :
  Py.startswith sub s = true -> Py.contains sub s = true.
Proof. intros H. destruct s; cbn [Py.contains]; by rewrite H. Qed.

Lemma contains_app_r sub a b :
  Py.contains sub b = true -> Py.contains sub (a +:+ b) = true.
Proof.
  intros H. induction a as [|x a IH]; sapp; [done|].
  cbn [Py.contains]. rewrite IH. apply orb_true_r.
Qed.

Lemma startswith_app_l sub a b :
  Py.startswith sub a = true -> Py.startswith sub (a +:+ b) = true.
Proof.
  revert a. induction sub as [|x sub IH]; intros a; [done|].
  destruct a as [|y a]; sapp; cbn [Py.startswith]; [done|].
  intros [-> H]%andb_true_iff. cbn [andb]. auto.
Qed.

Lemma contains_app_l sub a b :
  Py.contains sub a = true -> Py.contains sub (a +:+ b) = true.
Proof.
  induction a as [|x a IH].
  - cbn [Py.contains]. rewrite orb_false_r. intros H.
    apply startswith_contains. by apply (startswith_app_l sub "" b).
  - sapp. cbn [Py.contains]. intros [H | H]%orb_true_iff.
    + rewrite <- append_cons. by rewrite (startswith_app_l _ _ b H).
    + rewrite (IH H). apply orb_true_r.
Qed.

Lemma contains_middle sub a b : Py.contains sub (a +:+ sub +:+ b) = true.
Proof.
  apply contains_app_r, startswith_contains, startswith_app.
Qed.

(** A greedy star consumes a text of the class and goes on behind it. *)
Lemma star_greedy_split {R} p s (k : string -> option R) x :
  Re.star_greedy p s k = Some x ->
  exists u s', s = u +:+ s' /\ all_chars p u = true /\ k s' = Some x.
Proof.
  induction s as [|c s IH]; cbn [Re.star_greedy].
  - intros H. by exists "", "".
  - destruct (p c) eqn:Ep; [|intros H; by exists "", (String c s)].
    destruct (Re.star_greedy p s k) eqn:E.
    + intros [= ->]. destruct (IH eq_refl) as (u & s' & -> & Hu & Hk).
      exists (String c u), s'. cbn [all_chars]. by rewrite Ep, Hu.
    + intros H. by exists "", (String c s).
Qed.

Lemma star_lazy_split {R} p s (k : string -> option R) x :
  Re.star_lazy p s k = Some x ->
  exists u s', s = u +:+ s' /\ all_chars p u = true /\ k s' = Some x.
Proof.
  induction s as [|c s IH]; cbn [Re.star_lazy].
  - destruct (k "") eqn:E; [|done]. intros [= ->]. by exists "", "".
  - destruct (k (String c s)) eqn:E.
    + intros [= ->]. by exists "", (String c s).
    + destruct (p c) eqn:Ep; [|done].
      intros (u & s' & -> & Hu & Hk)%IH.
      exists (String c u), s'. cbn [all_chars]. by rewrite Ep, Hu.
Qed.

(** [re.search] succeeds where some position matches. *)
Lemma search_split r s g :
  Re.search r s = Some g ->
  exists pre s',
    s = pre +:+ s'
    /\ Re.run r s' None (fun cap _ => Some (default "" cap)) = Some g.
Proof.
  induction s as [|c s IH]; cbn [Re.search].
  - destruct (Re.run r "" None _) eqn:E; [|done].
    intros [= ->]. by exists "", "".
  - destruct (Re.run r (String c s) None _) eqn:E.
    + intros [= ->]. by exists "", (String c s).
    + intros (pre & s' & -> & H)%IH. by exists (String c pre), s'.
Qed.

(** A literal under IGNORECASE matches a text that is the literal up to
    case, and nothing else. *)
Lemma run_lit_chi_app {R} w : forall u rest cap
    (k : option string -> string -> option R),
  Py.lower u = Py.lower w ->
  Re.run (Re.lit Re.chi w) (u +:+ rest) cap k = k cap rest.
Proof.
  unfold Py.lower.
  induction w as [|a w IH]; intros [|c u] rest cap k;
    cbn [Py.map_chars Re.lit Re.run]; sapp; try done.
  unfold Re.chi at 1. cbn [Re.run].
  intros [= Hc Hu]. rewrite Hc, Ascii.eqb_refl. by apply IH.
Qed.

Lemma run_lit_chi_fail {R} w : forall s cap
    (k : option string -> string -> option R),
  Py.startswith (Py.lower w) (Py.lower s) = false ->
  Re.run (Re.lit Re.chi w) s cap k = None.
Proof.
  unfold Py.lower.
  induction w as [|a w IH]; intros [|c s] cap k;
    cbn [Py.map_chars Re.lit Re.run Py.startswith]; try done.
  unfold Re.chi at 1. cbn [Re.run].
  rewrite (Ascii.eqb_sym (Py.lower_char a)).
  destruct (Ascii.eqb (Py.lower_char c) (Py.lower_char a)); [|done].
  cbn [andb]. apply IH.
Qed.

(** [re.search] passes the positions where the pattern cannot match. *)
Lemma search_skip r pre s :
  (forall p1 p2, pre = p1 +:+ p2 -> p2 <> "" ->
     Re.run r (p2 +:+ s) None (fun cap _ => Some (default "" cap)) = None) ->
  Re.search r (pre +:+ s) = Re.search r s.
Proof.
  induction pre as [|c pre IH]; intros H; [done|].
  sapp. cbn [Re.search]. rewrite <- append_cons.
  rewrite (H "" (String c pre)) by done.
  apply IH. intros p1 p2 -> Hne. by apply (H (String c p1) p2).
Qed.

Lemma space_not_lowered c :
  Py.isspace c = true -> Py.lower_char c = c.
Proof. destruct c as [[] [] [] [] [] [] [] []]; vm_compute; congruence. Qed.

(** A greedy star goes on behind a text of the class when the pattern
    cannot take the next character and what follows succeeds. *)
Lemma star_greedy_app {R} p u c s' (k : string -> option R) x :
  all_chars p u = true -> p c = false -> k (String c s') = Some x ->
  Re.star_greedy p (u +:+ String c s') k = Some x.
Proof.
  intros Hu Hc Hk. induction u as [|d u IH]; sapp; cbn [Re.star_greedy].
  - by rewrite Hc.
  - cbn [all_chars] in Hu. apply andb_true_iff in Hu as [-> Hu].
    by rewrite (IH Hu).
Qed.

Lemma no_border q r :
  Py.startswith "status:" (q +:+ "status:" +:+ r) = true ->
  q = "" \/ Py.startswith "status:" q = true.
Proof.
  destruct q as [|c1 [|c2 [|c3 [|c4 [|c5 [|c6 [|c7 q]]]]]]];
    rewrite ?append_cons; cbn [Py.startswith String.append]; intros H; auto.
  all: exfalso.
  all: repeat match type of H with
       | _ && _ = true =>
           let H1 := fresh in apply andb_true_iff in H as [H1 H]
       end.
  all: repeat match goal with
       | H : Ascii.eqb _ _ = true |- _ => apply Ascii.eqb_eq in H
       end.
  all: discriminate.
Qed.

Lemma search_hit r s g :
  Re.run r s None (fun cap _ => Some (default "" cap)) = Some g ->
  Re.search r s = Some g.
Proof. intros H. destruct s; cbn [Re.search]; by rewrite H. Qed.

Lemma lower_nil s : Py.lower s = "" -> s = "".
Proof. by destruct s. Qed.

(** The status pattern at a label with its disposition. *)
Lemma run_status_label label ws word post :
  Py.lower label = "status:" -> all_space ws = true ->
  Py.lower word = "complete" \/ Py.lower word = "blocked" ->
  Re.run CheckTicket.re_status (label +:+ ws +:+ word +:+ post) None
    (fun cap _ => Some (default "" cap))
  = Some word.
Proof.
  intros Hl Hws Hw. unfold CheckTicket.re_status. cbn [Re.run].
  rewrite run_lit_chi_app by done. cbn [Re.run].
  assert (Hhead : exists c w, word = String c w /\ Py.isspace c = false).
  { destruct word as [|c w]; [by destruct Hw|]. exists c, w. split; [done|].
    destruct (Py.isspace c) eqn:Es; [|done].
    pose proof (space_not_lowered c Es) as El.
    unfold Py.lower in Hw. cbn [Py.map_chars] in Hw.
    rewrite El in Hw. by destruct Hw as [[= -> _] | [= -> _]]. }
  destruct Hhead as (c & w & Hword & Hc).
  rewrite Hword at 1. rewrite append_cons.
  erewrite star_greedy_app; [reflexivity | exact Hws | exact Hc |].
  rewrite <- append_cons, <- Hword.
  destruct Hw as [Hw | Hw].
  - rewrite run_lit_chi_app by done. cbn [default].
    by rewrite consumed_app.
  - rewrite run_lit_chi_fail
      by (rewrite lower_app, Hw; reflexivity).
    rewrite run_lit_chi_app by done. cbn [default].
    by rewrite consumed_app.
Qed.

(** X15. A disposition comes from a label of 5-final.md.  For a final
    report of characters below 256: when [parse_final_status] returns a
    disposition, the report has the label Status: (in any case), then
    whitespace (possibly none), then the word COMPLETE or BLOCKED (in
    any case), and the result is that word in upper case. *)
Theorem parse_final_status_sound ticket_path x :
  CheckTicket.parse_final_status ticket_path = Some x ->
  exists text pre label ws word post,
    ticket_path !! CheckTicket.FINAL_DOC = Some text
    /\ text = pre +:+ label +:+ ws +:+ word +:+ post
    /\ Py.lower label = "status:"
    /\ all_space ws = true
    /\ (Py.lower word = "complete" \/ Py.lower word = "blocked")
    /\ x = Py.upper word.
Proof.
  unfold CheckTicket.parse_final_status.
  destruct (ticket_path !! CheckTicket.FINAL_DOC) as [text|]; [|done].
  destruct (Re.search CheckTicket.re_status text) as [g|] eqn:E; [|done].
  intros [= <-].
  apply search_split in E as (pre & s' & -> & E).
  unfold CheckTicket.re_status in E. cbn [Re.run] in E.
  apply run_lit_chi_inv in E as (label & r1 & -> & Hl & E).
  apply star_greedy_split in E as (ws & r2 & -> & Hws & E).
  match type of E with
  | match ?r with _ => _ end = _ => destruct r as [g1|] eqn:E1
  end.
  all: try (injection E as <-).
  all: match goal with
       | H : Re.run (Re.lit Re.chi _) _ _ _ = Some _ |- _ =>
           apply run_lit_chi_inv in H as (word & post & -> & Hw & Hk)
       end.
  all: cbn [default] in Hk; injection Hk as <-.
  all: rewrite consumed_app.
  all: exists (pre +:+ label +:+ ws +:+ word +:+ post), pre, label, ws,
         word, post.
  all: repeat split; auto.
Qed.

(** X16. The first label decides.  For a final report of characters
    below 256 that has the label Status: with whitespace and the word
    COMPLETE or BLOCKED behind it (all in any case) and no text status:
    (in any case) before that label, [parse_final_status] returns the
    word of that label in upper case, whatever follows. *)
Theorem parse_final_status_first_label ticket_path pre label ws word post :
  Py.lower label = "status:" ->
  all_space ws = true ->
  Py.lower word = "complete" \/ Py.lower word = "blocked" ->
  Py.contains "status:" (Py.lower pre) = false ->
  CheckTicket.parse_final_status
    (<[CheckTicket.FINAL_DOC := pre +:+ label +:+ ws +:+ word +:+ post]>
       ticket_path)
  = Some (Py.upper word).
Proof.
  intros Hl Hws Hw Hpre.
  unfold CheckTicket.parse_final_status. rewrite lookup_insert_eq.
  rewrite search_skip.
  - by rewrite (search_hit _ _ word (run_status_label _ _ _ post Hl Hws Hw)).
  - intros p1 p2 -> Hne.
    unfold CheckTicket.re_status. cbn [Re.run].
    apply run_lit_chi_fail.
    change (Py.lower "Status:") with "status:".
    rewrite !lower_app, Hl.
    destruct (Py.startswith "status:"
                (Py.lower p2 +:+ "status:" +:+ Py.lower ws
                 +:+ Py.lower word +:+ Py.lower post)) eqn:Es; [|done].
    apply no_border in Es as [Hnil%lower_nil | Hs]; [done|].
    rewrite lower_app in Hpre.
    by rewrite (contains_app_r _ _ _ (startswith_contains _ _ Hs)) in Hpre.
Qed.

Lemma search_some r pre s g :
  Re.run r s None (fun cap _ => Some (default "" cap)) = Some g ->
  exists g', Re.search r (pre +:+ s) = Some g'.
Proof.
  intros H. induction pre as [|c pre IH]; sapp.
  - exists g. by apply search_hit.
  - cbn [Re.search]. rewrite <- append_cons.
    destruct (Re.run r (String c pre +:+ s) None _) as [g1|]; eauto.
Qed.

Lemma lower_char_hash c : Py.lower_char c = "#"%char -> c = "#"%char.
Proof. destruct c as [[] [] [] [] [] [] [] []]; vm_compute; congruence. Qed.

Lemma lower_hashes h : Py.lower h = "##" -> h = "##".
Proof.
  destruct h as [|c1 [|c2 [|c3 h]]]; try done.
  unfold Py.lower. cbn [Py.map_chars].
  intros [= H1 H2]. apply lower_char_hash in H1, H2. by subst.
Qed.

(** The marker pattern finds a label TDD: with the word no behind it. *)
Lemma tdd_no_spec s :
  (exists g, Re.search CheckTicket.re_tdd_no s = Some g)
  <-> exists b1 label ws no b2,
        s = b1 +:+ label +:+ ws +:+ no +:+ b2
        /\ Py.lower label = "tdd:" /\ all_space ws = true
        /\ Py.lower no = "no".
Proof.
  split.
  - intros (g & E). apply search_split in E as (b1 & s' & -> & E).
    unfold CheckTicket.re_tdd_no in E. cbn [Re.run] in E.
    apply run_lit_chi_inv in E as (label & r1 & -> & Hl & E).
    apply star_greedy_split in E as (ws & r2 & -> & Hws & E).
    apply run_lit_chi_inv in E as (no & b2 & -> & Hn & _).
    by exists b1, label, ws, no, b2.
  - intros (b1 & label & ws & no & b2 & -> & Hl & Hws & Hn).
    apply (search_some _ _ _ "").
    unfold CheckTicket.re_tdd_no. cbn [Re.run].
    rewrite run_lit_chi_app by done. cbn [Re.run].
    destruct no as [|c w]; [done|].
    assert (Hc : Py.isspace c = false).
    { destruct (Py.isspace c) eqn:Es; [|done].
      pose proof (space_not_lowered c Es) as El.
      unfold Py.lower in Hn. cbn [Py.map_chars] in Hn.
      rewrite El in Hn. by injection Hn as -> _. }
    rewrite append_cons.
    erewrite star_greedy_app; [reflexivity | exact Hws | exact Hc |].
    rewrite <- append_cons. by rewrite run_lit_chi_app.
Qed.

(** What the lookahead behind the section accepts. *)
Lemma section_end post cap :
  Re.run (Re.Alt (Re.Seq (Re.ch Re.nl) (Re.lit Re.chi "##")) Re.EndZ)
    post cap (fun _ _ => Some tt) = Some tt
  <-> post = "" \/ Py.startswith (NL +:+ "##") post = true.
Proof.
  assert (Hh : forall c,
    Ascii.eqb (Py.lower_char c) (Py.lower_char "#") = Ascii.eqb "#" c).
  { intros c. destruct (Ascii.eqb_spec "#" c) as [<- | Hne]; [done|].
    apply Ascii.eqb_neq. intros H. by apply lower_char_hash in H. }
  change (NL +:+ "##") with (String Re.nl "##").
  destruct post as [|c1 [|c2 [|c3 post]]];
    cbn [Re.run Re.ch Re.lit Re.chi Py.startswith]; rewrite ?Hh.
  all: repeat match goal with
       | |- context [Ascii.eqb ?a ?b] => destruct (Ascii.eqb a b)
       end; cbn [andb]; split; auto; try done.
  all: try (intros [|]; done).
Qed.

(** The section that the pattern of the Constraints header takes. *)
Lemma constraints_inv content sec :
  Re.search CheckTicket.re_constraints content = Some sec ->
  exists pre ws1 word ws2 post,
    content = pre +:+ "##" +:+ ws1 +:+ word +:+ ws2 +:+ NL +:+ sec +:+ post
    /\ all_space ws1 = true /\ Py.lower word = "constraints"
    /\ all_space ws2 = true
    /\ (post = "" \/ Py.startswith (NL +:+ "##") post = true).
Proof.
  intros E. apply search_split in E as (pre & s' & -> & E).
  unfold CheckTicket.re_constraints in E. cbn [Re.run] in E.
  apply run_lit_chi_inv in E as (h & r1 & -> & Hh%lower_hashes & E).
  apply star_greedy_split in E as (ws1 & r2 & -> & Hws1 & E).
  apply run_lit_chi_inv in E as (word & r3 & -> & Hw & E).
  apply star_greedy_split in E as (ws2 & r4 & -> & Hws2 & E).
  destruct r4 as [|c r5]; [done|]. unfold Re.ch in E. cbn [Re.run] in E.
  destruct (Ascii.eqb_spec Re.nl c) as [<- | Hne]; [|done].
  apply star_lazy_split in E as (body & post & -> & _ & E).
  pose proof (section_end post (Some (Re.consumed (body +:+ post) post)))
    as Hend.
  unfold Re.ch in Hend. cbn [Re.run] in Hend.
  match type of E with
  | match ?r with _ => _ end = _ => destruct r as [[]|]
  end; [|done].
  pose proof (proj1 Hend eq_refl) as Hpost. cbn [default] in E. injection E as <-.
  rewrite consumed_app.
  exists pre, ws1, word, ws2, post. by subst h.
Qed.

(** X17. TDD is only switched off by a marker behind a Constraints
    header.  For a definition of characters below 256: when
    [check_tdd_enabled] answers no, 1-definition.md has a
    header ## Constraints (the word in any case, whitespace around it),
    then a line break, then a section that holds the label TDD: with
    the word no behind it (in any case, whitespace between them); the
    section ends at the end of the text or before a line break followed
    by ##. *)
Theorem tdd_disabled_sound ticket_path :
  CheckTicket.check_tdd_enabled ticket_path = false ->
  exists content pre ws1 word ws2 section post b1 label ws no b2,
    ticket_path !! "1-definition.md" = Some content
    /\ content
       = pre +:+ "##" +:+ ws1 +:+ word +:+ ws2 +:+ NL +:+ section +:+ post
    /\ all_space ws1 = true /\ Py.lower word = "constraints"
    /\ all_space ws2 = true
    /\ (post = "" \/ Py.startswith (NL +:+ "##") post = true)
    /\ section = b1 +:+ label +:+ ws +:+ no +:+ b2
    /\ Py.lower label = "tdd:" /\ all_space ws = true
    /\ Py.lower no = "no".
Proof.
  unfold CheckTicket.check_tdd_enabled.
  destruct (ticket_path !! "1-definition.md") as [content|]; [|done].
  destruct (Re.search CheckTicket.re_constraints content) as [sec|] eqn:E;
    [|done].
  destruct (Re.search CheckTicket.re_tdd_no sec) as [g|] eqn:Et; [|done].
  intros _.
  apply constraints_inv in E
    as (pre & ws1 & word & ws2 & post & -> & Hws1 & Hw & Hws2 & Hpost).
  destruct (proj1 (tdd_no_spec sec) (ex_intro _ g Et))
    as (b1 & label & ws & no & b2 & Hsec & Hl & Hws & Hn).
  exists (pre +:+ "##" +:+ ws1 +:+ word +:+ ws2 +:+ NL +:+ sec +:+ post),
    pre, ws1, word, ws2, sec, post, b1, label, ws, no, b2.
  done.
Qed.

Lemma star_greedy_back {R} p u d c s' (k : string -> option R) x :
  all_chars p u = true -> p d = true -> p c = false ->
  k (String c s') = None -> k (String d (String c s')) = Some x ->
  Re.star_greedy p (u +:+ String d (String c s')) k = Some x.
Proof.
  intros Hu Hd Hc Hn Hk. induction u as [|e u IH]; sapp;
    cbn [Re.star_greedy].
  - by rewrite Hd, Hc, Hn.
  - cbn [all_chars] in Hu. apply andb_true_iff in Hu as [-> Hu].
    by rewrite (IH Hu).
Qed.

Lemma star_lazy_first {R} u s (k : string -> option R) x :
  (forall u1 u2, u = u1 +:+ u2 -> u2 <> "" -> k (u2 +:+ s) = None) ->
  k s = Some x ->
  Re.star_lazy Re.any (u +:+ s) k = Some x.
Proof.
  intros H Hk. induction u as [|e u IH]; sapp.
  - destruct s; cbn [Re.star_lazy]; by rewrite Hk.
  - cbn [Re.star_lazy]. rewrite <- append_cons.
    rewrite (H "" (String e u)) by done.
    unfold Re.any at 1. apply IH.
    intros u1 u2 -> Hne. by apply (H (String e u1) u2).
Qed.

Lemma header_border u post :
  u <> "" ->
  post = "" \/ Py.startswith (NL +:+ "##") post = true ->
  Py.startswith (NL +:+ "##") (u +:+ post) = true ->
  Py.startswith (NL +:+ "##") u = true.
Proof.
  change (NL +:+ "##") with (String Re.nl "##").
  intros Hu Hpost.
  destruct u as [|c1 [|c2 [|c3 u]]]; [done | | |];
    sapp; cbn [Py.startswith]; [| |done].
  all: destruct Hpost as [-> | Hpost]; [cbn [Py.startswith];
         rewrite ?andb_false_r; done|].
  all: destruct post as [|d post]; [done|].
  all: cbn [Py.startswith] in Hpost |- *.
  all: apply andb_true_iff in Hpost as [<-%Ascii.eqb_eq _].
  all: cbn [Ascii.eqb Bool.eqb Re.nl ascii_of_nat]; rewrite ?andb_false_r;
    try done.
Qed.

Lemma word_head word w :
  Py.lower word = String "c" w \/ Py.lower word = String "n" w
  \/ Py.lower word = String "b" w ->
  exists c word', word = String c word' /\ Py.isspace c = false.
Proof.
  destruct word as [|c word']; [by intros [|[|]]|].
  intros H. exists c, word'. split; [done|].
  destruct (Py.isspace c) eqn:Es; [|done].
  pose proof (space_not_lowered c Es) as El.
  unfold Py.lower in H. cbn [Py.map_chars] in H. rewrite El in H.
  by destruct H as [[= -> _] | [[= -> _] | [= -> _]]].
Qed.

Lemma run_constraints_header ws1 word ws2 sec post :
  all_space ws1 = true -> Py.lower word = "constraints" ->
  all_space ws2 = true -> starts_with_text sec = true ->
  Py.contains (NL +:+ "##") sec = false ->
  post = "" \/ Py.startswith (NL +:+ "##") post = true ->
  Re.run CheckTicket.re_constraints
    ("##" +:+ ws1 +:+ word +:+ ws2 +:+ NL +:+ sec +:+ post) None
    (fun cap _ => Some (default "" cap))
  = Some sec.
Proof.
  intros Hws1 Hw Hws2 Hsec Hno Hpost.
  unfold CheckTicket.re_constraints. cbn [Re.run].
  rewrite run_lit_chi_app by done. cbn [Re.run].
  destruct (word_head word "onstraints") as (c & word' & Hword & Hc); [auto|].
  rewrite Hword at 1. rewrite append_cons.
  erewrite star_greedy_app; [reflexivity | exact Hws1 | exact Hc |].
  rewrite <- append_cons, <- Hword.
  rewrite run_lit_chi_app by done. cbn [Re.run].
  destruct sec as [|d sec']; [done|]. cbn [starts_with_text] in Hsec.
  apply negb_true_iff in Hsec.
  unfold NL at 1. sapp.
  erewrite star_greedy_back; [reflexivity | exact Hws2 | done | exact Hsec | |].
  - unfold Re.ch. cbn [Re.run].
    destruct (Ascii.eqb_spec Re.nl d) as [<- | Hne]; [done|done].
  - unfold Re.ch at 1. cbn [Re.run]. rewrite Ascii.eqb_refl.
    rewrite <- append_cons.
    erewrite star_lazy_first; [reflexivity | |].
    + intros u1 u2 Hsplit Hne.
      pose proof (section_end (u2 +:+ post)
                    (Some (Re.consumed (String d sec' +:+ post)
                             (u2 +:+ post)))) as Hend.
      unfold Re.ch in Hend |- *. cbn [Re.run] in Hend |- *.
      match goal with
      | |- match ?r with _ => _ end = _ => destruct r as [[]|]
      end; [|done].
      exfalso. destruct (proj1 Hend eq_refl) as [Hnil | Hs].
      * destruct u2; [done | discriminate Hnil].
      * apply header_border in Hs; [|done..].
        rewrite Hsplit in Hno.
        by rewrite (contains_app_r _ _ _ (startswith_contains _ _ Hs)) in Hno.
    + pose proof (section_end post
                    (Some (Re.consumed (String d sec' +:+ post) post)))
        as Hend.
      unfold Re.ch in Hend |- *. cbn [Re.run] in Hend |- *.
      rewrite (proj2 Hend Hpost). cbn [default]. by rewrite consumed_app.
Qed.

Lemma constraints_skip pre s :
  Py.contains "##" pre = false ->
  Re.search CheckTicket.re_constraints (pre +:+ "##" +:+ s)
  = Re.search CheckTicket.re_constraints ("##" +:+ s).
Proof.
  intros Hpre. apply search_skip. intros p1 p2 -> Hne.
  unfold CheckTicket.re_constraints. cbn [Re.run].
  destruct p2 as [|c1 [|c2 p2]]; [done | |].
  - sapp. unfold Re.chi. cbn [Re.lit Re.run Re.star_greedy Py.isspace].
    repeat match goal with
    | |- context [if ?b then _ else _] => destruct b; try done
    end.
  - apply run_lit_chi_fail. sapp.
    change (Py.lower "##") with "##".
    destruct (Py.startswith "##" (Py.lower _)) eqn:Es; [|done]. exfalso.
    unfold Py.lower in Es. cbn [Py.map_chars Py.startswith] in Es.
    apply andb_true_iff in Es as [H1 Es].
    apply andb_true_iff in Es as [H2 _].
    apply Ascii.eqb_eq in H1, H2. symmetry in H1, H2.
    apply lower_char_hash in H1, H2. subst.
    assert (H : Py.contains "##" (p1 +:+ String "#" (String "#" p2)) = true)
      by apply contains_app_r, startswith_contains, (startswith_app "##" p2).
    congruence.
Qed.

(** X18. A well-formed Constraints section scopes the opt-out: when no
    ## comes before the header, the section starts with a character
    that is not whitespace, no line of it starts with ##, and it ends at
    the end of the text or before a line that starts with ##, then TDD
    is switched off exactly when that section holds the label TDD:
    with the word no behind it; what follows the section has no
    influence. *)
Theorem tdd_section_scoped ticket_path pre ws1 word ws2 section post :
  Py.contains "##" pre = false ->
  all_space ws1 = true -> Py.lower word = "constraints" ->
  all_space ws2 = true ->
  starts_with_text section = true ->
  Py.contains (NL +:+ "##") section = false ->
  post = "" \/ Py.startswith (NL +:+ "##") post = true ->
  CheckTicket.check_tdd_enabled
    (<["1-definition.md" :=
         pre +:+ "##" +:+ ws1 +:+ word +:+ ws2 +:+ NL +:+ section +:+ post]>
       ticket_path) = false
  <-> exists b1 label ws no b2,
        section = b1 +:+ label +:+ ws +:+ no +:+ b2
        /\ Py.lower label = "tdd:" /\ all_space ws = true
        /\ Py.lower no = "no".
Proof.
  intros Hpre Hws1 Hw Hws2 Hsec Hno Hpost.
  unfold CheckTicket.check_tdd_enabled. rewrite lookup_insert_eq.
  rewrite constraints_skip by done.
  rewrite (search_hit _ _ section
             (run_constraints_header ws1 word ws2 section post
                Hws1 Hw Hws2 Hsec Hno Hpost)).
  rewrite <- tdd_no_spec.
  destruct (Re.search CheckTicket.re_tdd_no section) as [g|].
  - split; [eauto | done].
  - split; [done | by intros [g Hg]].
Qed.

End Labels.

(** ** The next step of check_tests.py *)

Section Advice.
Import CheckTests.
Import Lifecycle(records).

Lemma with_status_none f D :
  Nat.eqb (length (with_status f D)) 0 = true
  <-> forall d, In d D -> status d <> f.
Proof.
  rewrite Nat.eqb_eq, length_zero_iff_nil. unfold with_status.
  induction D as [|d D IH]; cbn [List.filter].
  - split; [by intros _ d [] | done].
  - destruct (String.eqb_spec (status d) f) as [E | E].
    + split; [done|]. intros H. by destruct (H d (or_introl eq_refl)).
    + rewrite IH. split.
      * intros H d' [<- | Hin]; auto.
      * intros H d' Hin. apply H. by right.
Qed.

(** The advice of [check_tests] for a manifest with records. *)
Lemma check_tests_next_step ticket_id docs_path :
  records docs_path ticket_id <> [] ->
  let r := check_tests ticket_id docs_path in
  next_step r
  = if negb (valid r) then
      if negb (all_red_verified r) then
        "Run RED phase for tests missing red_verified"
      else if negb (all_trajectories_complete r) then
        "Re-run tests and record trajectory"
      else "Fix issues listed above"
    else
      if negb (Nat.eqb (length (with_status "blocked" (tests r))) 0) then
        "Resolve blocked tests: "
        +:+ Py.join ", " (ids (with_status "blocked" (tests r)))
      else if negb (Nat.eqb (length (with_status "failed" (tests r))) 0) then
        "Fix failing tests: "
        +:+ Py.join ", " (ids (with_status "failed" (tests r)))
      else if negb (Nat.eqb (length (with_status "pending" (tests r))) 0) then
        if negb (all_red_verified r) then
          "Run RED phase: "
          +:+ Py.join ", "
                (ids (List.filter (fun t => negb (red_verified t))
                        (with_status "pending" (tests r))))
        else
          "Implement to pass: "
          +:+ Py.join ", " (ids (with_status "pending" (tests r)))
      else "All tests passed with valid trajectory".
Proof.
  unfold records, check_tests.
  destruct (manifests docs_path !! ticket_id) as [[e|data]|]; try done.
  set (l := Py.get (Manifest.d_tests data) []).
  intros Hne. destruct l as [|t0 l0] eqn:El; [done|].
  cbn [length Nat.eqb]. rewrite <- El.
  cbn [tests valid all_red_verified all_trajectories_complete next_step].
  by rewrite negb_involutive.
Qed.

(** X19. The advice of check_tests.py: the text Fix issues listed above
    is never given, because every issue comes with a record that lacks
    the RED verification or a trajectory; and the advice is All tests
    passed with valid trajectory exactly when the manifest is valid and
    no record has the status pending, failed or blocked. *)
Theorem tests_next_step_verdict ticket_id docs_path :
  next_step (check_tests ticket_id docs_path) <> "Fix issues listed above"
  /\ (next_step (check_tests ticket_id docs_path)
      = "All tests passed with valid trajectory"
      <-> valid (check_tests ticket_id docs_path) = true
          /\ forall t, In t (records docs_path ticket_id) ->
               status (test_detail t) <> "pending"
               /\ status (test_detail t) <> "failed"
               /\ status (test_detail t) <> "blocked").
Proof.
  destruct (records docs_path ticket_id) as [|t0 l0] eqn:Er.
  - unfold records in Er. unfold check_tests.
    destruct (manifests docs_path !! ticket_id) as [[e|data]|];
      try rewrite Er; cbv zeta; cbn [length Nat.eqb next_step valid].
    all: split; [done | split; [done | by intros [? _]]].
  - assert (Hne : records docs_path ticket_id <> []) by (by rewrite Er).
    pose proof (check_tests_next_step _ _ Hne) as Hn. cbv zeta in Hn.
    destruct (check_tests_with_records _ _ Hne)
      as (Ht & _ & Hi & Hv & Hred & Htr & _).
    rewrite <- Er. set (l := records docs_path ticket_id) in *.
    assert (Hst : forall f,
      Nat.eqb (length (with_status f (tests (check_tests ticket_id docs_path))))
        0 = true
      <-> forall t, In t l -> status (test_detail t) <> f).
    { intros f. rewrite with_status_none, Ht. split.
      - intros H t Hin. apply H, in_map_iff. eauto.
      - intros H d (t & <- & Hin)%in_map_iff. auto. }
    rewrite Hn. clear Hn.
    destruct (valid (check_tests ticket_id docs_path)) eqn:Ev; cbn [negb].
    + pose proof (Hst "blocked") as Hb. pose proof (Hst "failed") as Hf.
      pose proof (Hst "pending") as Hp.
      destruct (Nat.eqb (length (with_status "blocked" _)) 0); cbn [negb];
        [|split; [done|]; split; [done|];
          intros [_ H]; exfalso;
          assert (false = true) by (apply Hb; intros t Hin; by apply H);
          done].
      destruct (Nat.eqb (length (with_status "failed" _)) 0); cbn [negb];
        [|split; [done|]; split; [done|];
          intros [_ H]; exfalso;
          assert (false = true) by (apply Hf; intros t Hin; by apply H);
          done].
      destruct (Nat.eqb (length (with_status "pending" _)) 0); cbn [negb].
      * split; [done|]. split; [|done]. intros _. split; [done|].
        intros t Hin. repeat split.
        -- by apply (proj1 Hp).
        -- by apply (proj1 Hf).
        -- by apply (proj1 Hb).
      * destruct (all_red_verified _); cbn [negb].
        all: split; [done|]; split; [done|].
        all: intros [_ H]; exfalso.
        all: assert (false = true) by (apply Hp; intros t Hin; by apply H).
        all: done.
    + destruct (all_red_verified _) eqn:Era; cbn [negb];
        [|split; [done | split; [done | by intros [? _]]]].
      destruct (all_trajectories_complete _) eqn:Etr; cbn [negb];
        [|split; [done | split; [done | by intros [? _]]]].
      exfalso.
      rewrite Hi in Hv. symmetry in Hv. apply Nat.eqb_neq in Hv.
      apply Hv. apply length_zero_iff_nil, flat_map_nil.
      intros t Hin. apply status_issues_nil. unfold Facts.evidenced.
      symmetry in Hred, Htr.
      rewrite forallb_forall in Hred, Htr.
      specialize (Hred t Hin). specialize (Htr t Hin). cbv beta in Hred, Htr.
      rewrite Hred. destruct (String.eqb (status (test_detail t)) "passed");
        cbn [negb orb andb] in *; [|done].
      by destruct (has_trajectory (test_detail t)).
Qed.

End Advice.

(** ** The ticket summary of check_phase.py against check_ticket.py *)

Section Phase.
Import CheckTicket Lifecycle Facts.

Lemma summary_final_status ticket_id docs_path :
  let summary := CheckPhase.check_ticket_status ticket_id docs_path in
  CheckPhase.final_status summary
  = final_status (check_ticket ticket_id docs_path)
  /\ (CheckPhase.next_step summary = "complete"
      <-> CheckPhase.final_status summary = Some "COMPLETE")
  /\ (CheckPhase.next_step summary = "blocked"
      <-> exists x, CheckPhase.final_status summary = Some x
                    /\ x <> "COMPLETE").
Proof.
  unfold CheckPhase.check_ticket_status, check_ticket.
  destruct (tickets docs_path !! ticket_id) as [ticket_path|].
  - match goal with
    | |- context [with_next_step ?s] =>
        destruct (with_next_step_fields s) as (_ & _ & _ & -> & _)
    end.
    cbn [final_status]. unfold parse_final_status.
    change FINAL_DOC with "5-final.md".
    change CheckPhase.re_status with re_status.
    destruct (ticket_path !! "5-final.md") as [content|].
    + destruct (Re.search re_status content) as [g|] eqn:E.
      * cbv zeta. cbn [CheckPhase.final_status CheckPhase.next_step].
        split; [done|].
        destruct (String.eqb_spec (Py.upper g) "COMPLETE") as [Hg | Hg].
        -- rewrite Hg. split; split; try done.
           intros (x & [= <-] & Hx). done.
        -- split; split; try done.
           ++ by intros [= ?].
           ++ intros _. by exists (Py.upper g).
      * cbn. split; [done|]. split; split; try done.
        by intros (x & ? & _).
    + cbv zeta. cbn [CheckPhase.final_status CheckPhase.next_step].
      split; [done|].
      destruct (negb _); split; split; try done.
      all: by intros (x & ? & _).
  - match goal with
    | |- context [with_next_step ?s] =>
        destruct (with_next_step_fields s) as (_ & _ & _ & -> & _)
    end.
    cbn. split; [done|]. split; split; try done.
    by intros (x & ? & _).
Qed.

(** X20. check_phase.py reads the same disposition as check_ticket.py:
    the final status of its ticket summary is the one check_ticket
    records.  The next step of the summary is complete exactly when
    that disposition is COMPLETE, and blocked exactly when it is any
    other text.  A ticket that check_ticket classifies blocked is
    blocked in the summary; a ticket that the summary calls complete is
    classified complete by check_ticket exactly when its documents are
    ready: the summary does not look at the required documents or the
    spec when 5-final.md carries a disposition. *)
Theorem phase_summary_agreement ticket_id docs_path :
  let summary := CheckPhase.check_ticket_status ticket_id docs_path in
  let st := check_ticket ticket_id docs_path in
  CheckPhase.final_status summary = final_status st
  /\ (CheckPhase.next_step summary = "complete"
      <-> final_status st = Some "COMPLETE")
  /\ (CheckPhase.next_step summary = "blocked"
      <-> exists x, final_status st = Some x /\ x <> "COMPLETE")
  /\ (next_step st = "blocked" -> CheckPhase.next_step summary = "blocked")
  /\ (CheckPhase.next_step summary = "complete" ->
      (next_step st = "complete" <-> documents_ready st = true)).
Proof.
  cbv zeta.
  destruct (summary_final_status ticket_id docs_path) as (Hfs & Hc & Hb).
  cbv zeta in Hc, Hb. rewrite Hfs in Hc, Hb.
  split; [done|]. split; [done|]. split; [done|].
  rewrite Hc, Hb.
  destruct (check_ticket_shape ticket_id docs_path) as (s & -> & _).
  destruct (with_next_step_fields s) as (_ & _ & _ & -> & _ & _ & -> & _).
  destruct (with_next_step_vocabulary s) as (-> & _).
  pose proof (decision_table s) as Hf.
  split.
  - intros Hstep. rewrite Hstep in Hf.
    inversion Hf as [| | | |Hready Hfinal| | | | | | | | | | |]; try done.
    by exists "BLOCKED".
  - intros Hfinal. split.
    + intros Hstep. rewrite Hstep in Hf.
      inversion Hf as [| | |Hready ?| | | | | | | | | | |
                       |d x Hpast]; try done.
      by destruct Hpast.
    + intros Hready.
      by rewrite (fires_result s _ _ (R_complete s Hready Hfinal)).
Qed.

(** X21. The classification stays within the declared vocabulary:
    for every status, [determine_next_step] gives one of the ten tags
    of [NextStep], and so does the status that [check_ticket] returns. *)
Theorem next_step_in_vocabulary ticket_id docs_path st :
  In (fst (determine_next_step st)) NextStep
  /\ In (next_step (check_ticket ticket_id docs_path)) NextStep.
Proof.
  assert (H : forall s, In (fst (determine_next_step s)) NextStep).
  { intros s. pose proof (decision_table s) as Hf.
    inversion Hf; unfold NextStep; cbn [In]; tauto. }
  split; [apply H|].
  destruct (check_ticket_shape ticket_id docs_path) as (s & -> & _).
  destruct (with_next_step_fields s) as (_ & _ & _ & _ & _ & _ & -> & _).
  apply H.
Qed.

End Phase.

(** ** The tally of check_phase.py *)

Section Tally.
Import CheckPhase.
Import Facts(disposition, is_complete, is_held, is_open, cnt).

Lemma tally_loop docs_path l : forall status,
  let r := fold_left (tally docs_path) l status in
  ps_tickets r
  = ps_tickets status ++ map (fun t => check_ticket_status t docs_path) l
  /\ total r = total status
  /\ complete r = complete status + cnt (is_complete docs_path) l
  /\ blocked r = blocked status + cnt (is_held docs_path) l
  /\ in_progress r = in_progress status + cnt (is_open docs_path) l
  /\ next_ticket r
     = match next_ticket status with
       | Some t => Some t
       | None => List.find (is_open docs_path) l
       end.
Proof.
  unfold cnt.
  induction l as [|t l IH]; intros status; cbn [fold_left map List.filter
    List.find length].
  - rewrite app_nil_r, !Nat.add_0_r. by destruct (next_ticket status).
  - destruct (IH (tally docs_path status t)) as (H1 & H2 & H3 & H4 & H5 & H6).
    cbv zeta in *. rewrite H1, H2, H3, H4, H5, H6.
    unfold tally at 1 2 3 4 5 6.
    cbn [ps_tickets total complete blocked in_progress next_ticket].
    unfold is_open, is_complete, is_held, disposition.
    rewrite <- app_assoc.
    destruct (bool_decide (final_status (check_ticket_status t docs_path)
                           = Some "COMPLETE")) eqn:Ec;
      destruct (bool_decide (final_status (check_ticket_status t docs_path)
                             = Some "BLOCKED")) eqn:Eb;
      try (apply bool_decide_eq_true in Ec, Eb; congruence);
      cbn [negb andb length]; repeat split; try done; try lia.
    by destruct (next_ticket status).
Qed.

Lemma cnt_partition docs_path l :
  cnt (is_complete docs_path) l + cnt (is_held docs_path) l
  + cnt (is_open docs_path) l = length l.
Proof.
  unfold cnt. induction l as [|t l IH]; [done|].
  cbn [List.filter length].
  assert (H : is_open docs_path t
              = negb (is_complete docs_path t) && negb (is_held docs_path t))
    by done.
  assert (H' : is_complete docs_path t = true -> is_held docs_path t = false).
  { unfold is_complete, is_held. intros E%bool_decide_eq_true.
    apply bool_decide_eq_false. congruence. }
  destruct (is_complete docs_path t), (is_held docs_path t),
    (is_open docs_path t); cbn [negb andb length] in *; try done; try lia.
Qed.

Lemma cnt_all f l : cnt f l = length l <-> forall t, In t l -> f t = true.
Proof.
  unfold cnt. induction l as [|t l IH]; cbn [List.filter length].
  - split; [by intros _ t [] | done].
  - pose proof (filter_length_le f l) as Hle.
    destruct (f t) eqn:E; cbn [length].
    + split.
      * intros H t' [<- | Hin]; [done|]. apply IH; [lia | done].
      * intros H. f_equal. apply IH. intros t' Hin. apply H. by right.
    + split; [lia|]. intros H. rewrite (H t) in E by (by left). done.
Qed.

Lemma cnt_pos f l : 0 < cnt f l <-> exists t, In t l /\ f t = true.
Proof.
  unfold cnt. induction l as [|t l IH]; cbn [List.filter].
  - split; [cbn; lia | by intros (t & [] & _)].
  - destruct (f t) eqn:E; cbn [length].
    + split; [|lia]. intros _. exists t. split; [by left | done].
    + rewrite IH. split.
      * intros (t' & Hin & Ht). exists t'. split; [by right | done].
      * intros (t' & [<- | Hin] & Ht); [congruence|]. eauto.
Qed.

(** The status that [check_phase] returns for a phase of the roadmap. *)
Lemma check_phase_found phase_id docs_path goal' tickets' :
  let r := check_phase phase_id docs_path (true, goal', tickets') in
  found r = true
  /\ ps_tickets r = map (fun t => check_ticket_status t docs_path) tickets'
  /\ total r = length tickets'
  /\ complete r = cnt (is_complete docs_path) tickets'
  /\ blocked r = cnt (is_held docs_path) tickets'
  /\ in_progress r = cnt (is_open docs_path) tickets'
  /\ next_ticket r = List.find (is_open docs_path) tickets'
  /\ phase_complete r
     = negb (Nat.eqb (total r) 0) && negb (0 <? blocked r)
       && Nat.eqb (complete r) (total r)
  /\ ps_next_step r
     = if Nat.eqb (total r) 0 then "No tickets in phase"
       else if 0 <? blocked r then
         pretty (blocked r) +:+ " ticket(s) blocked"
       else if Nat.eqb (complete r) (total r) then
         "Phase complete - ready to archive"
       else
         pretty (total r - complete r)
         +:+ " ticket(s) remaining - next: "
         +:+ default "None" (next_ticket r).
Proof.
  unfold check_phase. cbn [negb]. cbv zeta.
  match goal with
  | |- context [fold_left (tally docs_path) tickets' ?s0] =>
      destruct (tally_loop docs_path tickets' s0)
        as (H1 & H2 & H3 & H4 & H5 & H6)
  end.
  cbv zeta in *.
  cbn [found ps_tickets total complete blocked in_progress next_ticket
       phase_complete ps_next_step] in *.
  rewrite H1, H2, H3, H4, H5, H6. repeat split; done.
Qed.

(** X22. The tally of a phase that the roadmap has: the summaries are
    those of the tickets of the phase, in their order; the total is
    their number; complete counts the tickets whose disposition is
    COMPLETE, blocked those whose disposition is BLOCKED and in_progress
    all others; the three counters add up to the total. *)
Theorem phase_tally phase_id docs_path goal' tickets' :
  let r := check_phase phase_id docs_path (true, goal', tickets') in
  map ticket_id (ps_tickets r) = tickets'
  /\ total r = length tickets'
  /\ complete r + blocked r + in_progress r = total r
  /\ complete r = cnt (is_complete docs_path) tickets'
  /\ blocked r = cnt (is_held docs_path) tickets'
  /\ in_progress r = cnt (is_open docs_path) tickets'.
Proof.
  destruct (check_phase_found phase_id docs_path goal' tickets')
    as (_ & Ht & Htot & Hc & Hb & Hi & _).
  cbv zeta in *. rewrite Ht, Htot, Hc, Hb, Hi.
  repeat split; try done.
  - rewrite map_map. clear. induction tickets' as [|t l IH]; [done|].
    cbn [map]. rewrite IH. f_equal.
    unfold check_ticket_status.
    destruct (tickets docs_path !! t) as [tp|]; [|done].
    destruct (tp !! "5-final.md"); [|done].
    by destruct (Re.search re_status _).
  - apply cnt_partition.
Qed.

(** X23. A phase is complete exactly when the roadmap has it, it has
    at least one ticket and every ticket has the disposition COMPLETE:
    a phase without tickets is never complete.  The exit status of
    check_phase.py is 0 exactly for a complete phase, 2 exactly when the
    phase is found and some ticket is BLOCKED, 3 exactly when the phase
    is not found, and 1 when the docs path does not exist. *)
Theorem phase_complete_iff phase_id docs_path found' goal' tickets' :
  let roadmap := (found', goal', tickets') in
  (phase_complete (check_phase phase_id docs_path roadmap) = true
   <-> found' = true /\ tickets' <> []
       /\ forall t, In t tickets' ->
            disposition docs_path t = Some "COMPLETE")
  /\ (main phase_id (Some docs_path) roadmap = 0
      <-> phase_complete (check_phase phase_id docs_path roadmap) = true)
  /\ (main phase_id (Some docs_path) roadmap = 2
      <-> found' = true
          /\ exists t, In t tickets'
                       /\ disposition docs_path t = Some "BLOCKED")
  /\ (main phase_id (Some docs_path) roadmap = 3 <-> found' = false)
  /\ main phase_id None roadmap = 1.
Proof.
  cbv zeta. destruct found'.
  - destruct (check_phase_found phase_id docs_path goal' tickets')
      as (Hf & _ & Htot & Hc & Hb & _ & _ & Hpc & _).
    cbv zeta in *. unfold main. rewrite Hf, Hpc, Htot, Hc, Hb. cbn [negb].
    pose proof (cnt_partition docs_path tickets') as Hpart.
    pose proof (cnt_all (is_complete docs_path) tickets') as Hall.
    pose proof (cnt_pos (is_held docs_path) tickets') as Hpos.
    assert (Hheld : (exists t, In t tickets'
                       /\ disposition docs_path t = Some "BLOCKED")
                    <-> 0 < cnt (is_held docs_path) tickets').
    { rewrite Hpos. unfold is_held.
      split; intros (t & Hin & Ht); exists t; (split; [done|]).
      - by apply bool_decide_eq_true.
      - by apply bool_decide_eq_true in Ht. }
    assert (Hcomp : (forall t, In t tickets' ->
                       disposition docs_path t = Some "COMPLETE")
                    <-> cnt (is_complete docs_path) tickets'
                        = length tickets').
    { rewrite Hall. unfold is_complete.
      split; intros H t Hin; specialize (H t Hin).
      - by apply bool_decide_eq_true.
      - by apply bool_decide_eq_true in H. }
    rewrite Hheld, Hcomp.
    assert (Hne : tickets' <> [] <-> length tickets' <> 0)
      by (by rewrite length_zero_iff_nil).
    rewrite Hne. clear Hall Hpos Hheld Hcomp Hne Hf Hpc Htot Hc Hb.
    destruct (Nat.eqb_spec (length tickets') 0),
      (Nat.ltb_spec 0 (cnt (is_held docs_path) tickets')),
      (Nat.eqb_spec (cnt (is_complete docs_path) tickets') (length tickets'));
      cbn [negb andb]; repeat split; intros; try done; try lia.
    all: intuition (try done; lia).
  - unfold main, check_phase. cbn.
    repeat split; try done. all: by intros [? _].
Qed.

(** X24. The advice for a phase that the roadmap has: [next_ticket]
    is the first ticket of the phase that is neither COMPLETE nor
    BLOCKED.  The advice is one of four: no tickets; the number of
    blocked tickets, when there is one; phase complete; or the number of
    remaining tickets with the next ticket, and then no ticket is
    blocked, the remaining tickets are those in progress and the next
    ticket is named: the text None does not stand for it. *)
Theorem phase_next_step phase_id docs_path goal' tickets' :
  let r := check_phase phase_id docs_path (true, goal', tickets') in
  next_ticket r = List.find (is_open docs_path) tickets'
  /\ ((tickets' = [] /\ ps_next_step r = "No tickets in phase")
      \/ (0 < blocked r
          /\ ps_next_step r = pretty (blocked r) +:+ " ticket(s) blocked")
      \/ (phase_complete r = true
          /\ ps_next_step r = "Phase complete - ready to archive")
      \/ (exists t,
            next_ticket r = Some t /\ In t tickets'
            /\ is_open docs_path t = true
            /\ blocked r = 0 /\ total r - complete r = in_progress r
            /\ ps_next_step r
               = pretty (total r - complete r)
                 +:+ " ticket(s) remaining - next: " +:+ t)).
Proof.
  destruct (check_phase_found phase_id docs_path goal' tickets')
    as (_ & _ & Htot & Hc & Hb & Hi & Hn & Hpc & Hs).
  cbv zeta in *. split; [done|].
  pose proof (cnt_partition docs_path tickets') as Hpart.
  rewrite Hs, Hpc, Hn. rewrite Htot, Hc, Hb, Hi. clear Hs Hpc.
  destruct (Nat.eqb_spec (length tickets') 0) as [E0 | E0].
  { left. split; [by apply length_zero_iff_nil | done]. }
  destruct (Nat.ltb_spec 0 (cnt (is_held docs_path) tickets')) as [Eb | Eb].
  { right; left. done. }
  destruct (Nat.eqb_spec (cnt (is_complete docs_path) tickets')
              (length tickets')) as [Ec | Ec].
  { right; right; left. done. }
  right; right; right.
  destruct (List.find (is_open docs_path) tickets') as [t|] eqn:Ef.
  - apply find_some in Ef as [Hin Ht]. exists t. cbn [default].
    repeat split; try done; lia.
  - exfalso.
    assert (Hpos : 0 < cnt (is_open docs_path) tickets') by lia.
    apply cnt_pos in Hpos as (t & Hin & Ht).
    by rewrite (find_none _ _ Ef t Hin) in Ht.
Qed.

End Tally.

(** ** The further properties on the sample tickets *)

Section Instances.
Import Samples Lifecycle Facts.



Lemma gate_off_ignores_manifest_opted_out :
  CheckTicket.tdd_enabled (CheckTicket.check_ticket T1 opted_out) = false
  /\ CheckTicket.next_step
       (CheckTicket.check_ticket T1
          {| tickets := tickets opted_out; manifests := manifests signed_off |})
     = CheckTicket.next_step (CheckTicket.check_ticket T1 opted_out)
  /\ CheckTicket.next_step_detail
       (CheckTicket.check_ticket T1
          {| tickets := tickets opted_out; manifests := manifests signed_off |})
     = CheckTicket.next_step_detail (CheckTicket.check_ticket T1 opted_out).
Proof.
  assert (H : CheckTicket.tdd_enabled (CheckTicket.check_ticket T1 opted_out)
              = false) by (vm_compute; reflexivity).
  split; [exact H|].
  exact (gate_off_ignores_manifest T1 opted_out (manifests signed_off) H).
Defined.

Lemma needs_tests_no_manifest :
  at_gate (CheckTicket.check_ticket T1 no_manifest)
  /\ (CheckTicket.next_step (CheckTicket.check_ticket T1 no_manifest)
      = "needs-tests"
      <-> records no_manifest T1 = [])
  /\ (records no_manifest T1 = [] ->
      CheckTicket.next_step_detail (CheckTicket.check_ticket T1 no_manifest)
      = match manifests no_manifest !! T1 with
        | Some (Manifest.Decoded _) =>
            "tests.json exists but has no tests defined"
        | _ => "No tests.json found - create test definitions"
        end).
Proof.
  assert (H : at_gate (CheckTicket.check_ticket T1 no_manifest))
    by (repeat split; vm_compute; (reflexivity || discriminate)).
  split; [exact H|].
  exact (needs_tests_iff_no_records T1 no_manifest H).
Defined.

Lemma gate_priority_unverified_pass :
  at_gate (CheckTicket.check_ticket T1 unverified_pass)
  /\ (CheckTicket.next_step (CheckTicket.check_ticket T1 unverified_pass)
      = "tests-blocked"
      <-> existsb is_blocked
            (CheckTicket.ts_tests
               (CheckTicket.tests (CheckTicket.check_ticket T1 unverified_pass)))
          = true)
  /\ (CheckTicket.next_step (CheckTicket.check_ticket T1 unverified_pass)
      = "red-phase"
      <-> existsb is_blocked
            (CheckTicket.ts_tests
               (CheckTicket.tests (CheckTicket.check_ticket T1 unverified_pass)))
          = false
          /\ forallb CheckTicket.red_verified
               (CheckTicket.ts_tests
                  (CheckTicket.tests
                     (CheckTicket.check_ticket T1 unverified_pass)))
             = false)
  /\ (CheckTicket.next_step (CheckTicket.check_ticket T1 unverified_pass)
      = "tests-failing"
      <-> existsb is_blocked
            (CheckTicket.ts_tests
               (CheckTicket.tests (CheckTicket.check_ticket T1 unverified_pass)))
          = false
          /\ forallb CheckTicket.red_verified
               (CheckTicket.ts_tests
                  (CheckTicket.tests
                     (CheckTicket.check_ticket T1 unverified_pass)))
             = true
          /\ existsb is_failed
               (CheckTicket.ts_tests
                  (CheckTicket.tests
                     (CheckTicket.check_ticket T1 unverified_pass)))
             = true).
Proof.
  assert (H : at_gate (CheckTicket.check_ticket T1 unverified_pass))
    by (repeat split; vm_compute; (reflexivity || discriminate)).
  split; [exact H|].
  exact (gate_priority T1 unverified_pass H).
Defined.

Lemma needs_impl_detail_running :
  CheckTicket.next_step (CheckTicket.check_ticket T1 running) = "needs-impl"
  /\ CheckTicket.next_step_detail (CheckTicket.check_ticket T1 running)
     = "Implement to pass: "
       +:+ Py.join ", "
             (map CheckTicket.id
                (List.filter
                   (fun t => String.eqb (CheckTicket.status t) "pending")
                   (CheckTicket.ts_tests
                      (CheckTicket.tests
                         (CheckTicket.check_ticket T1 running))))).
Proof.
  assert (H : CheckTicket.next_step (CheckTicket.check_ticket T1 running)
              = "needs-impl") by (vm_compute; reflexivity).
  split; [exact H|].
  exact (needs_impl_detail T1 running H).
Defined.

Lemma coverage_monotone_running :
  tickets running_then_login = tickets running
  /\ records running_then_login T1
     = records running T1
       ++ [record "TC2" "tc1 login" "pending" true (Py.VBool true) []]
  /\ map CheckTests.sc_name
       (CheckTests.spec_cases (CheckTests.check_tests T1 running_then_login))
     = map CheckTests.sc_name
         (CheckTests.spec_cases (CheckTests.check_tests T1 running))
  /\ length (List.filter CheckTests.covered
               (CheckTests.spec_cases (CheckTests.check_tests T1 running)))
     <= length (List.filter CheckTests.covered
                  (CheckTests.spec_cases
                     (CheckTests.check_tests T1 running_then_login)))
  /\ Forall2
       (fun sc sc' =>
          CheckTests.covered sc = true -> CheckTests.covered sc' = true)
       (CheckTests.spec_cases (CheckTests.check_tests T1 running))
       (CheckTests.spec_cases (CheckTests.check_tests T1 running_then_login)).
Proof.
  assert (H1 : tickets running_then_login = tickets running) by reflexivity.
  assert (H2 : records running_then_login T1
               = records running T1
                 ++ [record "TC2" "tc1 login" "pending" true
                       (Py.VBool true) []])
    by (vm_compute; reflexivity).
  split; [exact H1|]. split; [exact H2|].
  exact (coverage_monotone T1 running running_then_login _ H1 H2).
Defined.

Lemma check_doc_ignores_padding_spec :
  all_space ("  " +:+ NL) = true
  /\ all_space NL = true
  /\ CheckTicket.check_doc
       (<["3-spec.md" := ("  " +:+ NL) +:+ "| tc1_login |" +:+ NL]> ∅)
       "3-spec.md"
     = CheckTicket.check_doc (<["3-spec.md" := "| tc1_login |"]> ∅) "3-spec.md"
  /\ CheckTicket.has_content
       (CheckTicket.check_doc (<["3-spec.md" := "  " +:+ NL]> ∅) "3-spec.md")
     = false
  /\ (Py.len "| tc1_login |" <= 50 ->
      CheckTicket.has_content
        (CheckTicket.check_doc (<["3-spec.md" := "| tc1_login |"]> ∅)
           "3-spec.md")
      = false).
Proof.
  assert (H1 : all_space ("  " +:+ NL) = true) by reflexivity.
  assert (H2 : all_space NL = true) by reflexivity.
  split; [exact H1|]. split; [exact H2|].
  exact (check_doc_ignores_padding ∅ "3-spec.md" ("  " +:+ NL)
           "| tc1_login |" NL H1 H2).
Defined.

Lemma parse_final_status_sound_blocked :
  CheckTicket.parse_final_status (ticket_dir (Some final_blocked))
  = Some "BLOCKED"
  /\ exists text pre label ws word post,
       ticket_dir (Some final_blocked) !! CheckTicket.FINAL_DOC = Some text
       /\ text = pre +:+ label +:+ ws +:+ word +:+ post
       /\ Py.lower label = "status:"
       /\ all_space ws = true
       /\ (Py.lower word = "complete" \/ Py.lower word = "blocked")
       /\ "BLOCKED" = Py.upper word.
Proof.
  assert (H : CheckTicket.parse_final_status (ticket_dir (Some final_blocked))
              = Some "BLOCKED") by (vm_compute; reflexivity).
  split; [exact H|].
  exact (parse_final_status_sound (ticket_dir (Some final_blocked))
           "BLOCKED" H).
Defined.

Lemma parse_final_status_first_label_blocked :
  Py.lower "Status:" = "status:"
  /\ all_space " " = true
  /\ (Py.lower "Blocked" = "complete" \/ Py.lower "Blocked" = "blocked")
  /\ Py.contains "status:" (Py.lower ("# Final" +:+ NL)) = false
  /\ CheckTicket.parse_final_status
       (<[CheckTicket.FINAL_DOC :=
            ("# Final" +:+ NL) +:+ "Status:" +:+ " " +:+ "Blocked"
            +:+ (NL +:+ "Status: COMPLETE once the store is chosen.")]>
          (ticket_dir None))
     = Some (Py.upper "Blocked").
Proof.
  assert (H1 : Py.lower "Status:" = "status:") by reflexivity.
  assert (H2 : all_space " " = true) by reflexivity.
  assert (H3 : Py.lower "Blocked" = "complete"
               \/ Py.lower "Blocked" = "blocked") by (right; reflexivity).
  assert (H4 : Py.contains "status:" (Py.lower ("# Final" +:+ NL)) = false)
    by (vm_compute; reflexivity).
  split; [exact H1|]. split; [exact H2|]. split; [exact H3|].
  split; [exact H4|].
  exact (parse_final_status_first_label (ticket_dir None) ("# Final" +:+ NL)
           "Status:" " " "Blocked"
           (NL +:+ "Status: COMPLETE once the store is chosen.")
           H1 H2 H3 H4).
Defined.

Lemma tdd_disabled_sound_opt_out :
  CheckTicket.check_tdd_enabled {[ "1-definition.md" := definition_opt_out ]}
  = false
  /\ exists content pre ws1 word ws2 section post b1 label ws no b2,
       ({[ "1-definition.md" := definition_opt_out ]} : gmap string string)
         !! "1-definition.md" = Some content
       /\ content
          = pre +:+ "##" +:+ ws1 +:+ word +:+ ws2 +:+ NL +:+ section +:+ post
       /\ all_space ws1 = true /\ Py.lower word = "constraints"
       /\ all_space ws2 = true
       /\ (post = "" \/ Py.startswith (NL +:+ "##") post = true)
       /\ section = b1 +:+ label +:+ ws +:+ no +:+ b2
       /\ Py.lower label = "tdd:" /\ all_space ws = true
       /\ Py.lower no = "no".
Proof.
  assert (H : CheckTicket.check_tdd_enabled
                {[ "1-definition.md" := definition_opt_out ]} = false)
    by (vm_compute; reflexivity).
  split; [exact H|].
  exact (tdd_disabled_sound {[ "1-definition.md" := definition_opt_out ]} H).
Defined.

Lemma tdd_section_scoped_notes :
  Py.contains "##" ("# T00001 Login" +:+ NL) = false
  /\ all_space " " = true
  /\ Py.lower "Constraints" = "constraints"
  /\ all_space "" = true
  /\ starts_with_text "- none" = true
  /\ Py.contains (NL +:+ "##") "- none" = false
  /\ (NL +:+ "## Notes" +:+ NL +:+ "- TDD: no" = ""
      \/ Py.startswith (NL +:+ "##")
           (NL +:+ "## Notes" +:+ NL +:+ "- TDD: no") = true)
  /\ (CheckTicket.check_tdd_enabled
        (<["1-definition.md" :=
             ("# T00001 Login" +:+ NL) +:+ "##" +:+ " " +:+ "Constraints"
             +:+ "" +:+ NL +:+ "- none"
             +:+ (NL +:+ "## Notes" +:+ NL +:+ "- TDD: no")]>
           (ticket_dir None)) = false
      <-> exists b1 label ws no b2,
            "- none" = b1 +:+ label +:+ ws +:+ no +:+ b2
            /\ Py.lower label = "tdd:" /\ all_space ws = true
            /\ Py.lower no = "no").
Proof.
  assert (H1 : Py.contains "##" ("# T00001 Login" +:+ NL) = false)
    by (vm_compute; reflexivity).
  assert (H2 : all_space " " = true) by reflexivity.
  assert (H3 : Py.lower "Constraints" = "constraints") by reflexivity.
  assert (H4 : all_space "" = true) by reflexivity.
  assert (H5 : starts_with_text "- none" = true) by reflexivity.
  assert (H6 : Py.contains (NL +:+ "##") "- none" = false)
    by (vm_compute; reflexivity).
  assert (H7 : NL +:+ "## Notes" +:+ NL +:+ "- TDD: no" = ""
               \/ Py.startswith (NL +:+ "##")
                    (NL +:+ "## Notes" +:+ NL +:+ "- TDD: no") = true)
    by (right; vm_compute; reflexivity).
  split; [exact H1|]. split; [exact H2|]. split; [exact H3|].
  split; [exact H4|]. split; [exact H5|]. split; [exact H6|].
  split; [exact H7|].
  exact (tdd_section_scoped (ticket_dir None) ("# T00001 Login" +:+ NL) " "
           "Constraints" "" "- none"
           (NL +:+ "## Notes" +:+ NL +:+ "- TDD: no")
           H1 H2 H3 H4 H5 H6 H7).
Defined.

End Instances.
